(** * h3-hota-ai-assistant: the snapshot store, the query service, the
      save watcher and the snapshot model

    A shallow embedding of
      - src/mcp_server/cache.py     (GameStateCache)
      - src/mcp_server/handlers.py  (ManifestHandler, SchemaHandler,
                                     QueryHandler)
      - src/mcp_server/server.py    (MCPRequestHandler, MCPServer)
      - src/save_watcher/watcher.py (SaveFileHandler, SaveWatcher)
      - src/save_watcher/models.py  (Tile, Hero, Town, GameState)
    and the properties of the specification stated over it.

    Conventions.
      - A Python value is a tree ([pyval]); dictionaries are insertion-ordered
        association lists with string keys, as [json.dumps] prints them.
        Floats and dictionaries with keys that are not strings are outside
        the model.
      - Python code that can raise runs in a state-and-exception monad: the
        state ([self], the file system, the log, the standard output) keeps
        every change made before the exception, as a mutated Python object
        does.
      - The text level of the [json] module is not repository code: a text is
        represented by what [json.load] makes of it ([Doc j] or [Garbage]).
      - [datetime.isoformat], [datetime.fromisoformat], [str()] of a value
        and the limit on the digits of [int()] are the interpreter's; they
        are the fields of the class [PyLib].
      - Every call of the operating system can fail, [Path.exists()]
        included; [io_plan] says which of the next calls do.
      - A record of the log is its level and the text of its message
        without the parts that the connection or the exception gives (the
        address of the client and the request line in the records of
        [log_message]).
      - Where a claim depends on object identity (what a returned dictionary
        shares with the store), the module [Heap] models references. *)

From stdpp Require Import base numbers strings list option gmap pretty.
From Stdlib Require Import ZArith Lia Ascii.

Local Open Scope string_scope.
Set Warnings "-register-all".
Set Default Proof Using "Type".

(* ===================================================================== *)
(** ** Python values *)
(* ===================================================================== *)

Inductive exn : Type :=
| AttributeError
| TypeError
| ValueError
| KeyError
| IndexError
| OSError
| JSONDecodeError
| UnicodeDecodeError.

Inductive result (A : Type) : Type :=
| Ok (a : A)
| Raise (e : exn).
Arguments Ok {A} a.
Arguments Raise {A} e.

Inductive pyval : Type :=
| VNone
| VBool (b : bool)
| VInt (z : Z)
| VStr (s : string)
| VList (l : list pyval)
| VTuple (l : list pyval)
| VDict (d : list (string * pyval))
| VObj (id : nat).  (* any other object (a datetime, a set, ...) *)

(** The induction principle that goes under the containers. *)
Section pyval_induction.
Variable P : pyval -> Prop.
Hypothesis HNone : P VNone.
Hypothesis HBool : forall b, P (VBool b).
Hypothesis HInt : forall z, P (VInt z).
Hypothesis HStr : forall s, P (VStr s).
Hypothesis HList : forall l, Forall P l -> P (VList l).
Hypothesis HTuple : forall l, Forall P l -> P (VTuple l).
Hypothesis HDict : forall d, Forall (fun kv => P (snd kv)) d -> P (VDict d).
Hypothesis HObj : forall id, P (VObj id).

Fixpoint pyval_deep_ind (v : pyval) : P v :=
  match v with
  | VNone => HNone
  | VBool b => HBool b
  | VInt z => HInt z
  | VStr s => HStr s
  | VList l =>
      HList l ((fix go (l : list pyval) : Forall P l :=
                  match l with
                  | [] => Forall_nil_2 P
                  | x :: r => Forall_cons_2 P x r (pyval_deep_ind x) (go r)
                  end) l)
  | VTuple l =>
      HTuple l ((fix go (l : list pyval) : Forall P l :=
                   match l with
                   | [] => Forall_nil_2 P
                   | x :: r => Forall_cons_2 P x r (pyval_deep_ind x) (go r)
                   end) l)
  | VDict d =>
      HDict d ((fix go (d : list (string * pyval))
                 : Forall (fun kv => P (snd kv)) d :=
                  match d with
                  | [] => Forall_nil_2 _
                  | kv :: r =>
                      Forall_cons_2 (fun kv => P (snd kv)) kv r
                        (pyval_deep_ind (snd kv)) (go r)
                  end) d)
  | VObj id => HObj id
  end.
End pyval_induction.

(** [dict.get(k)] on the entries, [d[k] = v] (the position of an existing key
    is kept, a new key goes last), [del d[k]] and [dict(pairs)]. *)
Fixpoint dict_get {A : Type} (k : string) (d : list (string * A)) : option A :=
  match d with
  | [] => None
  | (k', v) :: r => if String.eqb k k' then Some v else dict_get k r
  end.

Fixpoint dict_set {A : Type} (k : string) (v : A) (d : list (string * A))
  : list (string * A) :=
  match d with
  | [] => [(k, v)]
  | (k', v') :: r =>
      if String.eqb k k' then (k', v) :: r else (k', v') :: dict_set k v r
  end.

Fixpoint dict_del {A : Type} (k : string) (d : list (string * A))
  : list (string * A) :=
  match d with
  | [] => []
  | (k', v') :: r =>
      if String.eqb k k' then dict_del k r else (k', v') :: dict_del k r
  end.

Definition dict_of_pairs {A : Type} (ps : list (string * A))
  : list (string * A) :=
  fold_left (fun d kv => dict_set (fst kv) (snd kv) d) ps [].

Fixpoint distinct (ks : list string) : bool :=
  match ks with
  | [] => true
  | k :: r => negb (existsb (String.eqb k) r) && distinct r
  end.

(** Truth value of an object, as [if x:] tests it. *)
Definition truthy (v : pyval) : bool :=
  match v with
  | VNone => false
  | VBool b => b
  | VInt z => negb (Z.eqb z 0)
  | VStr s => negb (String.eqb s "")
  | VList l | VTuple l => negb (Nat.eqb (length l) 0)
  | VDict d => negb (Nat.eqb (length d) 0)
  | VObj _ => true
  end.

(** [x is None]. *)
Definition is_none (v : pyval) : bool :=
  match v with VNone => true | _ => false end.

(** [isinstance(x, dict)]. *)
Definition is_dict (v : pyval) : bool :=
  match v with VDict _ => true | _ => false end.

(** [a == b]: booleans compare as the integers 0 and 1, sequences element by
    element, dictionaries key by key whatever the order, other objects by
    identity. *)
Definition as_number (v : pyval) : option Z :=
  match v with
  | VBool b => Some (if b then 1 else 0)%Z
  | VInt z => Some z
  | _ => None
  end.

Fixpoint py_eq (a b : pyval) {struct a} : bool :=
  match a, b with
  | VNone, VNone => true
  | (VBool _ | VInt _), (VBool _ | VInt _) =>
      match as_number a, as_number b with
      | Some x, Some y => Z.eqb x y
      | _, _ => false
      end
  | VStr s, VStr t => String.eqb s t
  | VList l, VList m | VTuple l, VTuple m =>
      (fix go (l m : list pyval) {struct l} : bool :=
         match l, m with
         | [], [] => true
         | x :: l', y :: m' => py_eq x y && go l' m'
         | _, _ => false
         end) l m
  | VDict d, VDict e =>
      Nat.eqb (length d) (length e) &&
      (fix go (d : list (string * pyval)) : bool :=
         match d with
         | [] => true
         | kv :: d' =>
             match dict_get (fst kv) e with
             | Some w => py_eq (snd kv) w
             | None => false
             end && go d'
         end) d
  | VObj i, VObj j => Nat.eqb i j
  | _, _ => false
  end.

(** [x.copy()]: dictionaries and lists have the method, the other values of
    the model do not. The copy is a new object with the same items. *)
Definition py_copy (v : pyval) : result pyval :=
  match v with
  | VDict d => Ok (VDict d)
  | VList l => Ok (VList l)
  | _ => Raise AttributeError
  end.

(** [x.get(k)] and [x.get(k, dflt)]: only dictionaries have the method. *)
Definition py_get (v : pyval) (k : string) (dflt : pyval) : result pyval :=
  match v with
  | VDict d => Ok (default dflt (dict_get k d))
  | _ => Raise AttributeError
  end.

(* ===================================================================== *)
(** ** The json module *)
(* ===================================================================== *)

Inductive json : Type :=
| JNull
| JBool (b : bool)
| JInt (z : Z)
| JStr (s : string)
| JArr (l : list json)
| JObj (m : list (string * json)).

(** The content of a file or of a request body, by what the decoder makes of
    it: [Doc j] is a text that [json.load] decodes to the document [j],
    [Garbage raw] a text that [json.load] rejects (an empty, truncated or
    otherwise malformed one), [Undecodable raw] bytes that are no text in
    the encoding they are read in ([bytes.decode] and the reading of a file
    opened in text mode raise [UnicodeDecodeError] on them). *)
Inductive text : Type :=
| Doc (j : json)
| Garbage (raw : string)
| Undecodable (raw : string).

(** The encoder of [json.dump]: a tuple is written as an array, an object
    that is none of the JSON kinds raises [TypeError]. *)
Fixpoint to_json (v : pyval) : result json :=
  match v with
  | VNone => Ok JNull
  | VBool b => Ok (JBool b)
  | VInt z => Ok (JInt z)
  | VStr s => Ok (JStr s)
  | VList l | VTuple l =>
      match (fix go (l : list pyval) : result (list json) :=
               match l with
               | [] => Ok []
               | x :: r =>
                   match to_json x with
                   | Ok j =>
                       match go r with
                       | Ok js => Ok (j :: js)
                       | Raise e => Raise e
                       end
                   | Raise e => Raise e
                   end
               end) l with
      | Ok js => Ok (JArr js)
      | Raise e => Raise e
      end
  | VDict d =>
      match (fix go (d : list (string * pyval))
               : result (list (string * json)) :=
               match d with
               | [] => Ok []
               | kv :: r =>
                   match to_json (snd kv) with
                   | Ok j =>
                       match go r with
                       | Ok js => Ok ((fst kv, j) :: js)
                       | Raise e => Raise e
                       end
                   | Raise e => Raise e
                   end
               end) d with
      | Ok m => Ok (JObj m)
      | Raise e => Raise e
      end
  | VObj _ => Raise TypeError
  end.

(** The decoder of [json.load], after the text level: an array becomes a
    list, an object becomes [dict(pairs)] (a repeated key keeps its first
    position and its last value). *)
Fixpoint of_json (j : json) : pyval :=
  match j with
  | JNull => VNone
  | JBool b => VBool b
  | JInt z => VInt z
  | JStr s => VStr s
  | JArr l => VList (map of_json l)
  | JObj m =>
      VDict (dict_of_pairs
               ((fix go (m : list (string * json)) : list (string * pyval) :=
                   match m with
                   | [] => []
                   | kv :: r => (fst kv, of_json (snd kv)) :: go r
                   end) m))
  end.

(** [bytes.decode()]: the text of the bytes, when they are one. *)
Definition decode (t : text) : result text :=
  match t with
  | Undecodable _ => Raise UnicodeDecodeError
  | _ => Ok t
  end.

(** [json.loads(text)]; [json.load(f)] on a file raises the decoding error
    of the read when the bytes are no text. *)
Definition json_loads (t : text) : result pyval :=
  match t with
  | Doc j => Ok (of_json j)
  | Garbage _ => Raise JSONDecodeError
  | Undecodable _ => Raise UnicodeDecodeError
  end.

(** The values that JSON has a kind for: no tuple, no foreign object, and
    (as in every Python dictionary) no key twice, at every depth. *)
Fixpoint json_native (v : pyval) : bool :=
  match v with
  | VNone | VBool _ | VInt _ | VStr _ => true
  | VList l => forallb json_native l
  | VTuple _ => false
  | VDict d =>
      distinct (map fst d) &&
      (fix go (d : list (string * pyval)) : bool :=
         match d with
         | [] => true
         | kv :: r => json_native (snd kv) && go r
         end) d
  | VObj _ => false
  end.

(** What [json.dumps] accepts: everything but a foreign object. *)
Definition json_serializable (v : pyval) : bool :=
  match to_json v with Ok _ => true | Raise _ => false end.

(* ===================================================================== *)
(** ** models.py: Tile, Hero, Town, GameState *)
(* ===================================================================== *)

(** A field of type [Optional[...]]: [None] or the value. *)
Definition opt_val {A : Type} (f : A -> pyval) (o : option A) : pyval :=
  match o with
  | Some a => f a
  | None => VNone
  end.

(** A [Dict[str, int]] and the lists of the records, as values. *)
Definition int_dict (d : list (string * Z)) : pyval :=
  VDict (map (fun kv => (fst kv, VInt (snd kv))) d).

Definition int_list (l : list Z) : pyval := VList (map VInt l).

Definition int_dicts (l : list (list (string * Z))) : pyval :=
  VList (map int_dict l).

(** [{k: v for k, v in data.items() if v is not None}]. *)
Definition drop_none (data : list (string * pyval)) : list (string * pyval) :=
  filter (fun kv => is_none (snd kv) = false) data.

Module Tile.
Record t : Type := mk {
  x : Z;
  y : Z;
  obj : string;
  owner : option Z
}.

(** [dataclasses.asdict(self)]: every field, in the order of declaration. *)
Definition asdict (self : t) : list (string * pyval) :=
  [("x", VInt (x self)); ("y", VInt (y self)); ("obj", VStr (obj self));
   ("owner", opt_val VInt (owner self))].

Definition to_dict (self : t) : pyval := VDict (asdict self).
End Tile.

Module Hero.
Record t : Type := mk {
  name : string;
  location : list (string * Z);
  army : list (list (string * Z));
  movement_left : Z;
  primary_stats : list (string * Z);
  mana : option Z;
  experience : option Z;
  level : option Z;
  skills : option (list (list (string * pyval)));
  spells : option (list Z);
  artifacts : option (list Z)
}.

Definition asdict (self : t) : list (string * pyval) :=
  [("name", VStr (name self));
   ("location", int_dict (location self));
   ("army", int_dicts (army self));
   ("movement_left", VInt (movement_left self));
   ("primary_stats", int_dict (primary_stats self));
   ("mana", opt_val VInt (mana self));
   ("experience", opt_val VInt (experience self));
   ("level", opt_val VInt (level self));
   ("skills", opt_val (fun l => VList (map VDict l)) (skills self));
   ("spells", opt_val int_list (spells self));
   ("artifacts", opt_val int_list (artifacts self))].

Definition to_dict (self : t) : pyval := VDict (drop_none (asdict self)).
End Hero.

Module Town.
Record t : Type := mk {
  name : string;
  location : list (string * Z);
  owner : Z;
  type : string;
  buildings : list Z;
  garrison : list (list (string * Z));
  available_creatures : option (list (list (string * Z)))
}.

Definition asdict (self : t) : list (string * pyval) :=
  [("name", VStr (name self));
   ("location", int_dict (location self));
   ("owner", VInt (owner self));
   ("type", VStr (type self));
   ("buildings", int_list (buildings self));
   ("garrison", int_dicts (garrison self));
   ("available_creatures", opt_val int_dicts (available_creatures self))].

Definition to_dict (self : t) : pyval := VDict (drop_none (asdict self)).
End Town.

Module GameState.
Record t : Type := mk {
  turn : Z;
  current_player : Z;
  visible_tiles : list Tile.t;
  heroes : list Hero.t;
  towns : list Town.t;
  resources : option (list (string * Z))
}.

Definition to_dict (self : t) : pyval :=
  let data :=
    [("turn", VInt (turn self));
     ("currentPlayer", VInt (current_player self));
     ("visibleTiles", VList (map Tile.to_dict (visible_tiles self)));
     ("heroes", VList (map Hero.to_dict (heroes self)));
     ("towns", VList (map Town.to_dict (towns self)))] in
  let resources := opt_val int_dict (resources self) in
  if truthy resources
  then VDict (dict_set "resources" resources data)
  else VDict data.
End GameState.

(* ===================================================================== *)
(** ** The interpreter's library, the world and the monad *)
(* ===================================================================== *)

(** A [datetime] is its number of microseconds since the epoch. *)
Definition datetime : Type := Z.

Class PyLib : Type := {
  isoformat : datetime -> string;
  (** [None] is the [ValueError] of [datetime.fromisoformat]. *)
  fromisoformat : string -> option datetime;
  (** [fromisoformat] is the inverse of [isoformat]. *)
  fromisoformat_isoformat : forall d, fromisoformat (isoformat d) = Some d;
  (** [str(v)], as an f-string renders a value. *)
  py_str : pyval -> string;
  (** [sys.get_int_max_str_digits()]: the most digits that [int()] reads
      from a string, 0 when the interpreter sets no limit (4300 unless
      configured, where the interpreter has the limit). *)
  int_max_str_digits : nat
}.

Inductive level : Type := DEBUG | INFO | WARNING | ERROR.

(** What the program does that can be observed from outside. *)
Inductive event : Type :=
| Log (lv : level) (msg : string)        (* a record handed to the logger *)
| Stdout (doc : pyval)                   (* print(json.dumps(doc, indent=2)) *)
| Parse (path : string)                  (* parser.parse_save_file(path) *)
| Callback (game_state : GameState.t).   (* callback(game_state) *)

(** The file system maps a path to the text of the file there. [io_plan] is
    what the operating system will answer to the next fallible operations
    ([true]: it works); past its end every operation works. [trace] is the
    list of the events so far, the latest last. *)
Record world : Type := mkWorld {
  files : gmap string text;
  io_plan : list bool;
  trace : list event
}.

Definition M (S A : Type) : Type := S -> result A * S.

Definition ret {S A : Type} (a : A) : M S A := fun s => (Ok a, s).

Definition bind {S A B : Type} (m : M S A) (k : A -> M S B) : M S B :=
  fun s =>
    match m s with
    | (Ok a, s') => k a s'
    | (Raise e, s') => (Raise e, s')
    end.

Definition raise {S A : Type} (e : exn) : M S A := fun s => (Raise e, s).

(** [try: m  except Exception: h]. *)
Definition try_except {S A : Type} (m : M S A) (h : exn -> M S A) : M S A :=
  fun s =>
    match m s with
    | (Ok a, s') => (Ok a, s')
    | (Raise e, s') => h e s'
    end.

Definition lift {S A : Type} (r : result A) : M S A := fun s => (r, s).
Definition get_state {S : Type} : M S S := fun s => (Ok s, s).
Definition put_state {S : Type} (s : S) : M S unit := fun _ => (Ok tt, s).
Definition modify {S : Type} (f : S -> S) : M S unit := fun s => (Ok tt, f s).

Declare Scope py_scope.
Delimit Scope py_scope with py.
Notation "x <- m ;; k" := (bind m (fun x => k))
  (at level 100, m at next level, right associativity) : py_scope.
Notation "m ;;; k" := (bind m (fun _ => k))
  (at level 100, right associativity) : py_scope.
Local Open Scope py_scope.

(* ===================================================================== *)
(** ** pathlib: the final component, its suffix, [with_suffix] *)
(* ===================================================================== *)

(** A path is the string [str(path)] of a normalised [Path]. *)
Module Path.

Definition chars (s : string) : list ascii := String.list_ascii_of_string s.
Definition of_chars (l : list ascii) : string := String.string_of_list_ascii l.

(** [l.rfind(c)]: the index of the last [c], if any. *)
Fixpoint rfind_from (c : ascii) (l : list ascii) (i : nat) (found : option nat)
  : option nat :=
  match l with
  | [] => found
  | a :: r => rfind_from c r (S i) (if Ascii.eqb a c then Some i else found)
  end.

Definition rfind (c : ascii) (l : list ascii) : option nat :=
  rfind_from c l 0 None.

Definition split_name (p : string) : list ascii * list ascii :=
  match rfind "/"%char (chars p) with
  | Some i => (take (S i) (chars p), drop (S i) (chars p))
  | None => ([], chars p)
  end.

(** [path.name]. *)
Definition name (p : string) : string := of_chars (snd (split_name p)).

(** [path.suffix] (Python 3.8 to 3.12): from the last dot of the name, unless
    that dot is the first or the last character of the name. *)
Definition suffix_chars (n : list ascii) : list ascii :=
  match rfind "."%char n with
  | Some i =>
      if (Nat.ltb 0 i && Nat.ltb i (length n - 1))%bool then drop i n else []
  | None => []
  end.

Definition suffix (p : string) : string :=
  of_chars (suffix_chars (snd (split_name p))).

(** [path.with_suffix(suf)], for a suffix that starts with a dot: a path
    with an empty name raises [ValueError]. *)
Definition with_suffix (p suf : string) : result string :=
  let (dir, n) := split_name p in
  match n with
  | [] => Raise ValueError
  | _ =>
      let old := suffix_chars n in
      Ok (of_chars (dir ++ take (length n - length old) n ++ chars suf))
  end.

(** [s.lower()] on the ASCII letters. *)
Definition lower_char (a : ascii) : ascii :=
  let n := nat_of_ascii a in
  if (Nat.leb 65 n && Nat.leb n 90)%bool then ascii_of_nat (n + 32) else a.

Definition lower (s : string) : string := of_chars (map lower_char (chars s)).

End Path.

(* ===================================================================== *)
(** ** The operating system: files and the log *)
(* ===================================================================== *)

Module OS.

Definition set_files (f : gmap string text -> gmap string text) (w : world)
  : world :=
  {| files := f (files w); io_plan := io_plan w; trace := trace w |}.

Definition emit (e : event) : M world unit :=
  modify (fun w =>
    {| files := files w; io_plan := io_plan w; trace := trace w ++ [e] |}).

Definition next_io : M world bool := fun w =>
  match io_plan w with
  | [] => (Ok true, w)
  | b :: r =>
      (Ok b, {| files := files w; io_plan := r; trace := trace w |})
  end.

(** A system call that may fail with [OSError] before it has any effect. *)
Definition os_call {A : Type} (m : M world A) : M world A :=
  ok <- next_io ;; if ok : bool then m else raise OSError.

(** [path.exists()]: the [stat] behind it is a system call; when it fails
    for another reason than that there is no such file (the directory may
    not be searched, say), [exists] lets the [OSError] through. *)
Definition path_exists (p : string) : M world bool :=
  os_call (fun w => (Ok (bool_decide (is_Some (files w !! p))), w)).

(** The next [n] system calls work. *)
Definition works (n : nat) (w : world) : bool :=
  forallb (fun ok : bool => ok) (take n (io_plan w)).

(** The file at [p] is not a JSON text. *)
Definition corrupt (w : world) (p : string) : bool :=
  match files w !! p with
  | Some (Garbage _) | Some (Undecodable _) => true
  | _ => false
  end.

(** The world with the events [evs] after those of its trace. *)
Definition logged (evs : list event) (w : world) : world :=
  {| files := files w; io_plan := io_plan w; trace := trace w ++ evs |}.

(** [open(p, 'r')] and reading the whole file. *)
Definition read_file (p : string) : M world text :=
  os_call (fun w =>
    match files w !! p with
    | Some t => (Ok t, w)
    | None => (Raise OSError, w)
    end).

(** [open(p, 'w')]: the file is created, or cut to nothing. *)
Definition open_write (p : string) : M world unit :=
  os_call (modify (set_files (fun fs => <[p := Garbage ""]> fs))).

(** [json.dump(v, f)] and the closing of [f]. When the encoder or the disk
    fails, the file keeps an incomplete text. *)
Definition json_dump (v : pyval) (p : string) : M world unit :=
  match to_json v with
  | Ok j => os_call (modify (set_files (fun fs => <[p := Doc j]> fs)))
  | Raise e => raise e
  end.

(** [src.replace(dst)]: an atomic rename over the target. *)
Definition replace (src dst : string) : M world unit :=
  os_call (fun w =>
    match files w !! src with
    | Some t =>
        (Ok tt, set_files (fun fs => <[dst := t]> (delete src fs)) w)
    | None => (Raise OSError, w)
    end).

(** [path.unlink()]. *)
Definition unlink (p : string) : M world unit :=
  os_call (fun w =>
    match files w !! p with
    | Some _ => (Ok tt, set_files (fun fs => delete p fs) w)
    | None => (Raise OSError, w)
    end).

Definition logger (lv : level) (msg : string) : M world unit :=
  emit (Log lv msg).

(** [print(json.dumps(v, indent=2))]: the document goes to the standard
    output; a value that JSON cannot write raises. *)
Definition print_json (v : pyval) : M world unit :=
  match to_json v with
  | Ok _ => emit (Stdout v)
  | Raise e => raise e
  end.

End OS.

(** An object and the world it lives in. *)
Record obj_world (T : Type) : Type := mkOW { self : T; env : world }.
Arguments mkOW {T} self env.
Arguments self {T} _.
Arguments env {T} _.

Definition in_env {T A : Type} (m : M world A) : M (obj_world T) A :=
  fun s =>
    match m (env s) with
    | (r, w') => (r, mkOW (self s) w')
    end.

Definition get_self {T : Type} : M (obj_world T) T :=
  fun s => (Ok (self s), s).

Definition set_self {T : Type} (f : T -> T) : M (obj_world T) unit :=
  fun s => (Ok tt, mkOW (f (self s)) (env s)).

(* ===================================================================== *)
(** ** cache.py: GameStateCache *)
(* ===================================================================== *)

Module GameStateCache.
Section WithPyLib.
Context `{PyLib}.

(** The attributes of the object. [_state] is a Python value: [None] until
    an update, and whatever the persisted file holds after a load. Every
    public method runs under [self._lock]: a run of the store is a sequence
    of whole calls. *)
Record t : Type := mk {
  cache_file : option string;
  _state : pyval;
  last_update : option datetime
}.

Definition st : Type := obj_world t.

Definition set_state (v : pyval) (c : t) : t :=
  {| cache_file := cache_file c; _state := v; last_update := last_update c |}.

Definition set_last_update (d : option datetime) (c : t) : t :=
  {| cache_file := cache_file c; _state := _state c; last_update := d |}.

(** [_save_to_file] (called with the lock held). *)
Definition _save_to_file : M st unit :=
  try_except
    (c <- get_self ;;
     let cache_data :=
       VDict [("state", _state c);
              ("last_update",
                match last_update c with
                | Some d => VStr (isoformat d)
                | None => VNone
                end)] in
     match cache_file c with
     | None => raise AttributeError
     | Some p =>
         temp_file <- lift (Path.with_suffix p ".tmp") ;;
         in_env (OS.open_write temp_file) ;;;
         in_env (OS.json_dump cache_data temp_file) ;;;
         in_env (OS.replace temp_file p)
     end)
    (fun e => in_env (OS.logger ERROR "Failed to save cache to file")).

(** [datetime.fromisoformat(v)]. *)
Definition py_fromisoformat (v : pyval) : result datetime :=
  match v with
  | VStr s =>
      match fromisoformat s with
      | Some d => Ok d
      | None => Raise ValueError
      end
  | _ => Raise TypeError
  end.

Definition _load_from_file : M st unit :=
  try_except
    (c <- get_self ;;
     match cache_file c with
     | None => raise TypeError
     | Some p =>
         f <- in_env (OS.read_file p) ;;
         cache_data <- lift (json_loads f) ;;
         state <- lift (py_get cache_data "state" VNone) ;;
         set_self (set_state state) ;;;
         last_update_str <- lift (py_get cache_data "last_update" VNone) ;;
         (if truthy last_update_str
          then d <- lift (py_fromisoformat last_update_str) ;;
               set_self (set_last_update (Some d))
          else ret tt) ;;;
         in_env (OS.logger INFO "Loaded cache")
     end)
    (fun e =>
       in_env (OS.logger ERROR "Failed to load cache from file") ;;;
       set_self (set_state VNone) ;;;
       set_self (set_last_update None)).

Definition __init__ (cache_file : option string) : M st unit :=
  set_self (fun _ =>
    {| cache_file := cache_file; _state := VNone; last_update := None |}) ;;;
  match cache_file with
  | Some p =>
      there <- in_env (OS.path_exists p) ;;
      if there : bool then _load_from_file else ret tt
  | None => ret tt
  end.

(** [GameStateCache(cache_file)] in the world [w]. *)
Definition new (cache_file : option string) (w : world) : result unit * st :=
  __init__ cache_file
    (mkOW {| cache_file := None; _state := VNone; last_update := None |} w).

(** [update(game_state)], [now] being what [datetime.now()] reads. *)
Definition update (now : datetime) (game_state : pyval) : M st unit :=
  copy <- lift (py_copy game_state) ;;
  set_self (set_state copy) ;;;
  set_self (set_last_update (Some now)) ;;;
  c <- get_self ;;
  match cache_file c with
  | Some _ => _save_to_file
  | None => ret tt
  end ;;;
  turn <- lift (py_get game_state "turn" (VStr "?")) ;;
  in_env (OS.logger DEBUG ("Cache updated: Turn " +:+ py_str turn)).

Definition get_latest : M st pyval :=
  c <- get_self ;;
  if truthy (_state c) then lift (py_copy (_state c)) else ret VNone.

Definition clear : M st unit :=
  set_self (set_state VNone) ;;;
  set_self (set_last_update None) ;;;
  c <- get_self ;;
  match cache_file c with
  | Some p =>
      there <- in_env (OS.path_exists p) ;;
      if there : bool then in_env (OS.unlink p) else ret tt
  | None => ret tt
  end.

(** A sequence of calls [update(s1) ... update(sn)], each with the time it
    reads. *)
Fixpoint updates (calls : list (datetime * pyval)) : M st unit :=
  match calls with
  | [] => ret tt
  | (now, s) :: rest => update now s ;;; updates rest
  end.

(** Persist, then reconstruct: [update(snapshot)] on the store [s1], then a
    new store on the path [p] in the world that the update leaves. The
    result is what [get_latest()] returns on the first store after the
    update, and on the new one. *)
Definition reload_after_update (p : string) (now : datetime)
    (snapshot : pyval) (s1 : st) : result pyval * result pyval :=
  let s1' := snd (update now snapshot s1) in
  let s2 := snd (new (Some p) (env s1')) in
  (fst (get_latest s1'), fst (get_latest s2)).

End WithPyLib.
End GameStateCache.


(* ===================================================================== *)
(** ** handlers.py: QueryHandler *)
(* ===================================================================== *)

Module QueryHandler.
Section WithPyLib.
Context `{PyLib}.
Import GameStateCache.

Definition no_state_payload : pyval :=
  VDict [("error", VStr "No game state available");
         ("message", VStr "Waiting for Heroes III save file to be detected")].

Definition mismatch_payload (requested_turn turn : pyval) : pyval :=
  VDict [("error", VStr "Turn not available");
         ("message",
           VStr ("Requested turn " +:+ py_str requested_turn +:+
                 ", but only turn " +:+ py_str turn +:+ " is available"))].

Definition success_payload (game_state : pyval) (cached : option datetime)
  : pyval :=
  VDict [("success", VBool true);
         ("data", game_state);
         ("metadata",
           VDict [("cached_at", opt_val (fun d => VStr (isoformat d)) cached);
                  ("version", VStr "1.0.0")])].

(** [handle_query(request_data)]; [self.cache] is the object of the state. *)
Definition handle_query (request_data : pyval) : M st pyval :=
  game_state <- get_latest ;;
  if is_none game_state then ret no_state_payload
  else
    let success :=
      c <- get_self ;;
      ret (success_payload game_state (last_update c)) in
    requested_turn <- lift (py_get request_data "turn" VNone) ;;
    if negb (is_none requested_turn) then
      turn <- lift (py_get game_state "turn" VNone) ;;
      if negb (py_eq requested_turn turn)
      then ret (mismatch_payload requested_turn turn)
      else success
    else success.

End WithPyLib.
End QueryHandler.

(* ===================================================================== *)
(** ** server.py: MCPRequestHandler *)
(* ===================================================================== *)

(** [int(s)] for a string, base 10: blanks around, a sign, digits with single
    underscores between them. [None] is the [ValueError]. The characters of
    the string are the code points 0 to 255, as in the value of a header,
    which is decoded as ISO-8859-1. *)
Module PyInt.
Section WithPyLib.
Context `{PyLib}.

(** The blanks that [int()] skips: the six ASCII blanks, and of the other
    characters the two that are spaces, next line (133) and no-break space
    (160). *)
Definition is_space (a : ascii) : bool :=
  let n := nat_of_ascii a in
  ((Nat.eqb n 32) || (Nat.leb 9 n && Nat.leb n 13) ||
   (Nat.eqb n 133) || (Nat.eqb n 160))%bool.

Definition digit (a : ascii) : option Z :=
  let n := nat_of_ascii a in
  if (Nat.leb 48 n && Nat.leb n 57)%bool then Some (Z.of_nat (n - 48)) else None.

Fixpoint lstrip (l : list ascii) : list ascii :=
  match l with
  | a :: r => if is_space a then lstrip r else l
  | [] => []
  end.

Definition strip (l : list ascii) : list ascii :=
  rev (lstrip (rev (lstrip l))).

(** The digits after the first: [after_digit] tells whether the character
    before was a digit (an underscore must stand between two digits). *)
Fixpoint digits (l : list ascii) (acc : Z) (after_digit : bool) : option Z :=
  match l with
  | [] => if after_digit then Some acc else None
  | a :: r =>
      match digit a with
      | Some d => digits r (10 * acc + d)%Z true
      | None =>
          if (Ascii.eqb a "_" && after_digit)%bool
          then digits r acc false
          else None
      end
  end.

(** The limit on the length of a number: with more than 640 digits (the
    underscores do not count, the leading zeros do), a string that has more
    digits than the limit of the interpreter is refused. *)
Definition is_digit (a : ascii) : bool :=
  match digit a with Some _ => true | None => false end.

Definition too_many_digits (l : list ascii) : bool :=
  let n := length (List.filter is_digit l) in
  (Nat.ltb 640 n && Nat.ltb 0 int_max_str_digits &&
   Nat.ltb int_max_str_digits n)%bool.

Definition unsigned (l : list ascii) : option Z :=
  match l with
  | a :: _ =>
      match digit a with
      | Some _ => if too_many_digits l then None else digits l 0%Z false
      | None => None
      end
  | [] => None
  end.

Definition of_string (s : string) : option Z :=
  match strip (Path.chars s) with
  | "-"%char :: r => option_map Z.opp (unsigned r)
  | "+"%char :: r => unsigned r
  | l => unsigned l
  end.

End WithPyLib.
End PyInt.

Module MCPRequestHandler.
Section WithPyLib.
Context `{PyLib}.

(** A POST request: the path, the value of the [Content-Length] header if
    the request has one, and the bytes that [rfile.read(content_length)]
    yields when the length is positive. *)
Record request : Type := mkRequest {
  path : string;
  content_length : option string;
  body : text
}.

(** What the client gets: a complete answer of [send_response] with its
    headers and its JSON body, or the error page of [send_error]. *)
Inductive reply : Type :=
| Response (status : Z) (headers : list (string * string)) (payload : json)
| ErrorPage (status : Z) (message : string).

Definition json_headers : list (string * string) :=
  [("Content-Type", "application/json"); ("Access-Control-Allow-Origin", "*")].

(** [int(self.headers.get('Content-Length', 0))]. *)
Definition read_content_length (r : request) : result Z :=
  match content_length r with
  | None => Ok 0%Z
  | Some s =>
      match PyInt.of_string s with
      | Some n => Ok n
      | None => Raise ValueError
      end
  end.

(** [log_message(format, *args)], which server.py overrides to hand the
    record to [logger.info]. The record starts with the address of the
    client, and the one of [log_request] with the request line, which are
    the connection's; the message here is the rest of the text. *)
Definition log_message (message : string) : M GameStateCache.st unit :=
  in_env (OS.logger INFO message).

(** [log_request(code)] and [log_error(format, code, message)] of
    [BaseHTTPRequestHandler], and the records they write. *)
Definition request_record (code : Z) : event :=
  Log INFO (pretty code +:+ " -").

Definition error_record (code : Z) (message : string) : event :=
  Log INFO ("code " +:+ pretty code +:+ ", message " +:+ message).

Definition log_request (code : Z) : M GameStateCache.st unit :=
  log_message (pretty code +:+ " -").

Definition log_error (code : Z) (message : string)
  : M GameStateCache.st unit :=
  log_message ("code " +:+ pretty code +:+ ", message " +:+ message).

(** [send_response(code)] logs the request before it writes the status
    line. [send_error(code, message)] logs the error, then answers through
    [send_response] with the error page. *)
Definition send_response (code : Z) : M GameStateCache.st unit :=
  log_request code.

Definition send_error (code : Z) (message : string)
  : M GameStateCache.st reply :=
  log_error code message ;;;
  send_response code ;;;
  ret (ErrorPage code message).

(** The state after the records [evs] have gone to the logger. *)
Definition logged (evs : list event) (s : GameStateCache.st)
  : GameStateCache.st :=
  mkOW (self s) (OS.logged evs (env s)).

(** [handle_query]: an exception that leaves the method ([Raise]) means the
    client gets no complete answer. The body is decoded before the [try],
    and the answer is encoded after [send_response(200)]. *)
Definition handle_query (r : request) : M GameStateCache.st reply :=
  n <- lift (read_content_length r) ;;
  body <- (if (0 <? n)%Z then lift (decode (body r))
           else ret (Doc (JObj []))) ;;
  parsed <- try_except
              (request_data <- lift (json_loads body) ;; ret (Some request_data))
              (fun e =>
                 match e with
                 | JSONDecodeError => ret None
                 | _ => raise e
                 end) ;;
  match parsed with
  | None => send_error 400 "Invalid JSON"
  | Some request_data =>
      response <- QueryHandler.handle_query request_data ;;
      send_response 200 ;;;
      payload <- lift (to_json response) ;;
      ret (Response 200 json_headers payload)
  end.

Definition do_POST (r : request) : M GameStateCache.st reply :=
  if String.eqb (path r) "/query/snapshot" then handle_query r
  else send_error 404 "Not Found".

End WithPyLib.
End MCPRequestHandler.

(* ===================================================================== *)
(** ** watcher.py: SaveFileHandler and SaveWatcher *)
(* ===================================================================== *)

(** [fnmatch] for the patterns of the watcher: a star stands for any run of
    characters, every other character for itself. *)
Fixpoint fnmatch (pat name : list ascii) {struct pat} : bool :=
  match pat with
  | [] => match name with [] => true | _ => false end
  | c :: pat' =>
      if Ascii.eqb c "*" then
        (fix star (name : list ascii) : bool :=
           fnmatch pat' name ||
           match name with
           | [] => false
           | _ :: name' => star name'
           end) name
      else
        match name with
        | a :: name' => Ascii.eqb a c && fnmatch pat' name'
        | [] => false
        end
  end.

Module SaveFileHandler.

(** A [datetime] difference is a whole number of microseconds, and
    [total_seconds() < 1.0] holds exactly when it is below 1000000: the
    debounce window is kept in microseconds. *)
Record t : Type := mk {
  callback : option (GameState.t -> result unit);
  last_modified : gmap string datetime;
  debounce_seconds : Z
}.

Definition st : Type := obj_world t.

(** [SaveFileHandler(parser, callback)]. *)
Definition __init__ (callback : option (GameState.t -> result unit)) : t :=
  {| callback := callback; last_modified := ∅; debounce_seconds := 1000000 |}.

Record FileModifiedEvent : Type := mkEvent {
  is_directory : bool;
  src_path : string
}.

Definition save_suffixes : list string :=
  [".gm1"; ".gm2"; ".gm3"; ".gm4"; ".gm5"; ".gm6"].

Definition _is_save_file (path : string) : bool :=
  existsb (String.eqb (Path.lower (Path.suffix path))) save_suffixes.

Definition set_last_modified (path : string) (now : datetime) (h : t) : t :=
  {| callback := callback h;
     last_modified := <[path := now]> (last_modified h);
     debounce_seconds := debounce_seconds h |}.

(** [last_mod and (now - last_mod).total_seconds() < self.debounce_seconds]. *)
Definition debounced (h : t) (path : string) (now : datetime) : bool :=
  match last_modified h !! path with
  | Some last_mod => (now - last_mod <? debounce_seconds h)%Z
  | None => false
  end.

(** The event passes the three gates of [on_modified]: it is for a file,
    the file is a save, the path is not within its debounce window. *)
Definition accepted (h : t) (now : datetime) (event : FileModifiedEvent)
  : bool :=
  negb (is_directory event) && _is_save_file (src_path event) &&
  negb (debounced h (src_path event) now).

Section WithParser.
(** [SaveParser.parse_save_file] catches every exception of its own:
    it returns a game state or [None]. *)
Variable parse_save_file : string -> option GameState.t.

Definition run_parser (path : string) : M st (option GameState.t) :=
  in_env (OS.emit (Parse path)) ;;; ret (parse_save_file path).

(** [on_modified(event)], [now] being what [datetime.now()] reads. *)
Definition on_modified (now : datetime) (event : FileModifiedEvent)
  : M st unit :=
  if is_directory event then ret tt
  else
    let path := src_path event in
    if negb (_is_save_file path) then ret tt
    else
      h <- get_self ;;
      if debounced h path now
      then in_env (OS.logger DEBUG "Ignoring duplicate event")
      else
        set_self (set_last_modified path now) ;;;
        in_env (OS.logger INFO "Save file modified") ;;;
        game_state <- run_parser path ;;
        match game_state with
        | Some gs =>
            in_env (OS.print_json (GameState.to_dict gs)) ;;;
            h <- get_self ;;
            match callback h with
            | Some cb =>
                in_env (OS.emit (Callback gs)) ;;; lift (cb gs)
            | None => ret tt
            end
        | None => in_env (OS.logger ERROR "Failed to parse save file")
        end.
End WithParser.

(** The events of a trace that are invocations of the parser. *)
Definition parse_calls (tr : list event) : list string :=
  omap (fun e => match e with Parse p => Some p | _ => None end) tr.

Definition callback_calls (tr : list event) : list GameState.t :=
  omap (fun e => match e with Callback g => Some g | _ => None end) tr.

Definition printed (tr : list event) : list pyval :=
  omap (fun e => match e with Stdout d => Some d | _ => None end) tr.

End SaveFileHandler.

Module SaveWatcher.
Import SaveFileHandler.

Definition patterns : list string := ["*.gm1"; "*.GM1"; "autosave_*.gm1"].

(** A directory is the list of its entries as the system lists them: the
    name of the file and its [st_mtime]. *)
Definition directory : Type := list (string * Z).

(** [self.save_directory.glob(pattern)]: paths and their modification
    time. *)
Definition glob (save_directory : string) (entries : directory)
    (pattern : string) : list (string * Z) :=
  map (fun e => (save_directory +:+ "/" +:+ fst e, snd e))
    (filter (fun e => fnmatch (Path.chars pattern) (Path.chars (fst e)) = true)
       entries).

(** [save_files.sort(key=mtime, reverse=True)]: the sort is stable, files of
    the same time keep their order. *)
Fixpoint insert_by_mtime (f : string * Z) (sorted : list (string * Z))
  : list (string * Z) :=
  match sorted with
  | [] => [f]
  | g :: rest =>
      if (snd g <=? snd f)%Z then f :: g :: rest
      else g :: insert_by_mtime f rest
  end.

Definition sort_by_mtime (l : list (string * Z)) : list (string * Z) :=
  fold_right insert_by_mtime [] l.

Section WithParser.
Variable parse_save_file : string -> option GameState.t.

(** [process_existing_saves()]; the object of the state is
    [self.handler]. *)
Definition process_existing_saves (save_directory : string)
    (entries : directory) : M st unit :=
  let save_files := flat_map (glob save_directory entries) patterns in
  match save_files with
  | [] => in_env (OS.logger INFO "No existing save files found")
  | _ :: _ =>
      match sort_by_mtime save_files with
      | [] => raise IndexError
      | latest_save :: _ =>
          in_env (OS.logger INFO "Processing most recent save") ;;;
          game_state <- run_parser parse_save_file (fst latest_save) ;;
          match game_state with
          | Some gs => in_env (OS.print_json (GameState.to_dict gs))
          | None => ret tt
          end
      end
  end.
End WithParser.

End SaveWatcher.

(* ===================================================================== *)
(** ** Objects and references: what a copy shares *)
(* ===================================================================== *)

(** The same store, with the dictionaries and lists as objects of a heap: a
    value is a scalar or a reference, [copy()] allocates a new object that
    has the items of the old one, and the items that are references still
    point to the same objects. *)
Module Heap.

Inductive hval : Type :=
| HNone
| HBool (b : bool)
| HInt (z : Z)
| HStr (s : string)
| HRef (l : nat).

Inductive hobj : Type :=
| HDict (d : list (string * hval))
| HList (l : list hval).

(** The object at address [l] is [h !! l]; a new object gets the next
    address. *)
Abbreviation heap := (list hobj).

Definition alloc (o : hobj) (h : heap) : nat * heap := (length h, (h ++ [o])%list).

Definition truthy (h : heap) (v : hval) : bool :=
  match v with
  | HNone => false
  | HBool b => b
  | HInt z => negb (Z.eqb z 0)
  | HStr s => negb (String.eqb s "")
  | HRef l =>
      match h !! l with
      | Some (HDict d) => negb (Nat.eqb (length d) 0)
      | Some (HList l) => negb (Nat.eqb (length l) 0)
      | None => true
      end
  end.

Record t : Type := mk { _state : hval }.

Definition st : Type := (t * heap)%type.

(** [x.copy()]. *)
Definition copy (v : hval) : M st hval := fun s =>
  match v with
  | HRef l =>
      match snd s !! l with
      | Some o => let (l', h') := alloc o (snd s) in (Ok (HRef l'), (fst s, h'))
      | None => (Raise AttributeError, s)
      end
  | _ => (Raise AttributeError, s)
  end.

(** [update] and [get_latest] of cache.py, without the file and the log. *)
Definition update (game_state : hval) : M st unit :=
  c <- copy game_state ;;
  modify (fun s : st => (mk c, snd s)).

Definition get_latest : M st hval :=
  s <- get_state ;;
  if truthy (snd s) (_state (fst s)) then copy (_state (fst s)) else ret HNone.

(** [target[k] = v] and [del target[k]] on a dictionary object. *)
Definition setitem (target : hval) (k : string) (v : hval) : M st unit :=
  fun s =>
    match target with
    | HRef l =>
        match snd s !! l with
        | Some (HDict d) =>
            (Ok tt, (fst s, <[l := HDict (dict_set k v d)]> (snd s)))
        | _ => (Raise TypeError, s)
        end
    | _ => (Raise TypeError, s)
    end.

Definition delitem (target : hval) (k : string) : M st unit :=
  fun s =>
    match target with
    | HRef l =>
        match snd s !! l with
        | Some (HDict d) =>
            match dict_get k d with
            | Some _ => (Ok tt, (fst s, <[l := HDict (dict_del k d)]> (snd s)))
            | None => (Raise KeyError, s)
            end
        | _ => (Raise TypeError, s)
        end
    | _ => (Raise TypeError, s)
    end.

(** [target[k]]. *)
Definition getitem (target : hval) (k : string) : M st hval :=
  fun s =>
    match target with
    | HRef l =>
        match snd s !! l with
        | Some (HDict d) =>
            match dict_get k d with
            | Some v => (Ok v, s)
            | None => (Raise KeyError, s)
            end
        | _ => (Raise TypeError, s)
        end
    | _ => (Raise TypeError, s)
    end.

(** The value that a reference stands for, read to the depth [n]
    ([None]: deeper than [n], or a dangling address). *)
Fixpoint view (n : nat) (h : heap) (v : hval) : option pyval :=
  match v with
  | HNone => Some VNone
  | HBool b => Some (VBool b)
  | HInt z => Some (VInt z)
  | HStr s => Some (VStr s)
  | HRef l =>
      match n with
      | O => None
      | S n' =>
          match h !! l with
          | Some (HDict d) =>
              VDict <$> mapM (fun kv => pair (fst kv) <$> view n' h (snd kv)) d
          | Some (HList l) => VList <$> mapM (view n' h) l
          | None => None
          end
      end
  end.

(** No item points outside the heap. *)
Definition in_heap (h : heap) (v : hval) : Prop :=
  match v with
  | HRef l => l < length h
  | _ => True
  end.

Definition closed_obj (h : heap) (o : hobj) : Prop :=
  match o with
  | HDict d => Forall (fun kv => in_heap h (snd kv)) d
  | HList l => Forall (in_heap h) l
  end.

Definition closed (h : heap) : Prop := Forall (closed_obj h) h.

End Heap.

(* ===================================================================== *)
(** ** handlers.py: ManifestHandler and SchemaHandler *)
(* ===================================================================== *)

Module ManifestHandler.

Definition get_manifest : pyval :=
  VDict
    [("schema_version", VStr "v0.3");
     ("name", VStr "HeroesHotAState");
     ("description",
       VStr "Provides player-visible state from Heroes III HotA games");
     ("icon",
       VStr "https://raw.githubusercontent.com/emilRegla/h3-hota-ai-assistant/main/assets/hota_icon.png");
     ("context_sources",
       VList
         [VDict
            [("id", VStr "snapshot");
             ("name", VStr "Latest GameState JSON");
             ("description",
               VStr "Current visible map, heroes and towns for the human player");
             ("schema", VStr "/schema/snapshot.json");
             ("query_endpoint", VStr "/query/snapshot")]])].

End ManifestHandler.

Module SchemaHandler.

Definition strs (l : list string) : pyval := VList (map VStr l).

Definition integer : pyval := VDict [("type", VStr "integer")].

Definition integer_min (m : Z) : pyval :=
  VDict [("type", VStr "integer"); ("minimum", VInt m)].

Definition location : pyval :=
  VDict
    [("type", VStr "object");
     ("required", strs ["x"; "y"]);
     ("properties", VDict [("x", integer); ("y", integer)])].

Definition get_schema : pyval :=
  VDict
    [("$schema", VStr "http://json-schema.org/draft-07/schema#");
     ("title", VStr "GameState");
     ("description", VStr "Heroes III game state visible to the current player");
     ("type", VStr "object");
     ("required",
       strs ["turn"; "currentPlayer"; "visibleTiles"; "heroes"; "towns"]);
     ("properties",
       VDict
         [("turn",
            VDict [("type", VStr "integer");
                   ("description", VStr "Current game turn (day)");
                   ("minimum", VInt 1)]);
          ("currentPlayer",
            VDict [("type", VStr "integer");
                   ("description", VStr "Current player ID (0-7)");
                   ("minimum", VInt 0);
                   ("maximum", VInt 7)]);
          ("visibleTiles",
            VDict
              [("type", VStr "array");
               ("description", VStr "Map tiles visible to the player");
               ("items",
                 VDict
                   [("type", VStr "object");
                    ("required", strs ["x"; "y"; "obj"]);
                    ("properties",
                      VDict
                        [("x", integer);
                         ("y", integer);
                         ("obj", VDict [("type", VStr "string")]);
                         ("owner",
                           VDict [("type", strs ["integer"; "null"]);
                                  ("minimum", VInt 0);
                                  ("maximum", VInt 7)])])])]);
          ("heroes",
            VDict
              [("type", VStr "array");
               ("description", VStr "Player's heroes");
               ("items",
                 VDict
                   [("type", VStr "object");
                    ("required",
                      strs ["name"; "location"; "army"; "movementLeft";
                            "primaryStats"]);
                    ("properties",
                      VDict
                        [("name", VDict [("type", VStr "string")]);
                         ("location", location);
                         ("army",
                           VDict
                             [("type", VStr "array");
                              ("items",
                                VDict
                                  [("type", VStr "object");
                                   ("required", strs ["creatureId"; "count"]);
                                   ("properties",
                                     VDict [("creatureId", integer);
                                            ("count", integer_min 1)])])]);
                         ("movementLeft", integer_min 0);
                         ("primaryStats",
                           VDict
                             [("type", VStr "object");
                              ("required",
                                strs ["attack"; "defense"; "spellPower";
                                      "knowledge"]);
                              ("properties",
                                VDict [("attack", integer_min 0);
                                       ("defense", integer_min 0);
                                       ("spellPower", integer_min 0);
                                       ("knowledge", integer_min 0)])])])])]);
          ("towns",
            VDict
              [("type", VStr "array");
               ("description", VStr "Player's towns");
               ("items",
                 VDict
                   [("type", VStr "object");
                    ("required",
                      strs ["name"; "location"; "owner"; "type"; "buildings";
                            "garrison"]);
                    ("properties",
                      VDict
                        [("name", VDict [("type", VStr "string")]);
                         ("location", location);
                         ("owner", integer);
                         ("type", VDict [("type", VStr "string")]);
                         ("buildings",
                           VDict [("type", VStr "array"); ("items", integer)]);
                         ("garrison",
                           VDict
                             [("type", VStr "array");
                              ("items",
                                VDict
                                  [("type", VStr "object");
                                   ("required", strs ["creatureId"; "count"]);
                                   ("properties",
                                     VDict [("creatureId", integer);
                                            ("count", integer)])])])])])]);
          ("resources",
            VDict
              [("type", VStr "object");
               ("description", VStr "Player's resources");
               ("properties",
                 VDict [("gold", integer_min 0);
                        ("wood", integer_min 0);
                        ("ore", integer_min 0);
                        ("mercury", integer_min 0);
                        ("sulfur", integer_min 0);
                        ("crystal", integer_min 0);
                        ("gems", integer_min 0)])])])].

(** [node[k1][k2]...] in a document of nested dictionaries. *)
Fixpoint at_path (keys : list string) (node : pyval) : option pyval :=
  match keys with
  | [] => Some node
  | k :: rest =>
      match node with
      | VDict d =>
          match dict_get k d with
          | Some v => at_path rest v
          | None => None
          end
      | _ => None
      end
  end.

(** The names that the [required] list of a schema node asks for and that a
    record does not have. *)
Definition required_of (node : pyval) : list string :=
  match at_path ["required"] node with
  | Some (VList l) =>
      omap (fun v => match v with VStr s => Some s | _ => None end) l
  | _ => []
  end.

Definition missing_required (node record : pyval) : list string :=
  match record with
  | VDict d =>
      filter (fun k => dict_get k d = None) (required_of node)
  | _ => required_of node
  end.

End SchemaHandler.

(* ===================================================================== *)
(** ** server.py: the GET endpoints and MCPServer.update_game_state *)
(* ===================================================================== *)

Module MCPGet.

(** [handle_manifest] and [handle_schema]: the document, with the status 200
    and the JSON headers; [send_response] comes before the encoding. *)
Definition handle_manifest : M GameStateCache.st MCPRequestHandler.reply :=
  MCPRequestHandler.send_response 200 ;;;
  payload <- lift (to_json ManifestHandler.get_manifest) ;;
  ret (MCPRequestHandler.Response 200 MCPRequestHandler.json_headers payload).

Definition handle_schema : M GameStateCache.st MCPRequestHandler.reply :=
  MCPRequestHandler.send_response 200 ;;;
  payload <- lift (to_json SchemaHandler.get_schema) ;;
  ret (MCPRequestHandler.Response 200 MCPRequestHandler.json_headers payload).

(** [do_GET], for the path of the request. *)
Definition do_GET (path : string) : M GameStateCache.st MCPRequestHandler.reply :=
  if String.eqb path "/manifest" then handle_manifest
  else if String.eqb path "/schema/snapshot.json" then handle_schema
  else MCPRequestHandler.send_error 404 "Not Found".

End MCPGet.

Module MCPServer.
Section WithPyLib.
Context `{PyLib}.

(** [update_game_state(game_state)]; [self.cache] is the object of the
    state. *)
Definition update_game_state (now : datetime) (game_state : pyval)
  : M GameStateCache.st unit :=
  GameStateCache.update now game_state ;;;
  turn <- lift (py_get game_state "turn" (VStr "?")) ;;
  in_env (OS.logger DEBUG ("Updated game state for turn " +:+ py_str turn)).

End WithPyLib.
End MCPServer.

(* ===================================================================== *)
(** ** models.py: GameState.from_dict *)
(* ===================================================================== *)

(** A dataclass, by its fields in the order of declaration, each with its
    default if it has one. An instance is the list of its attributes; no
    type is checked when it is built. *)
Module Dataclass.

Definition fields : Type := list (string * option pyval).

(** The class called with the items of [kwargs] as keyword arguments: the
    argument must be a mapping, every key must be a field, every field
    without default must be given; each failure is a [TypeError]. *)
Definition bind_field (kw : list (string * pyval)) (f : string * option pyval)
  : result (string * pyval) :=
  match dict_get (fst f) kw, snd f with
  | Some v, _ => Ok (fst f, v)
  | None, Some dflt => Ok (fst f, dflt)
  | None, None => Raise TypeError
  end.

Fixpoint bind_fields (kw : list (string * pyval)) (fs : fields)
  : result (list (string * pyval)) :=
  match fs with
  | [] => Ok []
  | f :: rest =>
      match bind_field kw f with
      | Ok a =>
          match bind_fields kw rest with
          | Ok l => Ok (a :: l)
          | Raise e => Raise e
          end
      | Raise e => Raise e
      end
  end.

Definition init (fs : fields) (kwargs : pyval)
  : result (list (string * pyval)) :=
  match kwargs with
  | VDict kw =>
      if forallb (fun kv => existsb (String.eqb (fst kv)) (map fst fs)) kw
      then bind_fields kw fs
      else Raise TypeError
  | _ => Raise TypeError
  end.

(** [for x in v]: the items of a list or tuple, the keys of a dictionary,
    the characters of a string; the other values are not iterable. *)
Definition py_iter (v : pyval) : result (list pyval) :=
  match v with
  | VList l | VTuple l => Ok l
  | VDict d => Ok (map (fun kv => VStr (fst kv)) d)
  | VStr s => Ok (map (fun c => VStr (String c "")) (Path.chars s))
  | _ => Raise TypeError
  end.

(** The list of the instances built from each [x] of [for x in v]. *)
Fixpoint init_each (fs : fields) (l : list pyval)
  : result (list (list (string * pyval))) :=
  match l with
  | [] => Ok []
  | x :: rest =>
      match init fs x with
      | Ok a =>
          match init_each fs rest with
          | Ok r => Ok (a :: r)
          | Raise e => Raise e
          end
      | Raise e => Raise e
      end
  end.

Definition init_all (fs : fields) (v : pyval)
  : result (list (list (string * pyval))) :=
  match py_iter v with
  | Ok l => init_each fs l
  | Raise e => Raise e
  end.

End Dataclass.

Module FromDict.

Definition Tile_fields : Dataclass.fields :=
  [("x", None); ("y", None); ("obj", None); ("owner", Some VNone)].

Definition Hero_fields : Dataclass.fields :=
  [("name", None); ("location", None); ("army", None);
   ("movement_left", None); ("primary_stats", None);
   ("mana", Some VNone); ("experience", Some VNone); ("level", Some VNone);
   ("skills", Some VNone); ("spells", Some VNone); ("artifacts", Some VNone)].

Definition Town_fields : Dataclass.fields :=
  [("name", None); ("location", None); ("owner", None); ("type", None);
   ("buildings", None); ("garrison", None);
   ("available_creatures", Some VNone)].

(** A [GameState] object as [from_dict] builds it: the attributes hold the
    values of the dictionary as they are. *)
Record t : Type := mk {
  turn : pyval;
  current_player : pyval;
  visible_tiles : list (list (string * pyval));
  heroes : list (list (string * pyval));
  towns : list (list (string * pyval));
  resources : pyval
}.

(** [GameState.from_dict(data)]. *)
Definition from_dict (data : pyval) : result t :=
  match py_get data "turn" (VInt 1) with
  | Raise e => Raise e
  | Ok turn =>
  match py_get data "currentPlayer" (VInt 0) with
  | Raise e => Raise e
  | Ok current_player =>
  match py_get data "visibleTiles" (VList []) with
  | Raise e => Raise e
  | Ok tiles =>
  match Dataclass.init_all Tile_fields tiles with
  | Raise e => Raise e
  | Ok visible_tiles =>
  match py_get data "heroes" (VList []) with
  | Raise e => Raise e
  | Ok hs =>
  match Dataclass.init_all Hero_fields hs with
  | Raise e => Raise e
  | Ok heroes =>
  match py_get data "towns" (VList []) with
  | Raise e => Raise e
  | Ok ts =>
  match Dataclass.init_all Town_fields ts with
  | Raise e => Raise e
  | Ok towns =>
  match py_get data "resources" VNone with
  | Raise e => Raise e
  | Ok resources =>
      Ok (mk turn current_player visible_tiles heroes towns resources)
  end end end end end end end end end.

(** The object that holds the attributes of a typed game state; the
    [to_dict] of such an object. *)
Definition of_game_state (g : GameState.t) : t :=
  mk (VInt (GameState.turn g)) (VInt (GameState.current_player g))
    (map Tile.asdict (GameState.visible_tiles g))
    (map Hero.asdict (GameState.heroes g))
    (map Town.asdict (GameState.towns g))
    (opt_val int_dict (GameState.resources g)).

Definition to_dict (self : t) : pyval :=
  let data :=
    [("turn", turn self);
     ("currentPlayer", current_player self);
     ("visibleTiles", VList (map VDict (visible_tiles self)));
     ("heroes", VList (map (fun h => VDict (drop_none h)) (heroes self)));
     ("towns", VList (map (fun t => VDict (drop_none t)) (towns self)))] in
  if truthy (resources self)
  then VDict (dict_set "resources" (resources self) data)
  else VDict data.

End FromDict.

(* ===================================================================== *)
(** ** Runs of the watcher *)
(* ===================================================================== *)

Module WatcherRuns.

(** The modification events of a run, each with the time it is handled at,
    one after the other; an exception ends the run. *)
Fixpoint on_modified_each (parse : string -> option GameState.t)
    (events : list (datetime * SaveFileHandler.FileModifiedEvent))
  : M SaveFileHandler.st unit :=
  match events with
  | [] => ret tt
  | (now, event) :: rest =>
      SaveFileHandler.on_modified parse now event ;;;
      on_modified_each parse rest
  end.

(** [name.endswith(suffix)]. *)
Definition ends_with (suffix name : list ascii) : bool :=
  bool_decide (drop (length name - length suffix) name = suffix).

End WatcherRuns.

(** A stand-in for the interpreter's library, to run the definitions on
    examples: a time is written as a sign and as many strokes as it has
    microseconds, and [str()] is exact on integers, strings and [None]. *)
Module StandIn.

Fixpoint strokes (n : nat) : string :=
  match n with
  | O => ""
  | S n' => String "|" (strokes n')
  end.

Fixpoint count_strokes (s : string) : option nat :=
  match s with
  | "" => Some O
  | String c r =>
      if Ascii.eqb c "|" then option_map S (count_strokes r) else None
  end.

Definition write_time (d : datetime) : string :=
  String (if (d <? 0)%Z then "-" else "+")%char (strokes (Z.abs_nat d)).

Definition read_time (s : string) : option datetime :=
  match s with
  | String c r =>
      if Ascii.eqb c "-" then
        option_map (fun n => (- Z.of_nat n)%Z) (count_strokes r)
      else if Ascii.eqb c "+" then
        option_map Z.of_nat (count_strokes r)
      else None
  | "" => None
  end.

Definition render (v : pyval) : string :=
  match v with
  | VNone => "None"
  | VInt z => pretty z
  | VStr s => s
  | _ => "<object>"
  end.

Lemma count_strokes_strokes (n : nat) : count_strokes (strokes n) = Some n.
Proof. induction n as [|n IH]; simpl; [done|]. by rewrite IH. Qed.

Lemma read_time_write_time (d : datetime) :
  read_time (write_time d) = Some d.
Proof.
  unfold read_time, write_time.
  destruct (d <? 0)%Z eqn:Hd; simpl; rewrite count_strokes_strokes; simpl;
    f_equal; [apply Z.ltb_lt in Hd | apply Z.ltb_ge in Hd]; lia.
Qed.

#[export] Instance lib : PyLib := {|
  isoformat := write_time;
  fromisoformat := read_time;
  fromisoformat_isoformat := read_time_write_time;
  py_str := render;
  int_max_str_digits := 4300
|}.

End StandIn.

(** The stores, the snapshots and the save files of the examples. *)
Module Examples.

Definition empty_store : GameStateCache.st :=
  mkOW (GameStateCache.mk None VNone None) (mkWorld ∅ [] []).

Definition store_turn_7 : GameStateCache.st :=
  mkOW (GameStateCache.mk None
          (VDict [("turn", VInt 7); ("currentPlayer", VInt 0)]) (Some 3%Z))
    (mkWorld ∅ [] []).

(** The game state that [SaveParser._create_mock_game_state] builds. *)
Definition mock_game_state : GameState.t :=
  GameState.mk 28 0
    [Tile.mk 34 17 "GoldMine" None; Tile.mk 35 17 "CrystalCavern" (Some 0%Z)]
    [Hero.mk "Ivor" [("x", 34%Z); ("y", 17%Z)]
       [[("creatureId", 17%Z); ("count", 87%Z)]] 578
       [("attack", 9%Z); ("defense", 10%Z); ("spellPower", 4%Z);
        ("knowledge", 4%Z)]
       None None None None None None]
    []
    None.

(** A parser that reads every file as the mock game state, a callback
    that returns, and a handler that has this callback. *)
Definition mock_parser (path : string) : option GameState.t :=
  Some mock_game_state.

Definition quiet_callback (g : GameState.t) : result unit := Ok tt.

Definition fresh_handler : SaveFileHandler.st :=
  mkOW (SaveFileHandler.__init__ (Some quiet_callback)) (mkWorld ∅ [] []).

(** A snapshot with a nested dictionary, as objects: the hero at address
    0, the snapshot at address 1. *)
Definition nested_heap : Heap.heap :=
  [Heap.HDict [("name", Heap.HStr "Ivor")];
   Heap.HDict [("turn", Heap.HInt 7); ("hero", Heap.HRef 0)]].

(** [cache.update(snapshot); r = cache.get_latest();
     r["hero"]["name"] = "Solmyr"; r2 = cache.get_latest()]: the values of
    [r] before the assignment and of [r2] after it. *)
Definition mutate_nested : M Heap.st (option pyval * option pyval) :=
  Heap.update (Heap.HRef 1) ;;;
  r <- Heap.get_latest ;;
  s <- get_state ;;
  let before := Heap.view 3 (snd s) r in
  hero <- Heap.getitem r "hero" ;;
  Heap.setitem hero "name" (Heap.HStr "Solmyr") ;;;
  r2 <- Heap.get_latest ;;
  s2 <- get_state ;;
  ret (before, Heap.view 3 (snd s2) r2).

End Examples.

(** The stores and the files of the further examples. *)
Module MoreExamples.

Definition old_document : text :=
  Doc (JObj [("state", JObj [("turn", JInt 7)]); ("last_update", JNull)]).

(** A store with a persisted file, on a disk without failure. *)
Definition store_on_disk : GameStateCache.st :=
  mkOW (GameStateCache.mk (Some "cache.json") (VDict [("turn", VInt 7)]) None)
    (mkWorld {[ "cache.json" := old_document ]} [] []).

(** The same store on a disk whose next system call fails. *)
Definition store_with_file : GameStateCache.st :=
  mkOW (GameStateCache.mk (Some "cache.json") (VDict [("turn", VInt 7)]) None)
    (mkWorld {[ "cache.json" := old_document ]} [false] []).

(** The same store on a disk that answers the next system call and fails
    the one after it. *)
Definition store_unlink_fails : GameStateCache.st :=
  mkOW (GameStateCache.mk (Some "cache.json") (VDict [("turn", VInt 7)]) None)
    (mkWorld {[ "cache.json" := old_document ]} [true; false] []).

Definition disk_with_number : world :=
  mkWorld
    {[ "cache.json" :=
         Doc (JObj [("state", JInt 5); ("last_update", JNull)]) ]} [] [].

Definition disk_with_array : world :=
  mkWorld {[ "cache.json" := Doc (JArr [JInt 1]) ]} [] [].

(** A handler that has accepted an event on a save at the time 0, and a
    parser that reads no file. *)
Definition recorded_handler : SaveFileHandler.st :=
  mkOW (SaveFileHandler.mk (Some Examples.quiet_callback)
          {[ "saves/game.gm1" := 0%Z ]} 1000000)
    (mkWorld ∅ [] []).

Definition failing_parser (path : string) : option GameState.t := None.

(** The document of the mock game state, as JSON. *)
Definition mock_json : json :=
  match to_json (GameState.to_dict Examples.mock_game_state) with
  | Ok j => j
  | Raise _ => JNull
  end.

End MoreExamples.

(* ===================================================================== *)
(** * Properties *)
(* ===================================================================== *)

(** ** The definitions on small inputs *)

Module Checks.

Example suffix_save : Path.suffix "saves/Autosave.GM1" = ".GM1".
Proof. reflexivity. Qed.

Example suffix_hidden : Path.suffix "saves/.gm1" = "".
Proof. reflexivity. Qed.

Example suffix_last_dot : Path.suffix "saves/game.tar.gm2" = ".gm2".
Proof. reflexivity. Qed.

Example with_suffix_json :
  Path.with_suffix ".h3ai_cache.json" ".tmp" = Ok ".h3ai_cache.tmp".
Proof. reflexivity. Qed.

Example with_suffix_none : Path.with_suffix "dir/cache" ".tmp" = Ok "dir/cache.tmp".
Proof. reflexivity. Qed.

Example with_suffix_no_name : Path.with_suffix "dir/" ".tmp" = Raise ValueError.
Proof. reflexivity. Qed.

Example save_file_upper : SaveFileHandler._is_save_file "saves/Game.GM3" = true.
Proof. reflexivity. Qed.

Example save_file_txt : SaveFileHandler._is_save_file "saves/notes.txt" = false.
Proof. reflexivity. Qed.

Example save_file_gm7 : SaveFileHandler._is_save_file "saves/game.gm7" = false.
Proof. reflexivity. Qed.

Example fnmatch_star :
  fnmatch (Path.chars "autosave_*.gm1") (Path.chars "autosave_12.gm1") = true /\
  fnmatch (Path.chars "*.gm1") (Path.chars "game.GM1") = false /\
  fnmatch (Path.chars "*.GM1") (Path.chars "game.GM1") = true.
Proof. repeat split; reflexivity. Qed.

(** A file that two patterns match is listed twice; the latest comes first,
    and of two files of the same time the first listed stays first. *)
Example glob_and_sort :
  SaveWatcher.sort_by_mtime
    (flat_map
       (SaveWatcher.glob "saves"
          [("a.gm1", 5%Z); ("autosave_1.gm1", 9%Z); ("b.GM1", 9%Z);
           ("c.gm2", 20%Z)])
       SaveWatcher.patterns) =
    [("saves/autosave_1.gm1", 9%Z); ("saves/b.GM1", 9%Z);
     ("saves/autosave_1.gm1", 9%Z); ("saves/a.gm1", 5%Z)].
Proof. reflexivity. Qed.

Example int_of_header :
  let int := PyInt.of_string (H := StandIn.lib) in
  int "0" = Some 0%Z /\ int " 42 " = Some 42%Z /\
  int "1_000" = Some 1000%Z /\ int "-7" = Some (-7)%Z /\
  int "" = None /\ int "12a" = None /\ int "1__0" = None /\
  int "+ 1" = None /\ int "007" = Some 7%Z.
Proof. repeat split; reflexivity. Qed.

(** The blanks of [int()]: the no-break space and the next line are
    skipped, the separators 28 to 31 are not. *)
Example int_blanks :
  let int := PyInt.of_string (H := StandIn.lib) in
  int (String (ascii_of_nat 160) "5") = Some 5%Z /\
  int (String "5" (String (ascii_of_nat 133) "")) = Some 5%Z /\
  int (String (ascii_of_nat 28) "5") = None /\
  int (String (ascii_of_nat 127) "5") = None.
Proof. repeat split; reflexivity. Qed.

(** The limit of 4300 digits counts the leading zeros and leaves out the
    sign, the blanks and the underscores. *)
Example int_digit_limit :
  let int := PyInt.of_string (H := StandIn.lib) in
  int (Path.of_chars (repeat "0"%char 4300)) = Some 0%Z /\
  int (Path.of_chars (repeat "0"%char 4301)) = None /\
  int (Path.of_chars ("-"%char :: repeat "0"%char 4300)) = Some 0%Z /\
  int (Path.of_chars (" "%char :: repeat "9"%char 4301)) = None.
Proof. vm_compute. repeat split; reflexivity. Qed.

Example eq_bool_int : py_eq (VBool true) (VInt 1) = true.
Proof. reflexivity. Qed.

Example eq_dict_order :
  py_eq (VDict [("a", VInt 1); ("b", VNone)]) (VDict [("b", VNone); ("a", VInt 1)])
  = true.
Proof. reflexivity. Qed.

Example eq_tuple_list : py_eq (VTuple [VInt 1]) (VList [VInt 1]) = false.
Proof. reflexivity. Qed.

Example empty_dict_is_falsy : truthy (VDict []) = false.
Proof. reflexivity. Qed.

Example load_repeated_key :
  of_json (JObj [("a", JInt 1); ("b", JInt 2); ("a", JInt 3)]) =
    VDict [("a", VInt 3); ("b", VInt 2)].
Proof. reflexivity. Qed.

Example dump_foreign_object :
  to_json (VDict [("when", VObj 0)]) = Raise TypeError.
Proof. reflexivity. Qed.

(** The document of the mock game state of the parser. *)
Example mock_document :
  GameState.to_dict Examples.mock_game_state =
    VDict
      [("turn", VInt 28); ("currentPlayer", VInt 0);
       ("visibleTiles",
         VList
           [VDict [("x", VInt 34); ("y", VInt 17); ("obj", VStr "GoldMine");
                   ("owner", VNone)];
            VDict [("x", VInt 35); ("y", VInt 17); ("obj", VStr "CrystalCavern");
                   ("owner", VInt 0)]]);
       ("heroes",
         VList
           [VDict [("name", VStr "Ivor");
                   ("location", VDict [("x", VInt 34); ("y", VInt 17)]);
                   ("army",
                     VList [VDict [("creatureId", VInt 17); ("count", VInt 87)]]);
                   ("movement_left", VInt 578);
                   ("primary_stats",
                     VDict [("attack", VInt 9); ("defense", VInt 10);
                            ("spellPower", VInt 4); ("knowledge", VInt 4)])]]);
       ("towns", VList [])].
Proof. reflexivity. Qed.

End Checks.

(** ** Dictionaries and the JSON round trip *)

Lemma existsb_eqb_false_dict_get {A : Type} (k : string) (d : list (string * A)) :
  existsb (String.eqb k) (map fst d) = false -> dict_get k d = None.
Proof.
  induction d as [|[k' v] d IH]; simpl; [done|].
  intros Hex. apply orb_false_iff in Hex as [Hk Hd].
  rewrite Hk. auto.
Qed.

Lemma dict_set_fresh {A : Type} (k : string) (v : A) (d : list (string * A)) :
  existsb (String.eqb k) (map fst d) = false ->
  dict_set k v d = (d ++ [(k, v)])%list.
Proof.
  induction d as [|[k' v'] d IH]; simpl; [done|].
  intros Hex. apply orb_false_iff in Hex as [Hk Hd].
  rewrite Hk. f_equal. auto.
Qed.

Lemma dict_of_pairs_from {A : Type} (ps acc : list (string * A)) :
  distinct (map fst (acc ++ ps)%list) = true ->
  fold_left (fun d kv => dict_set (fst kv) (snd kv) d) ps acc = (acc ++ ps)%list.
Proof.
  revert acc. induction ps as [|[k v] ps IH]; intros acc Hd; simpl.
  - by rewrite app_nil_r.
  - assert (Hfresh : existsb (String.eqb k) (map fst acc) = false).
    { clear IH. induction acc as [|[k' v'] acc IHa]; simpl in *; [done|].
      apply andb_true_iff in Hd as [Hk' Hd].
      rewrite (IHa Hd), orb_false_r.
      apply negb_true_iff in Hk'.
      rewrite map_app, existsb_app in Hk'. simpl in Hk'.
      apply orb_false_iff in Hk' as [_ Hk'].
      apply orb_false_iff in Hk' as [Hk' _].
      rewrite String.eqb_sym. exact Hk'. }
    rewrite (dict_set_fresh _ _ _ Hfresh).
    rewrite IH; rewrite <- app_assoc; simpl; [done|exact Hd].
Qed.

Lemma dict_of_pairs_distinct {A : Type} (ps : list (string * A)) :
  distinct (map fst ps) = true -> dict_of_pairs ps = ps.
Proof. intros Hd. unfold dict_of_pairs. by rewrite dict_of_pairs_from. Qed.

(** What [json.dump] writes of a JSON-native value, [json.load] reads back
    as the same value. *)
Lemma json_native_roundtrip (v : pyval) :
  json_native v = true -> exists j, to_json v = Ok j /\ of_json j = v.
Proof.
  induction v as [| b | z | s | l IH | l IH | d IH | id] using pyval_deep_ind;
    simpl; intros Hn; try discriminate; eauto.
  - (* a list *)
    assert (Hl : exists js,
      (fix go (l : list pyval) : result (list json) :=
         match l with
         | [] => Ok []
         | x :: r =>
             match to_json x with
             | Ok j => match go r with
                       | Ok js => Ok (j :: js)
                       | Raise e => Raise e
                       end
             | Raise e => Raise e
             end
         end) l = Ok js /\ map of_json js = l).
    { induction IH as [|x r Hx Hr IHr]; simpl in *; [eauto|].
      apply andb_true_iff in Hn as [Hnx Hnr].
      destruct (Hx Hnx) as (j & -> & Hj).
      destruct (IHr Hnr) as (js & -> & Hjs).
      exists (j :: js). simpl. by rewrite Hj, Hjs. }
    destruct Hl as (js & -> & Hjs). exists (JArr js). simpl. by rewrite Hjs.
  - (* a dictionary *)
    apply andb_true_iff in Hn as [Hkeys Hn].
    assert (Hd : exists m,
      (fix go (d : list (string * pyval)) : result (list (string * json)) :=
         match d with
         | [] => Ok []
         | kv :: r =>
             match to_json (snd kv) with
             | Ok j => match go r with
                       | Ok js => Ok ((fst kv, j) :: js)
                       | Raise e => Raise e
                       end
             | Raise e => Raise e
             end
         end) d = Ok m /\
      (fix go (m : list (string * json)) : list (string * pyval) :=
         match m with
         | [] => []
         | kv :: r => (fst kv, of_json (snd kv)) :: go r
         end) m = d).
    { clear Hkeys. induction IH as [|[k x] r Hx Hr IHr]; simpl in *; [eauto|].
      apply andb_true_iff in Hn as [Hnx Hnr].
      destruct (Hx Hnx) as (j & -> & Hj).
      destruct (IHr Hnr) as (js & -> & Hjs).
      exists ((k, j) :: js). simpl. by rewrite Hj, Hjs. }
    destruct Hd as (m & -> & Hm). exists (JObj m). simpl.
    rewrite Hm. by rewrite dict_of_pairs_distinct.
Qed.

(** ** The snapshot store *)

Module CacheFacts.
Section WithPyLib.
Context `{PyLib}.
Import GameStateCache.

(** [exists()] on a disk that answers, and on one that does not. *)
Lemma path_exists_plan_nil (p : string) (w : world) :
  io_plan w = [] ->
  OS.path_exists p w = (Ok (bool_decide (is_Some (files w !! p))), w).
Proof.
  intros Hplan. unfold OS.path_exists, OS.os_call, OS.next_io, bind.
  by rewrite Hplan.
Qed.

Lemma path_exists_works (p : string) (fs : gmap string text)
    (plan : list bool) (tr : list event) :
  OS.path_exists p (mkWorld fs (true :: plan) tr) =
    (Ok (bool_decide (is_Some (fs !! p))), mkWorld fs plan tr).
Proof. reflexivity. Qed.

Lemma path_exists_fails (p : string) (fs : gmap string text)
    (plan : list bool) (tr : list event) :
  OS.path_exists p (mkWorld fs (false :: plan) tr) =
    (Raise OSError, mkWorld fs plan tr).
Proof. reflexivity. Qed.

(** [_save_to_file] never raises and never touches the object. *)
Lemma save_never_raises (s : st) :
  exists w', _save_to_file s = (Ok tt, mkOW (self s) w').
Proof.
  unfold _save_to_file, try_except, bind, get_self, lift, in_env, raise.
  destruct s as [c w]; simpl.
  destruct (cache_file c) as [p|]; simpl; [|eauto].
  destruct (Path.with_suffix p ".tmp") as [tmp|e]; simpl; [|eauto].
  destruct (OS.open_write tmp w) as [[[]|e] w1]; simpl; [|eauto].
  destruct (OS.json_dump _ tmp w1) as [[[]|e] w2]; simpl; [|eauto].
  destruct (OS.replace tmp p w2) as [[[]|e] w3]; simpl; eauto.
Qed.

(** [update] with a dictionary returns, whatever the file system does, and
    leaves the dictionary and the time in the object. *)
Lemma update_dict (now : datetime) (d : list (string * pyval)) (s : st) :
  exists w',
    update now (VDict d) s =
      (Ok tt, mkOW (mk (cache_file (self s)) (VDict d) (Some now)) w').
Proof.
  unfold update, bind, lift, set_self, get_self. simpl.
  destruct (cache_file (self s)) as [p|] eqn:Hp; simpl.
  - destruct (save_never_raises
                (mkOW (set_last_update (Some now) (set_state (VDict d) (self s)))
                   (env s))) as [w' Hw'].
    rewrite Hw'. simpl. unfold in_env, OS.logger, OS.emit, modify. simpl.
    unfold set_last_update, set_state. simpl. rewrite Hp. eauto.
  - unfold ret, in_env, OS.logger, OS.emit, modify. simpl.
    unfold set_last_update, set_state. simpl. rewrite Hp. eauto.
Qed.

(** [get_latest] changes nothing: neither the object nor the world. *)
Lemma get_latest_pure (s : st) : snd (get_latest s) = s.
Proof.
  unfold get_latest, bind, get_self, lift, ret.
  by destruct (truthy (_state (self s))).
Qed.

Lemma get_latest_dict (d : list (string * pyval)) (s : st) :
  _state (self s) = VDict d -> d <> [] -> get_latest s = (Ok (VDict d), s).
Proof.
  intros Hs Hd. unfold get_latest, bind, get_self, lift, ret.
  rewrite Hs. destruct d; [done|]. reflexivity.
Qed.

Lemma get_latest_empty_dict (s : st) :
  _state (self s) = VDict [] -> get_latest s = (Ok VNone, s).
Proof.
  intros Hs. unfold get_latest, bind, get_self, lift, ret. by rewrite Hs.
Qed.

Lemma updates_app (l1 l2 : list (datetime * pyval)) (s : st) :
  updates (l1 ++ l2)%list s =
    match updates l1 s with
    | (Ok _, s') => updates l2 s'
    | (Raise e, s') => (Raise e, s')
    end.
Proof.
  revert s. induction l1 as [|[now v] l1 IH]; intros s; simpl; [done|].
  unfold bind. destruct (update now v s) as [[[]|e] s']; [apply IH|done].
Qed.

Lemma updates_dicts (calls : list (datetime * pyval)) (s : st) :
  forallb (fun c => is_dict (snd c)) calls = true ->
  exists s', updates calls s = (Ok tt, s') /\
             cache_file (self s') = cache_file (self s).
Proof.
  revert s. induction calls as [|[now v] calls IH]; intros s Hall; simpl in *.
  - eauto.
  - apply andb_true_iff in Hall as [Hv Hall]. destruct v; try discriminate.
    destruct (update_dict now d s) as [w' Hu].
    unfold bind. rewrite Hu.
    destruct (IH (mkOW (mk (cache_file (self s)) (VDict d) (Some now)) w') Hall)
      as (s' & -> & Hc). eauto.
Qed.

(** Read after write, for the snapshots that are not empty: after any
    sequence of updates with dictionaries, [get_latest] returns the last
    one. *)
Lemma read_after_write (calls : list (datetime * pyval)) (now : datetime)
    (d : list (string * pyval)) (s : st) :
  forallb (fun c => is_dict (snd c)) calls = true ->
  d <> [] ->
  exists s', updates (calls ++ [(now, VDict d)])%list s = (Ok tt, s') /\
             get_latest s' = (Ok (VDict d), s').
Proof.
  intros Hall Hd. rewrite updates_app.
  destruct (updates_dicts calls s Hall) as (s1 & -> & _). simpl.
  unfold bind. destruct (update_dict now d s1) as [w' ->]. simpl.
  eexists. split; [reflexivity|]. by apply get_latest_dict.
Qed.

(** The document that [_save_to_file] writes. *)
Lemma to_json_cache_data (v u : pyval) (jv ju : json) :
  to_json v = Ok jv -> to_json u = Ok ju ->
  to_json (VDict [("state", v); ("last_update", u)]) =
    Ok (JObj [("state", jv); ("last_update", ju)]).
Proof. intros Hv Hu. simpl. by rewrite Hv, Hu. Qed.

(** The write that works: the document is at the path afterwards. *)
Lemma save_ok (c : t) (w : world) (p tmp : string) (j : json) :
  cache_file c = Some p ->
  Path.with_suffix p ".tmp" = Ok tmp ->
  io_plan w = [] ->
  to_json (_state c) = Ok j ->
  exists w',
    _save_to_file (mkOW c w) = (Ok tt, mkOW c w') /\
    io_plan w' = [] /\
    files w' !! p =
      Some (Doc (JObj [("state", j);
                       ("last_update",
                         match last_update c with
                         | Some d => JStr (isoformat d)
                         | None => JNull
                         end)])).
Proof.
  intros Hp Htmp Hplan Hj.
  unfold _save_to_file, try_except, bind, get_self, lift, in_env. simpl.
  rewrite Hp, Htmp. simpl.
  unfold OS.open_write, OS.os_call, OS.next_io, bind. rewrite Hplan. simpl.
  unfold OS.json_dump.
  erewrite to_json_cache_data;
    [|exact Hj|instantiate (1 := match last_update c with
                                 | Some d => JStr (isoformat d)
                                 | None => JNull end);
               by destruct (last_update c)].
  unfold OS.os_call, OS.next_io, bind. simpl. rewrite Hplan. simpl.
  unfold OS.replace, OS.os_call, OS.next_io, bind. simpl. rewrite Hplan. simpl.
  rewrite lookup_insert_eq. simpl.
  eexists. split; [reflexivity|]. split; [exact Hplan|].
  simpl. by rewrite lookup_insert_eq.
Qed.

(** The load that works: the state of the document is the state of the new
    store. *)
Lemma load_ok (p : string) (w : world) (js : json) (d : datetime) :
  io_plan w = [] ->
  files w !! p =
    Some (Doc (JObj [("state", js); ("last_update", JStr (isoformat d))])) ->
  exists s, new (Some p) w = (Ok tt, s) /\ _state (self s) = of_json js.
Proof.
  intros Hplan Hf.
  unfold new, __init__, bind, set_self, in_env. simpl.
  rewrite (path_exists_plan_nil p w Hplan).
  rewrite Hf. rewrite bool_decide_true by eauto.
  unfold _load_from_file, try_except, bind, get_self, in_env, lift. simpl.
  unfold OS.read_file, OS.os_call, OS.next_io, bind. rewrite Hplan. simpl.
  rewrite Hf. simpl.
  destruct (String.eqb (isoformat d) "") eqn:Hiso; simpl.
  - eexists. split; reflexivity.
  - rewrite fromisoformat_isoformat. simpl. eexists. split; reflexivity.
Qed.

Lemma with_suffix_named (p suf : string) :
  Path.name p <> "" -> exists tmp, Path.with_suffix p suf = Ok tmp.
Proof.
  unfold Path.name, Path.with_suffix.
  destruct (Path.split_name p) as [dir n]. simpl.
  destruct n; [done|eauto].
Qed.

Lemma update_persists (p : string) (now : datetime)
    (d : list (string * pyval)) (s : st) :
  cache_file (self s) = Some p ->
  Path.name p <> "" ->
  io_plan (env s) = [] ->
  json_native (VDict d) = true ->
  exists w' js,
    update now (VDict d) s = (Ok tt, mkOW (mk (Some p) (VDict d) (Some now)) w') /\
    io_plan w' = [] /\
    files w' !! p =
      Some (Doc (JObj [("state", js); ("last_update", JStr (isoformat now))])) /\
    of_json js = VDict d.
Proof.
  intros Hp Hname Hplan Hnat.
  destruct (with_suffix_named p ".tmp" Hname) as [tmp Htmp].
  destruct (json_native_roundtrip _ Hnat) as (js & Hjs & Hback).
  unfold update, bind, lift, set_self, get_self. simpl. rewrite Hp.
  destruct (save_ok
              (set_last_update (Some now) (set_state (VDict d) (self s)))
              (env s) p tmp js) as (w1 & Hsave & Hplan1 & Hfile); auto.
  rewrite Hsave. simpl.
  unfold in_env, OS.logger, OS.emit, modify. simpl.
  unfold set_last_update, set_state. simpl. rewrite Hp.
  eexists _, js. split; [reflexivity|]. simpl. auto.
Qed.

(** A store constructed without a persisted file has no entry. *)
Lemma new_without_file (cache_file : option string) (w : world) :
  OS.works 1 w = true ->
  match cache_file with
  | Some p => files w !! p = None
  | None => True
  end ->
  exists w',
    new cache_file w = (Ok tt, mkOW (mk cache_file VNone None) w') /\
    files w' = files w /\
    get_latest (mkOW (mk cache_file VNone None) w') =
      (Ok VNone, mkOW (mk cache_file VNone None) w').
Proof.
  intros Hworks Hfile.
  destruct cache_file as [p|];
    [|exists w; split; [reflexivity|split; reflexivity]].
  unfold new, __init__, bind, set_self, in_env, ret. simpl.
  unfold OS.path_exists, OS.os_call, OS.next_io, bind, OS.works in *.
  destruct w as [fs [|[] plan] tr]; simpl in *; try discriminate;
    rewrite Hfile; (rewrite bool_decide_false by (by intros [x Hx]));
    (eexists; split; [reflexivity|split; reflexivity]).
Qed.

(** C1. Read after write breaks on the empty snapshot: in any state of the
    store (so after any earlier updates), [update({})] returns, and the
    [get_latest()] that follows returns [None], which is not equal to [{}]:
    the store tests the truth value of the entry where it means to test
    that there is one. *)
Theorem get_latest_after_empty_update (now : datetime) (s : st) :
  exists s',
    update now (VDict []) s = (Ok tt, s') /\
    _state (self s') = VDict [] /\
    get_latest s' = (Ok VNone, s') /\
    py_eq VNone (VDict []) = false.
Proof.
  destruct (update_dict now [] s) as [w' Hu].
  eexists. split; [exact Hu|]. split; [reflexivity|].
  split; [by apply get_latest_empty_dict|reflexivity].
Qed.

(** C5. The empty snapshot on a disk that fails: [update({})] on a store
    with a persistence path, when the first system call of the write
    fails, returns without raising, leaves the files as they were and logs
    the failure; the [get_latest()] that follows returns [None], not
    [{}]. *)
Theorem empty_update_on_failing_disk (now : datetime) (p : string)
    (v : pyval) (lu : option datetime) (fs : gmap string text)
    (plan : list bool) (tr : list event) :
  exists w',
    update now (VDict [])
      (mkOW (mk (Some p) v lu) (mkWorld fs (false :: plan) tr)) =
      (Ok tt, mkOW (mk (Some p) (VDict []) (Some now)) w') /\
    files w' = fs /\
    In (Log ERROR "Failed to save cache to file") (trace w') /\
    get_latest (mkOW (mk (Some p) (VDict []) (Some now)) w') =
      (Ok VNone, mkOW (mk (Some p) (VDict []) (Some now)) w').
Proof.
  unfold update, bind, lift, set_self, get_self. simpl.
  unfold _save_to_file, try_except, bind, get_self, lift, in_env. simpl.
  destruct (Path.with_suffix p ".tmp") as [tmp|e]; simpl;
    (eexists; split; [reflexivity|]; simpl; split; [reflexivity|];
     split; [rewrite !in_app_iff; simpl; auto|reflexivity]).
Qed.

(** What holds of a failing disk for the other snapshots: the update
    returns whatever the file system answers, and [get_latest()] returns
    the dictionary. *)
Lemma update_then_get_latest (now : datetime) (d : list (string * pyval))
    (s : st) :
  d <> [] ->
  exists s', update now (VDict d) s = (Ok tt, s') /\
             get_latest s' = (Ok (VDict d), s').
Proof.
  intros Hd. destruct (update_dict now d s) as [w' Hu].
  eexists. split; [exact Hu|]. by apply get_latest_dict.
Qed.

(** What the construction is shielded from: when [exists()] answers that
    the file is there, and then the file cannot be read or its content is no
    JSON text, the construction returns and the store is as without any
    prior state. *)
Lemma new_when_load_fails (p : string) (w : world) :
  is_Some (files w !! p) ->
  OS.works 1 w = true ->
  OS.works 2 w = false \/ OS.corrupt w p = true ->
  exists w',
    new (Some p) w = (Ok tt, mkOW (mk (Some p) VNone None) w') /\
    files w' = files w /\
    get_latest (mkOW (mk (Some p) VNone None) w') =
      (Ok VNone, mkOW (mk (Some p) VNone None) w').
Proof.
  intros Hex Hworks Hbad.
  unfold new, __init__, bind, set_self, in_env. simpl.
  unfold OS.path_exists, OS.os_call, OS.next_io, bind, OS.works, OS.corrupt
    in *.
  destruct w as [fs plan tr]. simpl in *.
  destruct plan as [|[] plan]; simpl in *; try discriminate;
    (rewrite bool_decide_true by done);
    unfold _load_from_file, try_except, bind, get_self, in_env, lift; simpl;
    unfold OS.read_file, OS.os_call, OS.next_io, bind; simpl.
  - destruct Hbad as [?|Hbad]; [discriminate|].
    destruct (fs !! p) as [[j|raw|raw]|]; try discriminate; simpl;
      (eexists; split; [reflexivity|split; reflexivity]).
  - destruct plan as [|[] plan]; simpl in *.
    + destruct Hbad as [?|Hbad]; [discriminate|].
      destruct (fs !! p) as [[j|raw|raw]|]; try discriminate; simpl;
        (eexists; split; [reflexivity|split; reflexivity]).
    + destruct Hbad as [?|Hbad]; [discriminate|].
      destruct (fs !! p) as [[j|raw|raw]|]; try discriminate; simpl;
        (eexists; split; [reflexivity|split; reflexivity]).
    + eexists; split; [reflexivity|split; reflexivity].
Qed.

(** C6. The construction is not shielded from every unusable file. The
    test [cache_file.exists()] stands outside the [try] of the load: when
    the system call behind it fails (the directory of the file may not be
    searched), the [OSError] leaves the constructor. And the load does not
    check what it reads: from a file that holds an object whose [state] is
    the number 5 the construction returns, the store keeps the number, and
    [get_latest()] raises [AttributeError] instead of returning [None]. *)
Theorem new_is_not_shielded (p : string) (fs : gmap string text)
    (plan : list bool) (tr : list event) :
  new (Some p) (mkWorld fs (false :: plan) tr) =
    (Raise OSError, mkOW (mk (Some p) VNone None) (mkWorld fs plan tr)) /\
  exists s,
    new (Some p)
      (mkWorld
         (<[p := Doc (JObj [("state", JInt 5); ("last_update", JNull)])]> fs)
         [] tr) = (Ok tt, s) /\
    _state (self s) = VInt 5 /\
    get_latest s = (Raise AttributeError, s).
Proof.
  split; [reflexivity|].
  unfold new, __init__, bind, set_self, in_env. simpl.
  unfold OS.path_exists, OS.os_call, OS.next_io, bind. simpl.
  rewrite lookup_insert_eq. rewrite bool_decide_true by eauto.
  unfold _load_from_file, try_except, bind, get_self, in_env, lift. simpl.
  unfold OS.read_file, OS.os_call, OS.next_io, bind. simpl.
  rewrite lookup_insert_eq. simpl.
  eexists. split; [reflexivity|]. split; reflexivity.
Qed.

(** The same holds of a file whose text is JSON but not an object. *)
Lemma new_on_misshapen_file (p : string) (w : world) (j : json) :
  io_plan w = [] ->
  files w !! p = Some (Doc j) ->
  is_dict (of_json j) = false ->
  exists w', new (Some p) w = (Ok tt, mkOW (mk (Some p) VNone None) w').
Proof.
  intros Hplan Hf Hj.
  unfold new, __init__, bind, set_self, in_env. simpl.
  rewrite (path_exists_plan_nil p w Hplan).
  rewrite Hf. rewrite bool_decide_true by eauto.
  unfold _load_from_file, try_except, bind, get_self, in_env, lift. simpl.
  unfold OS.read_file, OS.os_call, OS.next_io, bind. rewrite Hplan. simpl.
  rewrite Hf. simpl.
  destruct (of_json j); try discriminate; simpl; eauto.
Qed.

Lemma get_latest_of_state (a b : st) :
  _state (self a) = _state (self b) ->
  fst (get_latest a) = fst (get_latest b).
Proof.
  intros Hs. unfold get_latest, bind, get_self, lift, ret. rewrite Hs.
  by destruct (truthy (_state (self b))).
Qed.

(** C7, as amended. The round trip through the persisted document, for a
    snapshot of JSON-native values (no tuple, no foreign object) and a
    write that works (no failing system call, a path with a file name): the
    store reconstructed on the same path returns from [get_latest()] what
    the first store returns after the update. *)
Theorem reload_after_update_native (p : string) (now : datetime)
    (d : list (string * pyval)) (s1 : st) :
  cache_file (self s1) = Some p ->
  Path.name p <> "" ->
  io_plan (env s1) = [] ->
  json_native (VDict d) = true ->
  exists v, reload_after_update p now (VDict d) s1 = (Ok v, Ok v).
Proof.
  intros Hp Hname Hplan Hnat.
  destruct (update_persists p now d s1 Hp Hname Hplan Hnat)
    as (w' & js & Hu & Hplan' & Hfile & Hback).
  destruct (load_ok p w' js now Hplan' Hfile) as (s2 & Hnew & Hs2).
  unfold reload_after_update. rewrite Hu. simpl. rewrite Hnew. simpl.
  rewrite (get_latest_of_state s2 (mkOW (mk (Some p) (VDict d) (Some now)) w'))
    by (simpl; congruence).
  unfold get_latest, bind, get_self, lift, ret. simpl.
  destruct d; simpl; eauto.
Qed.

End WithPyLib.

(** C7, the claim as stated fails on a tuple: [json.dumps] accepts the
    snapshot, the file holds an array, and the reconstructed store returns
    a list where the first store returns the tuple. *)
Lemma reload_tuple_counterexample :
  let snapshot := VDict [("pos", VTuple [VInt 1; VInt 2])] in
  let s1 := mkOW (GameStateCache.mk (Some "cache.json") VNone None)
              (mkWorld ∅ [] []) in
  json_serializable snapshot = true /\
  GameStateCache.reload_after_update (H := StandIn.lib)
    "cache.json" 0%Z snapshot s1 =
    (Ok (VDict [("pos", VTuple [VInt 1; VInt 2])]),
     Ok (VDict [("pos", VList [VInt 1; VInt 2])])) /\
  py_eq (VDict [("pos", VTuple [VInt 1; VInt 2])])
        (VDict [("pos", VList [VInt 1; VInt 2])]) = false.
Proof. vm_compute. auto. Qed.

(** C7 as amended, on an example. *)
Lemma reload_after_update_native_witness :
  exists v,
    GameStateCache.reload_after_update (H := StandIn.lib) "cache.json" 5%Z
      (VDict [("turn", VInt 7); ("heroes", VList [])])
      (mkOW (GameStateCache.mk (Some "cache.json") VNone None)
         (mkWorld ∅ [] [])) = (Ok v, Ok v).
Proof.
  apply (reload_after_update_native (H := StandIn.lib) "cache.json" 5%Z
           [("turn", VInt 7); ("heroes", VList [])]
           (mkOW (GameStateCache.mk (Some "cache.json") VNone None)
              (mkWorld ∅ [] []))).
  - reflexivity.
  - vm_compute. discriminate.
  - reflexivity.
  - reflexivity.
Defined.

End CacheFacts.

(** ** The query service *)

Module QueryFacts.
Section WithPyLib.
Context `{PyLib}.
Import GameStateCache.

Lemma get_latest_none (s : st) :
  _state (self s) = VNone -> get_latest s = (Ok VNone, s).
Proof.
  intros Hs. unfold get_latest, bind, get_self, lift, ret. by rewrite Hs.
Qed.

Lemma to_json_success_payload (v : pyval) (cached : option datetime)
    (j : json) :
  to_json v = Ok j ->
  to_json (QueryHandler.success_payload v cached) =
    Ok (JObj [("success", JBool true);
              ("data", j);
              ("metadata",
                JObj [("cached_at",
                        match cached with
                        | Some t => JStr (isoformat t)
                        | None => JNull
                        end);
                      ("version", JStr "1.0.0")])]).
Proof. intros Hj. simpl. rewrite Hj. by destruct cached. Qed.

(** The three answers of [handle_query] to a request whose body is a JSON
    object. *)
Lemma answer_no_state (request : pyval) (s : st) :
  _state (self s) = VNone ->
  QueryHandler.handle_query request s = (Ok QueryHandler.no_state_payload, s).
Proof.
  intros Hs. unfold QueryHandler.handle_query, bind.
  rewrite (get_latest_none s Hs). reflexivity.
Qed.

Lemma answer_mismatch (request d : list (string * pyval)) (rt : pyval)
    (s : st) :
  _state (self s) = VDict d -> d <> [] ->
  dict_get "turn" request = Some rt ->
  is_none rt = false ->
  py_eq rt (default VNone (dict_get "turn" d)) = false ->
  QueryHandler.handle_query (VDict request) s =
    (Ok (QueryHandler.mismatch_payload rt (default VNone (dict_get "turn" d))),
     s).
Proof.
  intros Hs Hd Hrt Hnone Hne.
  unfold QueryHandler.handle_query, bind.
  rewrite (CacheFacts.get_latest_dict d s Hs Hd). simpl.
  unfold lift, default, id in *. rewrite Hrt, Hnone. simpl.
  rewrite Hne. reflexivity.
Qed.

Lemma answer_success (request d : list (string * pyval)) (s : st) :
  _state (self s) = VDict d -> d <> [] ->
  match dict_get "turn" request with
  | Some rt =>
      is_none rt = true \/ py_eq rt (default VNone (dict_get "turn" d)) = true
  | None => True
  end ->
  QueryHandler.handle_query (VDict request) s =
    (Ok (QueryHandler.success_payload (VDict d) (last_update (self s))), s).
Proof.
  intros Hs Hd Hturn.
  unfold QueryHandler.handle_query, bind.
  rewrite (CacheFacts.get_latest_dict d s Hs Hd). simpl.
  unfold lift, default, id, get_self, ret in *.
  destruct (dict_get "turn" request) as [rt|]; simpl; [|reflexivity].
  destruct Hturn as [Hnone|Heq].
  - rewrite Hnone. reflexivity.
  - destruct (is_none rt); simpl; [reflexivity|].
    rewrite Heq. reflexivity.
Qed.

(** C2, as amended. The three answers of [handle_query] to a request whose
    body is a JSON object: with no snapshot in the store, the payload
    [error: No game state available] with a message and without [data];
    with a snapshot (not empty) and a requested turn that is not null and
    differs from the turn of the snapshot, the payload [error: Turn not
    available] whose message names both turns; with a snapshot (not
    empty) and no requested turn, a null one, or one equal to the turn of
    the snapshot, the payload [success, data, metadata]. The store is left
    as it was. *)
Theorem handle_query_answers (request : list (string * pyval)) (s : st) :
  (_state (self s) = VNone ->
     QueryHandler.handle_query (VDict request) s =
       (Ok (VDict [("error", VStr "No game state available");
                   ("message",
                     VStr "Waiting for Heroes III save file to be detected")]),
        s) /\
     dict_get "data"
       [("error", VStr "No game state available");
        ("message", VStr "Waiting for Heroes III save file to be detected")]
       = None) /\
  (forall d rt,
     _state (self s) = VDict d -> d <> [] ->
     dict_get "turn" request = Some rt ->
     is_none rt = false ->
     py_eq rt (default VNone (dict_get "turn" d)) = false ->
     QueryHandler.handle_query (VDict request) s =
       (Ok (VDict [("error", VStr "Turn not available");
                   ("message",
                     VStr ("Requested turn " +:+ py_str rt +:+
                           ", but only turn " +:+
                           py_str (default VNone (dict_get "turn" d)) +:+
                           " is available"))]), s)) /\
  (forall d,
     _state (self s) = VDict d -> d <> [] ->
     match dict_get "turn" request with
     | Some rt =>
         is_none rt = true \/
         py_eq rt (default VNone (dict_get "turn" d)) = true
     | None => True
     end ->
     QueryHandler.handle_query (VDict request) s =
       (Ok (VDict [("success", VBool true);
                   ("data", VDict d);
                   ("metadata",
                     VDict [("cached_at",
                              opt_val (fun t => VStr (isoformat t))
                                (last_update (self s)));
                            ("version", VStr "1.0.0")])]), s)).
Proof.
  split; [|split].
  - intros Hs. split; [by apply answer_no_state|reflexivity].
  - intros d rt Hs Hd Hrt Hnone Hne. by apply answer_mismatch.
  - intros d Hs Hd Hturn. by apply answer_success.
Qed.

(** C10. A request without a body ([Content-Length] absent, or 0) gets what
    the request with the body [{}] gets, which is never an error page: the
    no-data payload when the store is empty, the latest snapshot when the
    store holds one. The store and the files are left as they were; the
    log has the record of [send_response(200)] in both runs. *)
Theorem no_body_is_empty_query (r : MCPRequestHandler.request) (s : st) :
  MCPRequestHandler.content_length r = None \/
  MCPRequestHandler.content_length r = Some "0" ->
  MCPRequestHandler.handle_query r s =
    MCPRequestHandler.handle_query
      (MCPRequestHandler.mkRequest (MCPRequestHandler.path r) (Some "2")
         (Doc (JObj []))) s /\
  MCPRequestHandler.handle_query r s =
    match QueryHandler.handle_query (VDict []) s with
    | (Ok response, s') =>
        match to_json response with
        | Ok payload =>
            (Ok (MCPRequestHandler.Response 200
                   MCPRequestHandler.json_headers payload),
             MCPRequestHandler.logged [MCPRequestHandler.request_record 200] s')
        | Raise e =>
            (Raise e,
             MCPRequestHandler.logged [MCPRequestHandler.request_record 200] s')
        end
    | (Raise e, s') => (Raise e, s')
    end /\
  (forall code message,
     fst (MCPRequestHandler.handle_query r s) <>
       Ok (MCPRequestHandler.ErrorPage code message)) /\
  (_state (self s) = VNone ->
     MCPRequestHandler.handle_query r s =
       (Ok (MCPRequestHandler.Response 200 MCPRequestHandler.json_headers
              (JObj [("error", JStr "No game state available");
                     ("message",
                       JStr "Waiting for Heroes III save file to be detected")])),
        MCPRequestHandler.logged [MCPRequestHandler.request_record 200] s)) /\
  (forall d j,
     _state (self s) = VDict d -> d <> [] -> to_json (VDict d) = Ok j ->
     MCPRequestHandler.handle_query r s =
       (Ok (MCPRequestHandler.Response 200 MCPRequestHandler.json_headers
              (JObj [("success", JBool true);
                     ("data", j);
                     ("metadata",
                       JObj [("cached_at",
                               match last_update (self s) with
                               | Some t => JStr (isoformat t)
                               | None => JNull
                               end);
                             ("version", JStr "1.0.0")])])),
        MCPRequestHandler.logged [MCPRequestHandler.request_record 200] s)).
Proof.
  intros Hlen.
  assert (Hrun : MCPRequestHandler.handle_query r s =
    match QueryHandler.handle_query (VDict []) s with
    | (Ok response, s') =>
        match to_json response with
        | Ok payload =>
            (Ok (MCPRequestHandler.Response 200
                   MCPRequestHandler.json_headers payload),
             MCPRequestHandler.logged [MCPRequestHandler.request_record 200] s')
        | Raise e =>
            (Raise e,
             MCPRequestHandler.logged [MCPRequestHandler.request_record 200] s')
        end
    | (Raise e, s') => (Raise e, s')
    end).
  { unfold MCPRequestHandler.handle_query, MCPRequestHandler.read_content_length.
    destruct Hlen as [-> | ->]; simpl;
      unfold bind, try_except, lift, ret; simpl;
      change (dict_of_pairs (@nil (string * pyval))) with (@nil (string * pyval));
      (destruct (QueryHandler.handle_query (VDict []) s) as [[resp|e] s'];
       [destruct (to_json resp)|]; reflexivity). }
  split; [|split; [exact Hrun|split; [|split]]].
  - rewrite Hrun.
    unfold MCPRequestHandler.handle_query, MCPRequestHandler.read_content_length.
    simpl. unfold bind, try_except, lift, ret; simpl.
    change (dict_of_pairs (@nil (string * pyval))) with (@nil (string * pyval)).
    destruct (QueryHandler.handle_query (VDict []) s) as [[resp|e] s'];
      [destruct (to_json resp)|]; reflexivity.
  - intros code message. rewrite Hrun.
    destruct (QueryHandler.handle_query (VDict []) s) as [[resp|e] s'];
      [destruct (to_json resp)|]; simpl; congruence.
  - intros Hs. rewrite Hrun.
    by rewrite (answer_no_state (VDict []) s Hs).
  - intros d j Hs Hd Hj. rewrite Hrun.
    rewrite (answer_success [] d s Hs Hd I).
    by rewrite (to_json_success_payload _ _ _ Hj).
Qed.

(** [send_error] answers with the error page and leaves two records in the
    log, the one of [log_error] and the one of [log_request]. *)
Lemma send_error_logged (code : Z) (message : string) (s : st) :
  MCPRequestHandler.send_error code message s =
    (Ok (MCPRequestHandler.ErrorPage code message),
     MCPRequestHandler.logged
       [MCPRequestHandler.error_record code message;
        MCPRequestHandler.request_record code] s).
Proof.
  unfold MCPRequestHandler.send_error, MCPRequestHandler.send_response,
    MCPRequestHandler.log_error, MCPRequestHandler.log_request,
    MCPRequestHandler.log_message, MCPRequestHandler.logged, OS.logged,
    MCPRequestHandler.error_record, MCPRequestHandler.request_record,
    bind, in_env, OS.logger, OS.emit, modify, ret.
  simpl. by rewrite <- app_assoc.
Qed.




End WithPyLib.

(** C2 as amended, on the examples of the specification: no snapshot;
    turn 5 requested and turn 7 cached; turn 7 requested and cached. *)
Lemma handle_query_answers_witness :
  QueryHandler.handle_query (H := StandIn.lib) (VDict []) Examples.empty_store =
    (Ok (QueryHandler.no_state_payload), Examples.empty_store) /\
  QueryHandler.handle_query (H := StandIn.lib)
    (VDict [("turn", VInt 5)]) Examples.store_turn_7 =
    (Ok (QueryHandler.mismatch_payload (H := StandIn.lib) (VInt 5) (VInt 7)),
     Examples.store_turn_7) /\
  QueryHandler.handle_query (H := StandIn.lib)
    (VDict [("turn", VInt 7)]) Examples.store_turn_7 =
    (Ok (QueryHandler.success_payload (H := StandIn.lib)
           (VDict [("turn", VInt 7); ("currentPlayer", VInt 0)]) (Some 3%Z)),
     Examples.store_turn_7).
Proof.
  split; [|split].
  - apply (handle_query_answers (H := StandIn.lib) [] Examples.empty_store).
    reflexivity.
  - apply (proj1 (proj2 (handle_query_answers (H := StandIn.lib)
                           [("turn", VInt 5)] Examples.store_turn_7))
             [("turn", VInt 7); ("currentPlayer", VInt 0)] (VInt 5));
      [reflexivity|discriminate|reflexivity|reflexivity|reflexivity].
  - apply (proj2 (proj2 (handle_query_answers (H := StandIn.lib)
                           [("turn", VInt 7)] Examples.store_turn_7))
             [("turn", VInt 7); ("currentPlayer", VInt 0)]);
      [reflexivity|discriminate|right; reflexivity].
Defined.

(** C2, the claim as stated fails on a body that is well-formed JSON but
    not an object: with a snapshot in the store, [request_data.get] raises
    [AttributeError], the server catches only the decoding error, and the
    client gets none of the three payloads. *)
Lemma query_array_body_counterexample :
  QueryHandler.handle_query (H := StandIn.lib) (VList []) Examples.store_turn_7 =
    (Raise AttributeError, Examples.store_turn_7) /\
  MCPRequestHandler.do_POST (H := StandIn.lib)
    (MCPRequestHandler.mkRequest "/query/snapshot" (Some "2") (Doc (JArr [])))
    Examples.store_turn_7 = (Raise AttributeError, Examples.store_turn_7).
Proof. split; reflexivity. Qed.

(** C10, on an example: no [Content-Length] header, a snapshot in the
    store. *)
Lemma no_body_is_empty_query_witness :
  MCPRequestHandler.handle_query (H := StandIn.lib)
    (MCPRequestHandler.mkRequest "/query/snapshot" None (Garbage ""))
    Examples.store_turn_7 =
  MCPRequestHandler.handle_query (H := StandIn.lib)
    (MCPRequestHandler.mkRequest "/query/snapshot" (Some "2") (Doc (JObj [])))
    Examples.store_turn_7.
Proof.
  apply (no_body_is_empty_query (H := StandIn.lib)
           (MCPRequestHandler.mkRequest "/query/snapshot" None (Garbage ""))
           Examples.store_turn_7).
  left. reflexivity.
Defined.

End QueryFacts.

(** ** The change watcher *)

Module WatcherFacts.
Import SaveFileHandler.

Lemma parse_calls_app (a b : list event) :
  parse_calls (a ++ b)%list = (parse_calls a ++ parse_calls b)%list.
Proof. apply omap_app. Qed.

Lemma callback_calls_app (a b : list event) :
  callback_calls (a ++ b)%list = (callback_calls a ++ callback_calls b)%list.
Proof. apply omap_app. Qed.

Ltac run_handler :=
  unfold on_modified, run_parser, bind, ret, lift, in_env, get_self, set_self,
    OS.logger, OS.print_json, OS.emit, modify;
  simpl.

(** What one event does to the table of accepted times and to the list of
    the parser's invocations. *)
Lemma on_modified_effect (parse : string -> option GameState.t)
    (now : datetime) (event : FileModifiedEvent) (s : st) :
  let s' := snd (on_modified parse now event s) in
  debounce_seconds (self s') = debounce_seconds (self s) /\
  if accepted (self s) now event
  then last_modified (self s') =
         <[src_path event := now]> (last_modified (self s)) /\
       parse_calls (trace (env s')) =
         (parse_calls (trace (env s)) ++ [src_path event])%list
  else last_modified (self s') = last_modified (self s) /\
       parse_calls (trace (env s')) = parse_calls (trace (env s)).
Proof.
  unfold accepted. run_handler.
  destruct (is_directory event); simpl; [done|].
  destruct (_is_save_file (src_path event)); simpl; [|done].
  destruct (debounced (self s) (src_path event) now); simpl.
  - rewrite parse_calls_app. simpl. by rewrite app_nil_r.
  - destruct (parse (src_path event)) as [gs|]; simpl.
    + destruct (to_json (GameState.to_dict gs)); simpl.
      * destruct (callback (self s)) as [cb|]; simpl;
          [destruct (cb gs)|]; simpl;
          rewrite !parse_calls_app; simpl;
          rewrite ?app_nil_r; done.
      * rewrite !parse_calls_app. simpl. by rewrite ?app_nil_r.
    + rewrite !parse_calls_app. simpl. by rewrite ?app_nil_r.
Qed.

(** C3. Two modification events on one save file, the first of them
    accepted, with the window of 1.0 second ([__init__] sets it): when the
    second comes less than the window after the first, the parser is
    invoked once and the recorded time stays that of the first; when it
    comes 1.1 seconds after, the parser is invoked twice and the recorded
    time is that of the second. And for every event, the recorded times
    change exactly when the event is accepted. *)
Theorem debounce_two_events (parse : string -> option GameState.t)
    (path : string) (t1 t2 : datetime) (s : st) :
  _is_save_file path = true ->
  debounce_seconds (self s) = 1000000%Z ->
  debounced (self s) path t1 = false ->
  let event := mkEvent false path in
  let s1 := snd (on_modified parse t1 event s) in
  let s2 := snd (on_modified parse t2 event s1) in
  ((t2 - t1 < 1000000)%Z ->
     parse_calls (trace (env s2)) =
       (parse_calls (trace (env s)) ++ [path])%list /\
     last_modified (self s2) !! path = Some t1) /\
  ((t2 - t1 = 1100000)%Z ->
     parse_calls (trace (env s2)) =
       (parse_calls (trace (env s)) ++ [path; path])%list /\
     last_modified (self s2) !! path = Some t2) /\
  (forall now ev s0,
     last_modified (self (snd (on_modified parse now ev s0))) =
       if accepted (self s0) now ev
       then <[src_path ev := now]> (last_modified (self s0))
       else last_modified (self s0)).
Proof.
  intros Hsave Hwin Hfirst event s1 s2.
  pose proof (on_modified_effect parse t1 event s) as [Hw1 H1].
  pose proof (on_modified_effect parse t2 event s1) as [Hw2 H2].
  fold s1 in Hw1, H1. fold s2 in Hw2, H2.
  unfold accepted in H1, H2. simpl in H1, H2.
  rewrite Hsave, Hfirst in H1. simpl in H1. destruct H1 as [Hlm1 Hp1].
  rewrite Hsave in H2. simpl in H2.
  unfold debounced in H2. rewrite Hlm1, lookup_insert_eq, Hw1, Hwin in H2.
  split; [|split].
  - intros Hlt. apply Z.ltb_lt in Hlt. rewrite Hlt in H2. simpl in H2.
    destruct H2 as [Hlm2 Hp2]. rewrite Hp2, Hp1, Hlm2.
    by rewrite lookup_insert_eq.
  - intros Heq.
    assert (Hge : (t2 - t1 <? 1000000)%Z = false) by (apply Z.ltb_ge; lia).
    rewrite Hge in H2. simpl in H2.
    destruct H2 as [Hlm2 Hp2]. rewrite Hp2, Hp1, Hlm2.
    rewrite <- app_assoc. simpl. by rewrite lookup_insert_eq.
  - intros now ev s0.
    pose proof (on_modified_effect parse now ev s0) as [_ H0].
    by destruct (accepted (self s0) now ev); destruct H0.
Qed.

(** An event on a path with another extension never reaches the parser. *)
Lemma other_extension_not_parsed (parse : string -> option GameState.t)
    (now : datetime) (event : FileModifiedEvent) (s : st) :
  _is_save_file (src_path event) = false ->
  on_modified parse now event s = (Ok tt, s).
Proof.
  intros Hsave. unfold on_modified. rewrite Hsave.
  by destruct (is_directory event).
Qed.

(** C3, on the examples of the specification: a new handler, two events
    0.1 second apart, and two events 1.1 seconds apart. *)
Lemma debounce_two_events_witness :
  let event := mkEvent false "saves/game.gm1" in
  let after t2 :=
    snd (on_modified Examples.mock_parser t2 event
           (snd (on_modified Examples.mock_parser 0%Z event
                   Examples.fresh_handler))) in
  parse_calls (trace (env (after 100000%Z))) = ["saves/game.gm1"] /\
  parse_calls (trace (env (after 1100000%Z))) =
    ["saves/game.gm1"; "saves/game.gm1"].
Proof.
  split.
  - apply (debounce_two_events Examples.mock_parser "saves/game.gm1"
             0%Z 100000%Z Examples.fresh_handler); reflexivity.
  - apply (debounce_two_events Examples.mock_parser "saves/game.gm1"
             0%Z 1100000%Z Examples.fresh_handler); reflexivity.
Defined.

(** [process_existing_saves] never invokes the callback, whatever the
    directory holds and whatever callback the handler has. *)
Lemma process_existing_saves_no_callback
    (parse : string -> option GameState.t) (save_directory : string)
    (entries : SaveWatcher.directory) (s : st) :
  callback_calls
    (trace (env (snd (SaveWatcher.process_existing_saves parse save_directory
                        entries s)))) =
  callback_calls (trace (env s)).
Proof.
  unfold SaveWatcher.process_existing_saves.
  destruct (flat_map _ SaveWatcher.patterns) as [|f fs].
  - run_handler. rewrite callback_calls_app. simpl. by rewrite app_nil_r.
  - destruct (SaveWatcher.sort_by_mtime (f :: fs)) as [|latest rest];
      [reflexivity|].
    run_handler.
    destruct (parse (fst latest)) as [gs|]; simpl;
      [destruct (to_json (GameState.to_dict gs)); simpl|];
      rewrite !callback_calls_app; simpl; by rewrite ?app_nil_r.
Qed.

(** The file that [process_existing_saves] parses is a most recently
    modified one. *)
Lemma insert_by_mtime_head (f : string * Z) (sorted : list (string * Z)) :
  exists h rest, SaveWatcher.insert_by_mtime f sorted = h :: rest /\
    (snd f <= snd h)%Z /\
    match sorted with
    | g :: _ => (snd g <= snd h)%Z
    | [] => True
    end.
Proof.
  destruct sorted as [|g rest]; simpl.
  - exists f, []. repeat split; lia.
  - destruct (snd g <=? snd f)%Z eqn:Hle.
    + apply Z.leb_le in Hle. exists f, (g :: rest). repeat split; lia.
    + apply Z.leb_gt in Hle. eexists g, _. repeat split; lia.
Qed.

Lemma latest_is_most_recent (l : list (string * Z)) (f : string * Z)
    (rest : list (string * Z)) :
  SaveWatcher.sort_by_mtime l = f :: rest ->
  Forall (fun g => (snd g <= snd f)%Z) l.
Proof.
  revert f rest. induction l as [|a l IH]; intros f rest Hs; [constructor|].
  simpl in Hs.
  destruct (insert_by_mtime_head a (SaveWatcher.sort_by_mtime l))
    as (h & r & Hins & Ha & Hg).
  rewrite Hins in Hs. injection Hs as -> ->.
  constructor; [exact Ha|].
  destruct (SaveWatcher.sort_by_mtime l) as [|g gs] eqn:Hl.
  - destruct l as [|b l]; [constructor|].
    simpl in Hl.
    destruct (insert_by_mtime_head b (SaveWatcher.sort_by_mtime l))
      as (h' & r' & Hins' & _). congruence.
  - eapply Forall_impl; [exact (IH g gs eq_refl)|].
    intros x Hx. simpl in Hx. lia.
Qed.

(** C4. A directory with one save file, a parser that reads it, a handler
    with a callback: [process_existing_saves] parses the file and prints
    the snapshot, and the callback is not invoked; the modification event
    on the same file prints the snapshot and invokes the callback. *)
Theorem existing_save_not_forwarded :
  let started :=
    snd (SaveWatcher.process_existing_saves Examples.mock_parser "saves"
           [("game.gm1", 10%Z)] Examples.fresh_handler) in
  let live :=
    snd (on_modified Examples.mock_parser 0%Z
           (mkEvent false "saves/game.gm1") Examples.fresh_handler) in
  parse_calls (trace (env started)) = ["saves/game.gm1"] /\
  printed (trace (env started)) =
    [GameState.to_dict Examples.mock_game_state] /\
  callback_calls (trace (env started)) = [] /\
  parse_calls (trace (env live)) = ["saves/game.gm1"] /\
  printed (trace (env live)) = [GameState.to_dict Examples.mock_game_state] /\
  callback_calls (trace (env live)) = [Examples.mock_game_state].
Proof. vm_compute. repeat split. Qed.

End WatcherFacts.

(** ** The snapshot model *)

Module ModelFacts.

(** The keys of the records, in the order of the document. *)
Lemma Tile_to_dict_keys (tile : Tile.t) :
  exists d, Tile.to_dict tile = VDict d /\
            map fst d = ["x"; "y"; "obj"; "owner"].
Proof. eexists. split; reflexivity. Qed.

(** The required fields of a hero go under the names of the dataclass,
    [movement_left] and [primary_stats]. *)
Lemma Hero_to_dict_required (hero : Hero.t) :
  exists d, Hero.to_dict hero = VDict d /\
    dict_get "movement_left" d = Some (VInt (Hero.movement_left hero)) /\
    dict_get "primary_stats" d = Some (int_dict (Hero.primary_stats hero)) /\
    dict_get "movementLeft" d = None /\
    dict_get "primaryStats" d = None.
Proof.
  eexists. split; [reflexivity|].
  destruct hero as [n l a m p [?|] [?|] [?|] [?|] [?|] [?|]];
    repeat split; reflexivity.
Qed.

(** C9, as amended. The document of a game state has the five required
    fields, and [resources] only when the mapping is known and not empty;
    every tile has [x], [y], [obj] and always [owner], which is [None] for
    a tile without owner; every hero has [name], [location] and [army],
    every town its six required fields, and each optional field of a hero
    or of a town is in the document exactly when its value is not [None]. *)
Theorem to_dict_fields :
  (forall g : GameState.t,
     exists d, GameState.to_dict g = VDict d /\
       dict_get "turn" d = Some (VInt (GameState.turn g)) /\
       dict_get "currentPlayer" d = Some (VInt (GameState.current_player g)) /\
       dict_get "visibleTiles" d =
         Some (VList (map Tile.to_dict (GameState.visible_tiles g))) /\
       dict_get "heroes" d =
         Some (VList (map Hero.to_dict (GameState.heroes g))) /\
       dict_get "towns" d =
         Some (VList (map Town.to_dict (GameState.towns g))) /\
       dict_get "resources" d =
         match GameState.resources g with
         | Some (r :: rs) => Some (int_dict (r :: rs))
         | _ => None
         end) /\
  (forall tile : Tile.t,
     exists d, Tile.to_dict tile = VDict d /\
       dict_get "x" d = Some (VInt (Tile.x tile)) /\
       dict_get "y" d = Some (VInt (Tile.y tile)) /\
       dict_get "obj" d = Some (VStr (Tile.obj tile)) /\
       dict_get "owner" d = Some (opt_val VInt (Tile.owner tile))) /\
  (forall hero : Hero.t,
     exists d, Hero.to_dict hero = VDict d /\
       dict_get "name" d = Some (VStr (Hero.name hero)) /\
       dict_get "location" d = Some (int_dict (Hero.location hero)) /\
       dict_get "army" d = Some (int_dicts (Hero.army hero)) /\
       dict_get "mana" d = option_map VInt (Hero.mana hero) /\
       dict_get "experience" d = option_map VInt (Hero.experience hero) /\
       dict_get "level" d = option_map VInt (Hero.level hero) /\
       dict_get "skills" d =
         option_map (fun l => VList (map VDict l)) (Hero.skills hero) /\
       dict_get "spells" d = option_map int_list (Hero.spells hero) /\
       dict_get "artifacts" d = option_map int_list (Hero.artifacts hero) /\
       Forall (fun kv => is_none (snd kv) = false) d) /\
  (forall town : Town.t,
     exists d, Town.to_dict town = VDict d /\
       dict_get "name" d = Some (VStr (Town.name town)) /\
       dict_get "location" d = Some (int_dict (Town.location town)) /\
       dict_get "owner" d = Some (VInt (Town.owner town)) /\
       dict_get "type" d = Some (VStr (Town.type town)) /\
       dict_get "buildings" d = Some (int_list (Town.buildings town)) /\
       dict_get "garrison" d = Some (int_dicts (Town.garrison town)) /\
       dict_get "available_creatures" d =
         option_map int_dicts (Town.available_creatures town) /\
       Forall (fun kv => is_none (snd kv) = false) d).
Proof.
  split; [|split; [|split]].
  - intros [turn player tiles heroes towns [[|r rs]|]];
      eexists; (split; [reflexivity|]); repeat split; reflexivity.
  - intros tile. eexists. split; [reflexivity|]. repeat split; reflexivity.
  - intros [n l a m p [?|] [?|] [?|] [?|] [?|] [?|]];
      eexists; (split; [reflexivity|]);
      repeat (split; [reflexivity|]); repeat constructor.
  - intros [n l o ty b g [?|]];
      eexists; (split; [reflexivity|]);
      repeat (split; [reflexivity|]); repeat constructor.
Qed.

(** C9, the claim as stated fails on a tile without owner: the optional
    field is in the document, as [None]. *)
Lemma tile_owner_none_counterexample :
  Tile.to_dict (Tile.mk 34 17 "GoldMine" None) =
    VDict [("x", VInt 34); ("y", VInt 17); ("obj", VStr "GoldMine");
           ("owner", VNone)] /\
  dict_get "owner"
    [("x", VInt 34); ("y", VInt 17); ("obj", VStr "GoldMine");
     ("owner", VNone)] = Some VNone /\
  exists d tiles,
    GameState.to_dict Examples.mock_game_state = VDict d /\
    dict_get "visibleTiles" d = Some (VList tiles) /\
    In (Tile.to_dict (Tile.mk 34 17 "GoldMine" None)) tiles.
Proof.
  split; [reflexivity|]. split; [reflexivity|].
  eexists _, _. split; [reflexivity|]. split; [reflexivity|].
  left. reflexivity.
Qed.

End ModelFacts.

(** ** What [get_latest] shares with the store *)

Module HeapFacts.
Import Heap.

(** Reading a value of a closed heap does not depend on the objects
    allocated or changed beyond it. *)
Lemma view_stable (h h' : heap) :
  closed h ->
  (forall a, a < length h -> h' !! a = h !! a) ->
  forall n v, in_heap h v -> view n h' v = view n h v.
Proof.
  intros Hclosed Hsame n.
  induction n as [|n IH]; intros [| b | z | s | a] Hv; simpl; try reflexivity.
  simpl in Hv. rewrite (Hsame a Hv).
  destruct (h !! a) as [o|] eqn:Ha; [|reflexivity].
  assert (Ho : closed_obj h o).
  { eapply (proj1 (Forall_lookup _ _) Hclosed); eauto. }
  destruct o as [d|l]; simpl in Ho; f_equal.
  - apply Forall_mapM_ext. eapply Forall_impl; [exact Ho|].
    intros kv Hkv. simpl. by rewrite IH.
  - apply Forall_mapM_ext. eapply Forall_impl; [exact Ho|].
    intros x Hx. by apply IH.
Qed.

Lemma get_latest_copy (c : t) (h : heap) (l : nat)
    (d : list (string * hval)) :
  _state c = HRef l -> h !! l = Some (HDict d) -> d <> [] ->
  get_latest (c, h) = (Ok (HRef (length h)), (c, (h ++ [HDict d])%list)).
Proof.
  intros Hs Hl Hd. unfold get_latest, bind, get_state, copy, truthy. simpl.
  rewrite Hs, Hl. destruct d as [|kv d]; [done|]. simpl. by rewrite Hl.
Qed.

Lemma view_copy (h : heap) (o : hobj) (a : nat) (n : nat) :
  closed h -> h !! a = Some o ->
  view (S n) (h ++ [o])%list (HRef (length h)) = view (S n) h (HRef a).
Proof.
  intros Hclosed Ha. simpl.
  rewrite lookup_app_r by lia. rewrite Nat.sub_diag. simpl. rewrite Ha.
  assert (Ho : closed_obj h o).
  { eapply (proj1 (Forall_lookup _ _) Hclosed); eauto. }
  assert (Hsame : forall b, b < length h -> (h ++ [o])%list !! b = h !! b).
  { intros b Hb. by rewrite lookup_app_l. }
  destruct o as [d|l]; simpl in Ho; f_equal; apply Forall_mapM_ext;
    (eapply Forall_impl; [exact Ho|]); intros x Hx; simpl.
  - f_equal. by apply view_stable.
  - by apply view_stable.
Qed.

(** The store with objects and the store with values agree: when the entry
    of the first stands for the entry [v] of the second, [get_latest]
    returns on the first a reference that stands for what it returns on
    the second, and raises when it raises. *)
Lemma get_latest_agrees (c : t) (h : heap) (n : nat) (v : pyval)
    (s : GameStateCache.st) :
  closed h ->
  view (S n) h (_state c) = Some v ->
  GameStateCache._state (self s) = v ->
  match get_latest (c, h) with
  | (Ok r, (_, h')) =>
      GameStateCache.get_latest s = (Ok (default VNone (view (S n) h' r)), s) /\
      is_Some (view (S n) h' r)
  | (Raise e, _) => GameStateCache.get_latest s = (Raise e, s)
  end.
Proof.
  intros Hclosed Hview Hs.
  unfold GameStateCache.get_latest, get_latest, bind, get_self, get_state,
    lift, ret, copy.
  rewrite Hs. cbn [fst snd].
  destruct (_state c) as [| b | z | str | a] eqn:Hc.
  - injection Hview as <-. simpl. split; [reflexivity|by eexists].
  - injection Hview as <-. simpl.
    destruct b; simpl; [reflexivity|split; [reflexivity|by eexists]].
  - injection Hview as <-. simpl.
    destruct (Z.eqb z 0); simpl; [split; [reflexivity|by eexists]|reflexivity].
  - injection Hview as <-. simpl.
    destruct (String.eqb str ""); simpl;
      [split; [reflexivity|by eexists]|reflexivity].
  - pose proof Hview as Hview'. simpl in Hview.
    destruct (h !! a) as [o|] eqn:Ha; [|discriminate].
    unfold truthy. rewrite Ha.
    pose proof (view_copy h o a n Hclosed Ha) as Hcopy.
    rewrite Hview' in Hcopy.
    destruct o as [d|l].
    + destruct (mapM _ d) as [d'|] eqn:Hd; [|discriminate].
      injection Hview as <-.
      pose proof (length_mapM _ _ _ Hd) as Hlen.
      destruct d as [|kv d]; destruct d' as [|kv' d']; try discriminate;
        cbn -[view]; [split; [reflexivity|by eexists]|].
      rewrite Ha. cbn -[view]. rewrite Hcopy. split; [reflexivity|by eexists].
    + destruct (mapM _ l) as [l'|] eqn:Hl; [|discriminate].
      injection Hview as <-.
      pose proof (length_mapM _ _ _ Hl) as Hlen.
      destruct l as [|x l]; destruct l' as [|x' l']; try discriminate;
        cbn -[view]; [split; [reflexivity|by eexists]|].
      rewrite Ha. cbn -[view]. rewrite Hcopy. split; [reflexivity|by eexists].
Qed.

(** C8, as amended. [get_latest()] on a store that holds a dictionary (not
    empty) returns a new dictionary object with the items of the entry.
    Whatever the caller then does to the items of the returned dictionary
    itself (an assignment, a deletion, any replacement [d'] of its items):
    every object that existed before is as it was, and a later
    [get_latest()] returns a dictionary with the items of the entry again,
    which stands for the same value as the entry did. Nor does
    [get_latest] of the store with the file write anything: it leaves the
    object and the world as they are. *)
Theorem get_latest_copies_top_level (c : t) (h : heap) (l : nat)
    (d : list (string * hval)) :
  _state c = HRef l -> h !! l = Some (HDict d) -> d <> [] ->
  let r := length h in
  let h1 := (h ++ [HDict d])%list in
  get_latest (c, h) = (Ok (HRef r), (c, h1)) /\
  r <> l /\
  h1 !! r = Some (HDict d) /\
  (forall k v,
     setitem (HRef r) k v (c, h1) =
       (Ok tt, (c, <[r := HDict (dict_set k v d)]> h1))) /\
  (forall d',
     let h2 := <[r := HDict d']> h1 in
     (forall a, a < length h -> h2 !! a = h !! a) /\
     get_latest (c, h2) =
       (Ok (HRef (length h2)), (c, (h2 ++ [HDict d])%list)) /\
     (closed h -> forall n,
        view n (h2 ++ [HDict d])%list (HRef (length h2)) =
        view n h (HRef l))) /\
  (forall s : GameStateCache.st, snd (GameStateCache.get_latest s) = s).
Proof.
  intros Hs Hl Hd r h1. subst r h1.
  assert (Hlt : l < length h) by (eapply lookup_lt_Some; eauto).
  assert (Hr : (h ++ [HDict d])%list !! length h = Some (HDict d)).
  { rewrite lookup_app_r by lia. by rewrite Nat.sub_diag. }
  split; [by apply (get_latest_copy c h l d)|].
  split; [lia|].
  split; [exact Hr|].
  split.
  { intros k v. unfold setitem. simpl. by rewrite Hr. }
  split; [|intros s; apply CacheFacts.get_latest_pure].
  intros d' h2. subst h2.
  assert (Hsame : forall a, a < length h ->
            <[length h := HDict d']> (h ++ [HDict d])%list !! a = h !! a).
  { intros a Ha. rewrite list_lookup_insert_ne by lia.
    by rewrite lookup_app_l. }
  split; [exact Hsame|].
  split.
  { apply (get_latest_copy c _ l d); auto. by rewrite Hsame. }
  intros Hclosed n.
  destruct n as [|n]; [reflexivity|]. simpl.
  rewrite lookup_app_r by lia. rewrite Nat.sub_diag. simpl. rewrite Hl.
  f_equal. apply Forall_mapM_ext.
  assert (Ho : closed_obj h (HDict d)).
  { eapply (proj1 (Forall_lookup _ _) Hclosed); eauto. }
  simpl in Ho. eapply Forall_impl; [exact Ho|].
  intros kv Hkv. simpl. f_equal.
  apply view_stable; [exact Hclosed| |exact Hkv].
  intros a Ha. rewrite lookup_app_l.
  - by apply Hsame.
  - rewrite length_insert, length_app. lia.
Qed.

(** C8 as amended, on an example: the store holds the snapshot at address
    1 of the heap of the examples. *)
Lemma get_latest_copies_top_level_witness :
  get_latest (mk (HRef 1), Examples.nested_heap) =
    (Ok (HRef 2),
     (mk (HRef 1),
      (Examples.nested_heap ++
         [HDict [("turn", HInt 7); ("hero", HRef 0)]])%list)).
Proof.
  apply (get_latest_copies_top_level (mk (HRef 1)) Examples.nested_heap 1
           [("turn", HInt 7); ("hero", HRef 0)]);
    [reflexivity|reflexivity|discriminate].
Defined.

(** C8, the claim as stated fails one level down: the dictionary that
    [get_latest()] returns shares the nested dictionary with the store, and
    an assignment in it changes what the next [get_latest()] returns. *)
Lemma nested_mutation_counterexample :
  Examples.mutate_nested (mk HNone, Examples.nested_heap) =
    (Ok (Some (VDict [("turn", VInt 7);
                      ("hero", VDict [("name", VStr "Ivor")])]),
         Some (VDict [("turn", VInt 7);
                      ("hero", VDict [("name", VStr "Solmyr")])])),
     snd (Examples.mutate_nested (mk HNone, Examples.nested_heap))) /\
  py_eq (VDict [("turn", VInt 7); ("hero", VDict [("name", VStr "Ivor")])])
        (VDict [("turn", VInt 7); ("hero", VDict [("name", VStr "Solmyr")])])
    = false.
Proof. split; reflexivity. Qed.

End HeapFacts.

(* ===================================================================== *)
(** * Further properties *)
(* ===================================================================== *)

(** ** The snapshot store: failures, clear, reload *)

Module StoreExtras.
Section WithPyLib.
Context `{PyLib}.
Import GameStateCache.

(** X1. [update] with a dictionary never raises, whatever the file system
    answers to the write: it returns with the dictionary as the entry and
    the time read as [last_update]. *)
Theorem update_returns_on_any_disk (now : datetime)
    (d : list (string * pyval)) (s : st) :
  exists w',
    update now (VDict d) s =
      (Ok tt, mkOW (mk (cache_file (self s)) (VDict d) (Some now)) w').
Proof. apply CacheFacts.update_dict. Qed.

(** X2. Read after write for the snapshots that are not empty: after any
    sequence of updates with dictionaries of which the last is not empty,
    [get_latest()] returns the last one. *)
Theorem read_after_write_nonempty (calls : list (datetime * pyval))
    (now : datetime) (d : list (string * pyval)) (s : st) :
  forallb (fun c => is_dict (snd c)) calls = true ->
  d <> [] ->
  exists s', updates (calls ++ [(now, VDict d)])%list s = (Ok tt, s') /\
             get_latest s' = (Ok (VDict d), s').
Proof. apply CacheFacts.read_after_write. Qed.

(** X3. The write is all or nothing for the cache file: when the temporary
    path differs from the cache path, after [update] the cache file holds
    either what it held before or the whole new document, whatever system
    call fails; and no file other than these two is touched. *)
Theorem save_all_or_nothing (p tmp : string) (now : datetime)
    (d : list (string * pyval)) (s : st) :
  cache_file (self s) = Some p ->
  Path.with_suffix p ".tmp" = Ok tmp ->
  tmp <> p ->
  let s' := snd (update now (VDict d) s) in
  (files (env s') !! p = files (env s) !! p \/
   exists j,
     to_json (VDict [("state", VDict d);
                     ("last_update", VStr (isoformat now))]) = Ok j /\
     files (env s') !! p = Some (Doc j)) /\
  (forall q, q <> p -> q <> tmp -> files (env s') !! q = files (env s) !! q).
Proof.
  intros Hp Htmp Hne.
  destruct s as [c w]. simpl in Hp.
  unfold update, bind, lift, set_self, get_self. cbn -[to_json]. rewrite Hp.
  unfold _save_to_file, try_except, bind, get_self, lift, in_env.
  cbn -[to_json]. rewrite Hp, Htmp. cbn -[to_json].
  unfold OS.json_dump.
  destruct (to_json (VDict [("state", VDict d);
                            ("last_update", VStr (isoformat now))]))
    as [j|e] eqn:Hj;
    unfold OS.open_write, OS.replace, OS.os_call, OS.next_io, bind, raise,
      modify;
    destruct (io_plan w) as [|[] [|[] [|[] plan]]] eqn:Hplan;
    repeat (cbn -[to_json]; rewrite ?Hplan, ?lookup_insert_eq);
    (split;
     [first [left; by simplify_map_eq
            |right; exists j; split; [reflexivity|by simplify_map_eq]]
     |intros q Hq Hq'; by simplify_map_eq]).
Qed.

(** X4. The time of the update survives the reload: for a JSON-native
    snapshot and a write that works, the store reconstructed on the same
    path has the dictionary as its entry and the time of the update as its
    [last_update]. *)
Theorem reload_restores_timestamp (p : string) (now : datetime)
    (d : list (string * pyval)) (s : st) :
  cache_file (self s) = Some p ->
  Path.name p <> "" ->
  io_plan (env s) = [] ->
  json_native (VDict d) = true ->
  isoformat now <> "" ->
  exists w2,
    new (Some p) (env (snd (update now (VDict d) s))) =
      (Ok tt, mkOW (mk (Some p) (VDict d) (Some now)) w2).
Proof.
  intros Hp Hname Hplan Hnat Hiso.
  destruct (CacheFacts.update_persists p now d s Hp Hname Hplan Hnat)
    as (w' & js & Hu & Hplan' & Hfile & Hback).
  rewrite Hu. simpl.
  unfold new, __init__, bind, set_self, in_env. simpl.
  rewrite (CacheFacts.path_exists_plan_nil p w' Hplan').
  rewrite Hfile. rewrite bool_decide_true by eauto.
  unfold _load_from_file, try_except, bind, get_self, in_env, lift. simpl.
  unfold OS.read_file, OS.os_call, OS.next_io, bind. rewrite Hplan'. simpl.
  rewrite Hfile. simpl.
  apply String.eqb_neq in Hiso. rewrite Hiso. simpl.
  rewrite fromisoformat_isoformat. simpl. rewrite Hback.
  eexists. reflexivity.
Qed.

(** X5. [clear] when the system calls work (the test that the file is
    there, the deletion, and the test of the construction that follows): it
    returns, the entry and the time are unset, the persisted file is gone
    and no other file is touched; a store constructed on the path
    afterwards is empty. *)
Theorem clear_removes_entry_and_file (p : string) (s : st) :
  cache_file (self s) = Some p ->
  OS.works 3 (env s) = true ->
  exists w',
    clear s = (Ok tt, mkOW (mk (Some p) VNone None) w') /\
    files w' !! p = None /\
    (forall q, q <> p -> files w' !! q = files (env s) !! q) /\
    get_latest (mkOW (mk (Some p) VNone None) w') =
      (Ok VNone, mkOW (mk (Some p) VNone None) w') /\
    exists w'',
      new (Some p) w' = (Ok tt, mkOW (mk (Some p) VNone None) w'') /\
      files w'' = files w'.
Proof.
  intros Hp Hok. destruct s as [[cf st0 lu] [fs plan tr]]. simpl in *. subst cf.
  assert (Hnew : forall w', files w' !! p = None -> OS.works 1 w' = true ->
            exists w'',
              new (Some p) w' = (Ok tt, mkOW (mk (Some p) VNone None) w'') /\
              files w'' = files w').
  { intros w' Hgone Hworks.
    destruct (CacheFacts.new_without_file (Some p) w' Hworks Hgone)
      as (w'' & Hnew & Hfiles & _).
    eauto. }
  unfold clear, bind, set_self, get_self, in_env, ret. simpl.
  unfold OS.path_exists, OS.unlink, OS.os_call, OS.next_io, bind, OS.works
    in *. simpl in *.
  destruct (fs !! p) as [t0|] eqn:Hf.
  - destruct plan as [|[] [|[] plan]]; simpl in *; try discriminate;
      (rewrite bool_decide_true by eauto); simpl;
      rewrite ?Hf; simpl; rewrite ?Hf; simpl;
      (eexists; split; [reflexivity|]; simpl;
       split; [by rewrite lookup_delete_eq|];
       split; [intros q Hq; by rewrite lookup_delete_ne|];
       split; [reflexivity|];
       apply Hnew; simpl; [by rewrite lookup_delete_eq|]).
    + reflexivity.
    + reflexivity.
    + by destruct plan as [|[] plan].
  - destruct plan as [|[] plan]; simpl in *; try discriminate;
      try (rewrite bool_decide_false by (intros [x Hx]; discriminate)); simpl;
      rewrite ?Hf; simpl;
      (eexists; split; [reflexivity|]; simpl;
       split; [exact Hf|]; split; [done|]; split; [reflexivity|];
       apply Hnew; simpl; [exact Hf|]).
    + reflexivity.
    + by destruct plan as [|[] plan].
Qed.

(** X6. [clear] has no [try]: when the test that the file is there fails,
    or when the file is there and its deletion fails, the [OSError] leaves
    the method; the entry and the time are unset all the same, and the
    files are as they were (the persisted file is still there). *)
Theorem clear_raises_when_unlink_fails (p : string) (s : st)
    (plan : list bool) :
  cache_file (self s) = Some p ->
  io_plan (env s) = false :: plan \/
  (is_Some (files (env s) !! p) /\ io_plan (env s) = true :: false :: plan) ->
  exists w',
    clear s = (Raise OSError, mkOW (mk (Some p) VNone None) w') /\
    files w' = files (env s).
Proof.
  intros Hp Hfail. destruct s as [[cf st0 lu] [fs pl tr]]. simpl in *. subst cf.
  unfold clear, bind, set_self, get_self, in_env, ret. simpl.
  unfold OS.path_exists, OS.unlink, OS.os_call, OS.next_io, bind. simpl.
  destruct Hfail as [-> | [Hex ->]]; simpl.
  - eexists. split; reflexivity.
  - rewrite bool_decide_true by done. simpl.
    eexists. split; reflexivity.
Qed.

(** X7. The state of a persisted document is not checked when it is loaded:
    with a state that is true and has no [copy] method (a number, a
    string, [true]), the construction returns and keeps the value, and
    every [get_latest()] and every query then raises [AttributeError]. *)
Theorem loaded_state_is_not_checked (p : string) (w : world) (js : json) :
  io_plan w = [] ->
  files w !! p = Some (Doc (JObj [("state", js); ("last_update", JNull)])) ->
  truthy (of_json js) = true ->
  py_copy (of_json js) = Raise AttributeError ->
  exists s,
    new (Some p) w = (Ok tt, s) /\
    _state (self s) = of_json js /\
    get_latest s = (Raise AttributeError, s) /\
    (forall request,
       QueryHandler.handle_query request s = (Raise AttributeError, s)).
Proof.
  intros Hplan Hf Htrue Hcopy.
  unfold new, __init__, bind, set_self, in_env. simpl.
  rewrite (CacheFacts.path_exists_plan_nil p w Hplan).
  rewrite Hf. rewrite bool_decide_true by eauto.
  unfold _load_from_file, try_except, bind, get_self, in_env, lift. simpl.
  unfold OS.read_file, OS.os_call, OS.next_io, bind. rewrite Hplan. simpl.
  rewrite Hf. simpl.
  eexists. split; [reflexivity|]. split; [reflexivity|].
  assert (Hget : forall s0 : st,
            _state (self s0) = of_json js ->
            get_latest s0 = (Raise AttributeError, s0)).
  { intros s0 Hs0. unfold get_latest, bind, get_self, lift.
    by rewrite Hs0, Htrue, Hcopy. }
  split; [by apply Hget|].
  intros request. unfold QueryHandler.handle_query, bind.
  by rewrite Hget.
Qed.

(** X8. A persisted file whose text is JSON but not an object (an array, a
    number, a string, null) is treated as no prior state: the construction
    returns and the store is empty. *)
Theorem new_on_json_not_object (p : string) (w : world) (j : json) :
  io_plan w = [] ->
  files w !! p = Some (Doc j) ->
  is_dict (of_json j) = false ->
  exists w',
    new (Some p) w = (Ok tt, mkOW (mk (Some p) VNone None) w') /\
    get_latest (mkOW (mk (Some p) VNone None) w') =
      (Ok VNone, mkOW (mk (Some p) VNone None) w').
Proof.
  intros Hplan Hf Hj.
  destruct (CacheFacts.new_on_misshapen_file p w j Hplan Hf Hj) as [w' Hnew].
  exists w'. split; [exact Hnew|reflexivity].
Qed.

End WithPyLib.

(** X2 on an example: two updates, then a third that is not empty. *)
Lemma read_after_write_nonempty_witness :
  exists s',
    GameStateCache.updates (H := StandIn.lib)
      ([(1%Z, VDict [("turn", VInt 1)]); (2%Z, VDict [])] ++
       [(3%Z, VDict [("turn", VInt 2)])])%list Examples.empty_store =
      (Ok tt, s') /\
    GameStateCache.get_latest s' = (Ok (VDict [("turn", VInt 2)]), s').
Proof.
  apply (read_after_write_nonempty (H := StandIn.lib)
           [(1%Z, VDict [("turn", VInt 1)]); (2%Z, VDict [])] 3%Z
           [("turn", VInt 2)] Examples.empty_store);
    [reflexivity|discriminate].
Defined.

(** X3 on an example: the disk fails, the old document stays. *)
Lemma save_all_or_nothing_witness :
  files (env (snd (GameStateCache.update (H := StandIn.lib) 5%Z
                     (VDict [("turn", VInt 8)]) MoreExamples.store_with_file)))
    !! "cache.json" =
  files (env MoreExamples.store_with_file) !! "cache.json" \/
  exists j,
    to_json (VDict [("state", VDict [("turn", VInt 8)]);
                    ("last_update", VStr (isoformat (PyLib := StandIn.lib) 5%Z))])
      = Ok j /\
    files (env (snd (GameStateCache.update (H := StandIn.lib) 5%Z
                       (VDict [("turn", VInt 8)]) MoreExamples.store_with_file)))
      !! "cache.json" = Some (Doc j).
Proof.
  apply (save_all_or_nothing (H := StandIn.lib) "cache.json" "cache.tmp" 5%Z
           [("turn", VInt 8)] MoreExamples.store_with_file);
    [reflexivity|reflexivity|discriminate].
Defined.

(** X4 on an example. *)
Lemma reload_restores_timestamp_witness :
  exists w2,
    GameStateCache.new (H := StandIn.lib) (Some "cache.json")
      (env (snd (GameStateCache.update (H := StandIn.lib) 5%Z
                   (VDict [("turn", VInt 8)]) MoreExamples.store_on_disk))) =
      (Ok tt,
       mkOW (GameStateCache.mk (Some "cache.json") (VDict [("turn", VInt 8)])
               (Some 5%Z)) w2).
Proof.
  apply (reload_restores_timestamp (H := StandIn.lib) "cache.json" 5%Z
           [("turn", VInt 8)] MoreExamples.store_on_disk);
    [reflexivity|vm_compute; discriminate|reflexivity|reflexivity
    |vm_compute; discriminate].
Defined.

(** X5 on an example. *)
Lemma clear_removes_entry_and_file_witness :
  exists w',
    GameStateCache.clear MoreExamples.store_on_disk =
      (Ok tt, mkOW (GameStateCache.mk (Some "cache.json") VNone None) w') /\
    files w' !! "cache.json" = None.
Proof.
  destruct (clear_removes_entry_and_file (H := StandIn.lib) "cache.json"
              MoreExamples.store_on_disk eq_refl eq_refl)
    as (w' & Hclear & Hgone & _).
  exists w'. split; assumption.
Defined.

(** X6 on an example: the file is there, its deletion fails. *)
Lemma clear_raises_when_unlink_fails_witness :
  exists w',
    GameStateCache.clear MoreExamples.store_unlink_fails =
      (Raise OSError,
       mkOW (GameStateCache.mk (Some "cache.json") VNone None) w') /\
    files w' = files (env MoreExamples.store_unlink_fails).
Proof.
  apply (clear_raises_when_unlink_fails "cache.json"
           MoreExamples.store_unlink_fails []); [reflexivity|].
  right. split; [vm_compute; by eexists|reflexivity].
Defined.

(** X7 on an example: the persisted state is the number 5. *)
Lemma loaded_state_is_not_checked_witness :
  exists s,
    GameStateCache.new (H := StandIn.lib) (Some "cache.json")
      MoreExamples.disk_with_number = (Ok tt, s) /\
    GameStateCache._state (self s) = VInt 5 /\
    GameStateCache.get_latest s = (Raise AttributeError, s).
Proof.
  destruct (loaded_state_is_not_checked (H := StandIn.lib) "cache.json"
              MoreExamples.disk_with_number (JInt 5) eq_refl eq_refl eq_refl
              eq_refl)
    as (s & Hnew & Hstate & Hget & _).
  exists s. repeat split; assumption.
Defined.

(** X8 on an example: the persisted text is an array. *)
Lemma new_on_json_not_object_witness :
  exists w',
    GameStateCache.new (H := StandIn.lib) (Some "cache.json")
      MoreExamples.disk_with_array =
      (Ok tt, mkOW (GameStateCache.mk (Some "cache.json") VNone None) w').
Proof.
  destruct (new_on_json_not_object (H := StandIn.lib) "cache.json"
              MoreExamples.disk_with_array (JArr [JInt 1]) eq_refl eq_refl
              eq_refl) as (w' & Hnew & _).
  exists w'. exact Hnew.
Defined.

End StoreExtras.

(** ** The query service: what it reads, what it routes, what it rejects *)

Module QueryExtras.
Section WithPyLib.
Context `{PyLib}.
Import GameStateCache.

Lemma handle_query_reads_only (request : pyval) (s : st) :
  snd (QueryHandler.handle_query request s) = s.
Proof.
  unfold QueryHandler.handle_query, bind.
  pose proof (CacheFacts.get_latest_pure s) as Hpure.
  destruct (get_latest s) as [[game_state|e] s0]; simpl in Hpure; subst s0;
    [|reflexivity].
  destruct (is_none game_state); [reflexivity|].
  unfold lift. destruct (py_get request "turn" VNone) as [rt|e]; [|reflexivity].
  destruct (negb (is_none rt)); [|reflexivity].
  destruct (py_get game_state "turn" VNone) as [turn|e]; [|reflexivity].
  by destruct (negb (py_eq rt turn)).
Qed.

Lemma logged_nil (s : st) : MCPRequestHandler.logged [] s = s.
Proof.
  destruct s as [c [fs plan tr]].
  unfold MCPRequestHandler.logged, OS.logged. simpl. by rewrite app_nil_r.
Qed.

Lemma send_response_logged (code : Z) (s : st) :
  MCPRequestHandler.send_response code s =
    (Ok tt, MCPRequestHandler.logged [MCPRequestHandler.request_record code] s).
Proof. reflexivity. Qed.

(** X9. The query service never writes to the store or to the files:
    [QueryHandler.handle_query] leaves everything as it was, and after a
    POST or a GET, whatever the request and whatever the answer (a payload,
    an error page, an exception), the store, the files and the plan of the
    disk are as before, and the log has gained nothing but the records of
    [log_message]: none when an exception leaves the handler before any
    answer, the one of [send_response(200)], or the two of [send_error]
    with 400 or 404. *)
Theorem queries_never_write (s : st) :
  (forall request, snd (QueryHandler.handle_query request s) = s) /\
  (forall r,
     exists records,
       snd (MCPRequestHandler.do_POST r s) =
         MCPRequestHandler.logged records s /\
       In records
         [[];
          [MCPRequestHandler.request_record 200];
          [MCPRequestHandler.error_record 400 "Invalid JSON";
           MCPRequestHandler.request_record 400];
          [MCPRequestHandler.error_record 404 "Not Found";
           MCPRequestHandler.request_record 404]]) /\
  (forall path,
     exists records,
       snd (MCPGet.do_GET path s) = MCPRequestHandler.logged records s /\
       In records
         [[MCPRequestHandler.request_record 200];
          [MCPRequestHandler.error_record 404 "Not Found";
           MCPRequestHandler.request_record 404]]).
Proof.
  split; [intros request; apply handle_query_reads_only|]. split.
  - intros r. unfold MCPRequestHandler.do_POST.
    destruct (String.eqb (MCPRequestHandler.path r) "/query/snapshot");
      [|rewrite QueryFacts.send_error_logged; eexists; split;
        [reflexivity|simpl; auto]].
    assert (Hnone : forall e : exn,
              exists records,
                snd (@Raise MCPRequestHandler.reply e, s) =
                  MCPRequestHandler.logged records s /\
                In records
                  [[];
                   [MCPRequestHandler.request_record 200];
                   [MCPRequestHandler.error_record 400 "Invalid JSON";
                    MCPRequestHandler.request_record 400];
                   [MCPRequestHandler.error_record 404 "Not Found";
                    MCPRequestHandler.request_record 404]]).
    { intros e. exists []. split; [by rewrite logged_nil|simpl; auto]. }
    assert (Hrun : forall t : text,
              exists records,
                snd (match json_loads t with
                     | Ok request_data =>
                         (response <- QueryHandler.handle_query request_data ;;
                          MCPRequestHandler.send_response 200 ;;;
                          payload <- lift (to_json response) ;;
                          ret (MCPRequestHandler.Response 200
                                 MCPRequestHandler.json_headers payload)) s
                     | Raise JSONDecodeError =>
                         MCPRequestHandler.send_error 400 "Invalid JSON" s
                     | Raise e => (Raise e, s)
                     end) = MCPRequestHandler.logged records s /\
                In records
                  [[];
                   [MCPRequestHandler.request_record 200];
                   [MCPRequestHandler.error_record 400 "Invalid JSON";
                    MCPRequestHandler.request_record 400];
                   [MCPRequestHandler.error_record 404 "Not Found";
                    MCPRequestHandler.request_record 404]]).
    { intros t. destruct (json_loads t) as [request|e].
      - unfold bind.
        pose proof (handle_query_reads_only request s) as Hq.
        destruct (QueryHandler.handle_query request s) as [[response|e] s0];
          simpl in Hq; subst s0; [|apply Hnone].
        rewrite send_response_logged. unfold lift, ret.
        exists [MCPRequestHandler.request_record 200].
        split; [by destruct (to_json response)|simpl; auto].
      - destruct e; try apply Hnone.
        rewrite QueryFacts.send_error_logged. eexists. split;
          [reflexivity|simpl; auto]. }
    unfold MCPRequestHandler.handle_query, bind, try_except, lift, ret.
    destruct (MCPRequestHandler.read_content_length r) as [n|e];
      [|apply Hnone].
    destruct (0 <? n)%Z.
    + destruct (decode (MCPRequestHandler.body r)) as [t|e]; [|apply Hnone].
      destruct (Hrun t) as (records & Hs & Hin). exists records.
      split; [|exact Hin]. rewrite <- Hs.
      destruct (json_loads t) as [request|[]]; reflexivity.
    + destruct (Hrun (Doc (JObj []))) as (records & Hs & Hin). exists records.
      split; [|exact Hin]. rewrite <- Hs. reflexivity.
  - intros path. unfold MCPGet.do_GET.
    destruct (String.eqb path "/manifest").
    { exists [MCPRequestHandler.request_record 200].
      split; [reflexivity|simpl; auto]. }
    destruct (String.eqb path "/schema/snapshot.json").
    { exists [MCPRequestHandler.request_record 200].
      split; [reflexivity|simpl; auto]. }
    rewrite QueryFacts.send_error_logged. eexists.
    split; [reflexivity|simpl; auto].
Qed.

(** X10. The manifest and the schema are served whatever the store holds,
    and what the manifest advertises is routed: for every context source of
    the manifest, its schema path is answered by [do_GET] with the schema
    document and its query endpoint is handled by [do_POST] as a query.
    Each of the two answers leaves the record of [send_response(200)] in the
    log and nothing else. *)
Theorem manifest_endpoints_are_served :
  exists jm js,
    to_json ManifestHandler.get_manifest = Ok jm /\
    to_json SchemaHandler.get_schema = Ok js /\
    (forall s : st,
       MCPGet.do_GET "/manifest" s =
         (Ok (MCPRequestHandler.Response 200 MCPRequestHandler.json_headers jm),
          MCPRequestHandler.logged [MCPRequestHandler.request_record 200] s)) /\
    exists sources,
      SchemaHandler.at_path ["context_sources"] ManifestHandler.get_manifest =
        Some (VList sources) /\
      sources <> [] /\
      Forall
        (fun source =>
           exists schema endpoint,
             SchemaHandler.at_path ["schema"] source = Some (VStr schema) /\
             SchemaHandler.at_path ["query_endpoint"] source =
               Some (VStr endpoint) /\
             (forall s : st,
                MCPGet.do_GET schema s =
                  (Ok (MCPRequestHandler.Response 200
                         MCPRequestHandler.json_headers js),
                   MCPRequestHandler.logged
                     [MCPRequestHandler.request_record 200] s)) /\
             (forall (s : st) length body,
                MCPRequestHandler.do_POST
                  (MCPRequestHandler.mkRequest endpoint length body) s =
                MCPRequestHandler.handle_query
                  (MCPRequestHandler.mkRequest endpoint length body) s))
        sources.
Proof.
  eexists _, _. split; [vm_compute; reflexivity|].
  split; [vm_compute; reflexivity|].
  split; [intros s; reflexivity|].
  eexists. split; [reflexivity|]. split; [discriminate|].
  repeat constructor.
  eexists _, _. split; [reflexivity|]. split; [reflexivity|].
  split; intros; reflexivity.
Qed.

(** X11. The documents of [to_dict] against the [required] lists of the
    schema that the service publishes: a game state, a tile and a town have
    every required field; a hero lacks [movementLeft] and [primaryStats],
    which [Hero.to_dict] writes as [movement_left] and [primary_stats]. *)
Theorem schema_required_against_to_dict :
  exists tile_schema hero_schema town_schema,
    SchemaHandler.at_path ["properties"; "visibleTiles"; "items"]
      SchemaHandler.get_schema = Some tile_schema /\
    SchemaHandler.at_path ["properties"; "heroes"; "items"]
      SchemaHandler.get_schema = Some hero_schema /\
    SchemaHandler.at_path ["properties"; "towns"; "items"]
      SchemaHandler.get_schema = Some town_schema /\
    (forall g : GameState.t,
       SchemaHandler.missing_required SchemaHandler.get_schema
         (GameState.to_dict g) = []) /\
    (forall tile : Tile.t,
       SchemaHandler.missing_required tile_schema (Tile.to_dict tile) = []) /\
    (forall town : Town.t,
       SchemaHandler.missing_required town_schema (Town.to_dict town) = []) /\
    (forall hero : Hero.t,
       SchemaHandler.missing_required hero_schema (Hero.to_dict hero) =
         ["movementLeft"; "primaryStats"]).
Proof.
  eexists _, _, _.
  split; [reflexivity|]. split; [reflexivity|]. split; [reflexivity|].
  split; [|split; [|split]].
  - intros [turn player tiles heroes towns [[|r rs]|]]; reflexivity.
  - intros tile. reflexivity.
  - intros [n l o ty b g [?|]]; reflexivity.
  - intros [n l a m p [?|] [?|] [?|] [?|] [?|] [?|]]; reflexivity.
Qed.

(** X12. The [Content-Length] header: a value that [int()] rejects (no
    number, or one with more digits than the interpreter reads) makes
    [ValueError] leave the handler before the body or the store is read
    (no 400 is sent, nothing is logged); a value that [int()] reads as zero
    or less, blanks around it skipped, is the request without body,
    answered as the empty query. *)
Theorem content_length_edges (r : MCPRequestHandler.request) (header : string)
    (s : st) :
  MCPRequestHandler.content_length r = Some header ->
  match PyInt.of_string header with
  | None => MCPRequestHandler.handle_query r s = (Raise ValueError, s)
  | Some n =>
      (n <= 0)%Z ->
      MCPRequestHandler.handle_query r s =
        MCPRequestHandler.handle_query
          (MCPRequestHandler.mkRequest (MCPRequestHandler.path r) None
             (MCPRequestHandler.body r)) s
  end.
Proof.
  intros Hlen.
  unfold MCPRequestHandler.handle_query, MCPRequestHandler.read_content_length.
  rewrite Hlen. simpl.
  destruct (PyInt.of_string header) as [n|]; [|reflexivity].
  intros Hn. unfold bind, lift. simpl.
  assert (Hlt : (0 <? n)%Z = false) by (apply Z.ltb_ge; lia).
  by rewrite Hlt.
Qed.

Lemma to_json_success_payload_raises (v : pyval) (cached : option datetime)
    (e : exn) :
  to_json v = Raise e ->
  to_json (QueryHandler.success_payload v cached) = Raise e.
Proof. intros Hv. simpl. by rewrite Hv. Qed.

(** X13. A snapshot that JSON cannot write: [update] takes it (the failure
    of the persistence is only logged), and from then on every query
    without requested turn raises the error of the encoder instead of
    answering; [send_response(200)] has logged the request by then, and
    nothing else has changed. *)
Theorem unencodable_snapshot_breaks_queries (now : datetime)
    (d : list (string * pyval)) (e : exn) (s : st) :
  d <> [] ->
  to_json (VDict d) = Raise e ->
  exists s',
    update now (VDict d) s = (Ok tt, s') /\
    (forall path body,
       MCPRequestHandler.handle_query
         (MCPRequestHandler.mkRequest path None body) s' =
         (Raise e,
          MCPRequestHandler.logged [MCPRequestHandler.request_record 200] s')).
Proof.
  intros Hd He. destruct (CacheFacts.update_dict now d s) as [w' Hu].
  set (s' := mkOW (mk (cache_file (self s)) (VDict d) (Some now)) w') in *.
  exists s'. split; [exact Hu|].
  intros path body.
  unfold MCPRequestHandler.handle_query, MCPRequestHandler.read_content_length.
  simpl. unfold bind, try_except, lift, ret. simpl.
  change (dict_of_pairs (@nil (string * pyval))) with (@nil (string * pyval)).
  rewrite (QueryFacts.answer_success [] d s' eq_refl Hd I).
  by rewrite (to_json_success_payload_raises _ _ e He).
Qed.

(** X14. What the coordinator pushes is always served: for every game
    state, [update_game_state] with its document returns, [get_latest()]
    then returns the document, the query without turn answers with it, and
    the query for the turn [t] answers with it exactly when [t] is the
    turn of the game state, and with the mismatch payload otherwise. *)
Theorem pushed_game_state_is_served (now : datetime) (g : GameState.t)
    (s : st) :
  exists s',
    MCPServer.update_game_state now (GameState.to_dict g) s = (Ok tt, s') /\
    get_latest s' = (Ok (GameState.to_dict g), s') /\
    QueryHandler.handle_query (VDict []) s' =
      (Ok (QueryHandler.success_payload (GameState.to_dict g) (Some now)), s') /\
    (forall t,
       QueryHandler.handle_query (VDict [("turn", VInt t)]) s' =
         (Ok (if (t =? GameState.turn g)%Z
              then QueryHandler.success_payload (GameState.to_dict g) (Some now)
              else QueryHandler.mismatch_payload (VInt t)
                     (VInt (GameState.turn g))), s')).
Proof.
  assert (Hdoc : exists d, GameState.to_dict g = VDict d /\ d <> [] /\
                   dict_get "turn" d = Some (VInt (GameState.turn g))).
  { destruct g as [turn player tiles heroes towns [[|r rs]|]];
      eexists; (split; [reflexivity|]); split; try discriminate; reflexivity. }
  destruct Hdoc as (d & Hdoc & Hd & Hturn). rewrite Hdoc.
  destruct (CacheFacts.update_dict now d s) as [w' Hu].
  unfold MCPServer.update_game_state, bind. rewrite Hu. simpl.
  unfold lift, in_env, OS.logger, OS.emit, modify. simpl.
  match goal with
  | |- exists s', (_, ?s0) = (_, s') /\ _ => set (s1 := s0)
  end.
  exists s1. split; [reflexivity|].
  split; [by apply CacheFacts.get_latest_dict|].
  split; [by rewrite (QueryFacts.answer_success [] d s1 eq_refl Hd I)|].
  intros t. destruct (t =? GameState.turn g)%Z eqn:Ht.
  - rewrite (QueryFacts.answer_success [("turn", VInt t)] d s1 eq_refl Hd);
      [reflexivity|].
    right. rewrite Hturn. simpl. exact Ht.
  - rewrite (QueryFacts.answer_mismatch [("turn", VInt t)] d (VInt t) s1
               eq_refl Hd eq_refl eq_refl).
    + by rewrite Hturn.
    + rewrite Hturn. simpl. exact Ht.
Qed.


End WithPyLib.

(** X12 on examples: a header that is not a number, a negative one, and a
    zero after a no-break space. *)
Lemma content_length_edges_witness :
  MCPRequestHandler.handle_query (H := StandIn.lib)
    (MCPRequestHandler.mkRequest "/query/snapshot" (Some "twelve") (Doc (JObj [])))
    Examples.store_turn_7 = (Raise ValueError, Examples.store_turn_7) /\
  MCPRequestHandler.handle_query (H := StandIn.lib)
    (MCPRequestHandler.mkRequest "/query/snapshot" (Some "-3") (Garbage "{"))
    Examples.store_turn_7 =
  MCPRequestHandler.handle_query (H := StandIn.lib)
    (MCPRequestHandler.mkRequest "/query/snapshot" None (Garbage "{"))
    Examples.store_turn_7 /\
  MCPRequestHandler.handle_query (H := StandIn.lib)
    (MCPRequestHandler.mkRequest "/query/snapshot"
       (Some (String (ascii_of_nat 160) "0")) (Garbage "{"))
    Examples.store_turn_7 =
  MCPRequestHandler.handle_query (H := StandIn.lib)
    (MCPRequestHandler.mkRequest "/query/snapshot" None (Garbage "{"))
    Examples.store_turn_7.
Proof.
  split; [|split].
  - apply (content_length_edges (H := StandIn.lib)
             (MCPRequestHandler.mkRequest "/query/snapshot" (Some "twelve")
                (Doc (JObj []))) "twelve" Examples.store_turn_7 eq_refl).
  - apply (content_length_edges (H := StandIn.lib)
             (MCPRequestHandler.mkRequest "/query/snapshot" (Some "-3")
                (Garbage "{")) "-3" Examples.store_turn_7 eq_refl).
    vm_compute. discriminate.
  - apply (content_length_edges (H := StandIn.lib)
             (MCPRequestHandler.mkRequest "/query/snapshot"
                (Some (String (ascii_of_nat 160) "0")) (Garbage "{"))
             (String (ascii_of_nat 160) "0") Examples.store_turn_7 eq_refl).
    vm_compute. discriminate.
Defined.

(** X13 on an example: a snapshot that holds a foreign object. *)
Lemma unencodable_snapshot_breaks_queries_witness :
  exists s',
    GameStateCache.update (H := StandIn.lib) 4%Z
      (VDict [("turn", VInt 3); ("when", VObj 0)]) Examples.empty_store =
      (Ok tt, s') /\
    MCPRequestHandler.handle_query (H := StandIn.lib)
      (MCPRequestHandler.mkRequest "/query/snapshot" None (Garbage "")) s' =
      (Raise TypeError,
       MCPRequestHandler.logged [MCPRequestHandler.request_record 200] s').
Proof.
  destruct (unencodable_snapshot_breaks_queries (H := StandIn.lib) 4%Z
              [("turn", VInt 3); ("when", VObj 0)] TypeError
              Examples.empty_store)
    as (s' & Hu & Hq); [discriminate|reflexivity|].
  exists s'. split; [exact Hu|apply Hq].
Defined.


End QueryExtras.

(** ** The change watcher: what an event does, bursts, the start-up scan *)

Module WatcherExtras.
Import SaveFileHandler.

(** X16. An event for a directory, or for a file whose suffix is none of the
    six save suffixes, does nothing: no invocation of the parser, no
    output, no call, no recorded time. *)
Theorem rejected_events_do_nothing (parse : string -> option GameState.t)
    (now : datetime) (event : FileModifiedEvent) (s : st) :
  is_directory event = true \/ _is_save_file (src_path event) = false ->
  on_modified parse now event s = (Ok tt, s).
Proof.
  intros [Hdir|Hsave]; unfold on_modified.
  - by rewrite Hdir.
  - rewrite Hsave. by destruct (is_directory event).
Qed.

(** X17. An accepted event whose file the parser reads: the time is
    recorded for the path, then the parser is invoked, the document of the
    game state is printed, and the callback (if the handler has one) is
    called with the game state, in this order and once each; what
    [on_modified] returns or raises is what the callback does, and the files
    are not touched. *)
Theorem accepted_event_is_forwarded (parse : string -> option GameState.t)
    (now : datetime) (event : FileModifiedEvent) (gs : GameState.t)
    (j : json) (s : st) :
  accepted (self s) now event = true ->
  parse (src_path event) = Some gs ->
  to_json (GameState.to_dict gs) = Ok j ->
  let out := on_modified parse now event s in
  fst out =
    match callback (self s) with
    | Some cb => cb gs
    | None => Ok tt
    end /\
  self (snd out) = set_last_modified (src_path event) now (self s) /\
  files (env (snd out)) = files (env s) /\
  trace (env (snd out)) =
    (trace (env s) ++
     [Log INFO "Save file modified"; Parse (src_path event);
      Stdout (GameState.to_dict gs)] ++
     match callback (self s) with
     | Some _ => [Callback gs]
     | None => []
     end)%list.
Proof.
  unfold accepted. intros Hacc Hparse Hjson.
  apply andb_true_iff in Hacc as [Hacc Hdeb].
  apply andb_true_iff in Hacc as [Hdir Hsave].
  apply negb_true_iff in Hdir, Hdeb.
  unfold on_modified, run_parser, bind, ret, lift, in_env, get_self, set_self,
    OS.logger, OS.print_json, OS.emit, modify.
  rewrite Hdir, Hsave. cbn -[to_json GameState.to_dict].
  rewrite Hdeb, Hparse. cbn -[to_json GameState.to_dict]. rewrite Hjson.
  cbn -[to_json GameState.to_dict].
  destruct (callback (self s)) as [cb|] eqn:Hcb;
    cbn -[to_json GameState.to_dict].
  - destruct (cb gs); cbn -[to_json GameState.to_dict];
      (repeat split; try reflexivity; by rewrite <- !app_assoc).
  - repeat split; try reflexivity. by rewrite <- !app_assoc.
Qed.

(** X18. A parse that fails still takes the debounce window: the time of
    the event is recorded although nothing is printed or called, and an
    event on the same path less than the window later is discarded without
    the parser being tried again. *)
Theorem failed_parse_takes_the_window (parse parse' : string -> option GameState.t)
    (now later : datetime) (event : FileModifiedEvent) (s : st) :
  accepted (self s) now event = true ->
  parse (src_path event) = None ->
  (later - now < debounce_seconds (self s))%Z ->
  let s1 := snd (on_modified parse now event s) in
  let s2 := snd (on_modified parse' later event s1) in
  on_modified parse now event s = (Ok tt, s1) /\
  last_modified (self s1) !! src_path event = Some now /\
  trace (env s1) =
    (trace (env s) ++
     [Log INFO "Save file modified"; Parse (src_path event);
      Log ERROR "Failed to parse save file"])%list /\
  parse_calls (trace (env s2)) = parse_calls (trace (env s1)).
Proof.
  intros Hacc Hparse Hlater s1 s2.
  pose proof (WatcherFacts.on_modified_effect parse' later event s1)
    as [_ Heff2]. fold s2 in Heff2.
  assert (Hs1 : on_modified parse now event s = (Ok tt, s1) /\
                self s1 = set_last_modified (src_path event) now (self s) /\
                trace (env s1) =
                  (trace (env s) ++
                   [Log INFO "Save file modified"; Parse (src_path event);
                    Log ERROR "Failed to parse save file"])%list).
  { subst s1. clear Heff2 s2. unfold accepted in Hacc.
    apply andb_true_iff in Hacc as [Hacc Hdeb].
    apply andb_true_iff in Hacc as [Hdir Hsave].
    apply negb_true_iff in Hdir, Hdeb.
    unfold on_modified, run_parser, bind, ret, lift, in_env, get_self,
      set_self, OS.logger, OS.emit, modify.
    rewrite Hdir, Hsave. simpl. rewrite Hdeb, Hparse. simpl.
    repeat split. by rewrite <- !app_assoc. }
  destruct Hs1 as (Hrun & Hself & Htrace).
  split; [exact Hrun|].
  split; [rewrite Hself; simpl; by rewrite lookup_insert_eq|].
  split; [exact Htrace|].
  assert (Hdeb2 : accepted (self s1) later event = false).
  { unfold accepted, debounced. rewrite Hself. simpl.
    rewrite lookup_insert_eq.
    apply Z.ltb_lt in Hlater. rewrite Hlater. simpl.
    by rewrite andb_false_r. }
  rewrite Hdeb2 in Heff2. by destruct Heff2.
Qed.

(** X19. The debounce is per path: two events on two different save files,
    each outside the window of its own path, are both parsed, however
    close in time they are. *)
Theorem debounce_is_per_path (parse : string -> option GameState.t)
    (p1 p2 : string) (t1 t2 : datetime) (s : st) :
  p1 <> p2 ->
  accepted (self s) t1 (mkEvent false p1) = true ->
  accepted (self s) t2 (mkEvent false p2) = true ->
  let s1 := snd (on_modified parse t1 (mkEvent false p1) s) in
  let s2 := snd (on_modified parse t2 (mkEvent false p2) s1) in
  parse_calls (trace (env s2)) = (parse_calls (trace (env s)) ++ [p1; p2])%list.
Proof.
  intros Hne Hacc1 Hacc2 s1 s2.
  pose proof (WatcherFacts.on_modified_effect parse t1 (mkEvent false p1) s)
    as [Hw1 H1].
  pose proof (WatcherFacts.on_modified_effect parse t2 (mkEvent false p2) s1)
    as [_ H2].
  fold s1 in Hw1, H1. fold s2 in H2.
  rewrite Hacc1 in H1. destruct H1 as [Hlm1 Hp1]. simpl in Hlm1, Hp1.
  assert (Hacc2' : accepted (self s1) t2 (mkEvent false p2) = true).
  { unfold accepted, debounced in *. simpl in *.
    rewrite Hlm1, Hw1. by rewrite lookup_insert_ne. }
  rewrite Hacc2' in H2. destruct H2 as [_ Hp2]. simpl in Hp2.
  rewrite Hp2, Hp1. by rewrite <- app_assoc.
Qed.

Lemma event_in_window (parse : string -> option GameState.t)
    (path : string) (recorded t : datetime) (h : SaveFileHandler.t)
    (w : world) :
  last_modified h !! path = Some recorded ->
  (t - recorded < debounce_seconds h)%Z ->
  exists w1,
    on_modified parse t (mkEvent false path) (mkOW h w) = (Ok tt, mkOW h w1) /\
    files w1 = files w /\
    parse_calls (trace w1) = parse_calls (trace w) /\
    callback_calls (trace w1) = callback_calls (trace w) /\
    printed (trace w1) = printed (trace w).
Proof.
  intros Hrec Ht.
  assert (Hdeb : debounced h path t = true).
  { unfold debounced, datetime in *. rewrite Hrec. by apply Z.ltb_lt. }
  unfold on_modified. cbn [is_directory src_path].
  destruct (_is_save_file path); cbn [negb].
  - unfold bind, get_self. cbn [self fst snd]. rewrite Hdeb.
    unfold in_env, OS.logger, OS.emit, modify. cbn [self env].
    eexists. split; [reflexivity|]. cbn [files trace].
    unfold parse_calls, callback_calls, printed.
    rewrite !omap_app. simpl. by rewrite !app_nil_r.
  - exists w. by repeat split.
Qed.

(** X20. A burst is one parse: once a time is recorded for a path, any run
    of events on that path that each come less than the window after the
    recorded time (or before it, when the clock is set back) returns
    without raising, leaves the handler and the files as they are, and
    invokes neither the parser nor the callback, nor prints. *)
Theorem burst_is_discarded (parse : string -> option GameState.t)
    (path : string) (recorded : datetime) (times : list datetime) (s : st) :
  last_modified (self s) !! path = Some recorded ->
  Forall (fun t => (t - recorded < debounce_seconds (self s))%Z) times ->
  exists w',
    WatcherRuns.on_modified_each parse
      (map (fun t => (t, mkEvent false path)) times) s = (Ok tt, mkOW (self s) w') /\
    files w' = files (env s) /\
    parse_calls (trace w') = parse_calls (trace (env s)) /\
    callback_calls (trace w') = callback_calls (trace (env s)) /\
    printed (trace w') = printed (trace (env s)).
Proof.
  destruct s as [h w]. cbn [self env]. intros Hrec Hall. revert w.
  induction Hall as [|t times Ht Hall IH]; intros w.
  - exists w. by repeat split.
  - destruct (event_in_window parse path recorded t h w Hrec Ht)
      as (w1 & Hstep & Hf1 & Hp1 & Hc1 & Hpr1).
    destruct (IH w1) as (w' & Hrun & Hf & Hp & Hc & Hpr).
    exists w'. cbn [map WatcherRuns.on_modified_each]. unfold bind.
    rewrite Hstep. split; [exact Hrun|]. repeat split; congruence.
Qed.

(** The patterns of the start-up scan all end in [.gm1] or [.GM1]. *)
Lemma fnmatch_literal (lit name : list ascii) :
  Forall (fun c => c <> "*"%char) lit ->
  fnmatch lit name = true -> name = lit.
Proof.
  intros Hlit. revert name.
  induction Hlit as [|c lit Hc Hlit IH]; intros name Hm; simpl in Hm.
  - by destruct name.
  - apply Ascii.eqb_neq in Hc. rewrite Hc in Hm.
    destruct name as [|a name]; [discriminate|].
    apply andb_true_iff in Hm as [Ha Hm].
    apply Ascii.eqb_eq in Ha. subst a. f_equal. by apply IH.
Qed.

Lemma fnmatch_star_literal (lit name : list ascii) :
  Forall (fun c => c <> "*"%char) lit ->
  fnmatch ("*"%char :: lit) name = true ->
  exists pre, name = (pre ++ lit)%list.
Proof.
  intros Hlit. simpl.
  induction name as [|a name IH]; intros Hm.
  - apply orb_true_iff in Hm as [Hm|Hm]; [|discriminate].
    exists []. by apply fnmatch_literal.
  - apply orb_true_iff in Hm as [Hm|Hm].
    + exists []. by apply fnmatch_literal.
    + destruct (IH Hm) as [pre ->]. by exists (a :: pre).
Qed.

Lemma fnmatch_prefix_star_literal (pre lit name : list ascii) :
  Forall (fun c => c <> "*"%char) pre ->
  Forall (fun c => c <> "*"%char) lit ->
  fnmatch (pre ++ "*"%char :: lit)%list name = true ->
  exists mid, name = (pre ++ mid ++ lit)%list.
Proof.
  intros Hpre Hlit. revert name.
  induction Hpre as [|c pre Hc Hpre IH]; intros name Hm.
  - by apply fnmatch_star_literal.
  - simpl in Hm. apply Ascii.eqb_neq in Hc. rewrite Hc in Hm.
    destruct name as [|a name]; [discriminate|].
    apply andb_true_iff in Hm as [Ha Hm].
    apply Ascii.eqb_eq in Ha. subst a.
    destruct (IH name Hm) as [mid ->]. by exists mid.
Qed.

Lemma ends_with_app (pre lit : list ascii) :
  WatcherRuns.ends_with lit (pre ++ lit)%list = true.
Proof.
  unfold WatcherRuns.ends_with. apply bool_decide_eq_true.
  rewrite length_app. replace (length pre + length lit - length lit)
    with (length pre) by lia.
  apply drop_app_length.
Qed.

Lemma pattern_match_ends (pattern name : string) :
  In pattern SaveWatcher.patterns ->
  fnmatch (Path.chars pattern) (Path.chars name) = true ->
  WatcherRuns.ends_with (Path.chars ".gm1") (Path.chars name) = true \/
  WatcherRuns.ends_with (Path.chars ".GM1") (Path.chars name) = true.
Proof.
  intros [<-|[<-|[<-|[]]]] Hm.
  - left. apply (fnmatch_star_literal (Path.chars ".gm1")) in Hm as [pre ->];
      [apply ends_with_app|].
    repeat constructor; discriminate.
  - right. apply (fnmatch_star_literal (Path.chars ".GM1")) in Hm as [pre ->];
      [apply ends_with_app|].
    repeat constructor; discriminate.
  - left.
    apply (fnmatch_prefix_star_literal (Path.chars "autosave_")
             (Path.chars ".gm1")) in Hm as [mid ->].
    + rewrite app_assoc. apply ends_with_app.
    + repeat constructor; discriminate.
    + repeat constructor; discriminate.
Qed.

Lemma in_insert_by_mtime (f x : string * Z) (sorted : list (string * Z)) :
  In x (SaveWatcher.insert_by_mtime f sorted) -> x = f \/ In x sorted.
Proof.
  induction sorted as [|g rest IH]; simpl.
  - intros [<-|[]]. by left.
  - destruct (snd g <=? snd f)%Z; simpl.
    + intros [<-|[<-|Hin]]; auto.
    + intros [<-|Hin]; [auto|]. destruct (IH Hin); auto.
Qed.

Lemma in_sort_by_mtime (x : string * Z) (l : list (string * Z)) :
  In x (SaveWatcher.sort_by_mtime l) -> In x l.
Proof.
  induction l as [|a l IH]; simpl; [done|].
  intros Hin. apply in_insert_by_mtime in Hin as [->|Hin]; auto.
Qed.

Lemma in_glob (save_directory : string) (entries : SaveWatcher.directory)
    (pattern : string) (f : string * Z) :
  In f (SaveWatcher.glob save_directory entries pattern) <->
  exists e, In e entries /\
    fnmatch (Path.chars pattern) (Path.chars (fst e)) = true /\
    f = (save_directory +:+ "/" +:+ fst e, snd e).
Proof.
  unfold SaveWatcher.glob. rewrite in_map_iff. split.
  - intros (e & <- & He). apply list_elem_of_In, list_elem_of_filter in He.
    destruct He as [Hm He]. apply list_elem_of_In in He. eauto.
  - intros (e & He & Hm & ->). exists e. split; [done|].
    apply list_elem_of_In, list_elem_of_filter. split; [done|].
    by apply list_elem_of_In.
Qed.

(** X21. The start-up scan parses at most one file, and which one: either
    the parser is not invoked, or it is invoked once, on an entry of the
    directory whose name ends in [.gm1] or [.GM1] and that is at least as
    recent as every entry that matches one of the three patterns. A save
    with another of the watched suffixes ([.gm2] to [.gm6], or [.Gm1]) is
    never parsed at start-up. *)
Theorem startup_scan_parses_the_latest
    (parse : string -> option GameState.t) (save_directory : string)
    (entries : SaveWatcher.directory) (s : st) :
  let s' := snd (SaveWatcher.process_existing_saves parse save_directory
                   entries s) in
  parse_calls (trace (env s')) = parse_calls (trace (env s)) \/
  exists name mtime,
    In (name, mtime) entries /\
    (WatcherRuns.ends_with (Path.chars ".gm1") (Path.chars name) = true \/
     WatcherRuns.ends_with (Path.chars ".GM1") (Path.chars name) = true) /\
    (forall e pattern,
       In e entries -> In pattern SaveWatcher.patterns ->
       fnmatch (Path.chars pattern) (Path.chars (fst e)) = true ->
       (snd e <= mtime)%Z) /\
    parse_calls (trace (env s')) =
      (parse_calls (trace (env s)) ++ [save_directory +:+ "/" +:+ name])%list.
Proof.
  unfold SaveWatcher.process_existing_saves.
  remember (flat_map (SaveWatcher.glob save_directory entries)
              SaveWatcher.patterns) as save_files eqn:Hsf.
  destruct save_files as [|f0 fs].
  { left. unfold in_env, OS.logger, OS.emit, modify. cbn [snd env trace].
    rewrite WatcherFacts.parse_calls_app. simpl. by rewrite app_nil_r. }
  destruct (SaveWatcher.sort_by_mtime (f0 :: fs)) as [|latest rest] eqn:Hsort.
  { left. reflexivity. }
  right.
  assert (Hin : In latest (f0 :: fs)).
  { apply in_sort_by_mtime. rewrite Hsort. by left. }
  rewrite Hsf in Hin. apply in_flat_map in Hin as (pattern & Hpat & Hin).
  apply in_glob in Hin as ([name mtime] & He & Hm & ->). cbn [fst snd] in *.
  exists name, mtime. split; [exact He|].
  split; [by apply (pattern_match_ends pattern)|].
  split.
  - intros e pattern' He' Hpat' Hm'.
    pose proof (WatcherFacts.latest_is_most_recent _ _ _ Hsort) as Hmax.
    rewrite Hsf in Hmax. rewrite Forall_forall in Hmax.
    assert (Hin' : In (save_directory +:+ "/" +:+ fst e, snd e)
                     (flat_map (SaveWatcher.glob save_directory entries)
                        SaveWatcher.patterns)).
    { apply in_flat_map. exists pattern'. split; [done|].
      apply in_glob. eauto. }
    apply list_elem_of_In in Hin'. apply (Hmax _ Hin').
  - unfold run_parser, bind, ret, in_env, OS.logger, OS.print_json, OS.emit,
      modify. simpl.
    destruct (parse _) as [gs|]; simpl;
      [destruct (to_json (GameState.to_dict gs)); simpl|];
      rewrite !WatcherFacts.parse_calls_app; simpl;
      by rewrite ?app_nil_r.
Qed.

(** X22. A directory without a file whose name ends in [.gm1] or [.GM1]:
    the start-up scan logs that it found nothing and does nothing else,
    whatever other saves the directory holds. *)
Theorem startup_scan_without_gm1 (parse : string -> option GameState.t)
    (save_directory : string) (entries : SaveWatcher.directory) (s : st) :
  Forall
    (fun e =>
       WatcherRuns.ends_with (Path.chars ".gm1") (Path.chars (fst e)) = false /\
       WatcherRuns.ends_with (Path.chars ".GM1") (Path.chars (fst e)) = false)
    entries ->
  SaveWatcher.process_existing_saves parse save_directory entries s =
    (Ok tt,
     mkOW (self s)
       (mkWorld (files (env s)) (io_plan (env s))
          (trace (env s) ++ [Log INFO "No existing save files found"]))).
Proof.
  intros Hnone. unfold SaveWatcher.process_existing_saves.
  destruct (flat_map _ SaveWatcher.patterns) as [|f fs] eqn:Hfiles;
    [reflexivity|].
  exfalso.
  assert (Hin : In f (flat_map (SaveWatcher.glob save_directory entries)
                        SaveWatcher.patterns)) by (rewrite Hfiles; by left).
  apply in_flat_map in Hin as (pattern & Hpat & Hin).
  apply in_glob in Hin as (e & He & Hm & _).
  rewrite Forall_forall in Hnone. apply list_elem_of_In in He.
  destruct (Hnone _ He) as [Hlow Hup].
  destruct (pattern_match_ends pattern (fst e) Hpat Hm); congruence.
Qed.

(** X16 on an example: a text file. *)
Lemma rejected_events_do_nothing_witness :
  on_modified Examples.mock_parser 0%Z (mkEvent false "saves/notes.txt")
    Examples.fresh_handler = (Ok tt, Examples.fresh_handler).
Proof.
  apply (rejected_events_do_nothing Examples.mock_parser 0%Z
           (mkEvent false "saves/notes.txt") Examples.fresh_handler).
  right. reflexivity.
Defined.

(** X17 on an example: the first event on a save, on a new handler. *)
Lemma accepted_event_is_forwarded_witness :
  fst (on_modified Examples.mock_parser 0%Z (mkEvent false "saves/game.gm1")
         Examples.fresh_handler) = Ok tt /\
  trace (env (snd (on_modified Examples.mock_parser 0%Z
                     (mkEvent false "saves/game.gm1") Examples.fresh_handler))) =
    [Log INFO "Save file modified"; Parse "saves/game.gm1";
     Stdout (GameState.to_dict Examples.mock_game_state);
     Callback Examples.mock_game_state].
Proof.
  destruct (accepted_event_is_forwarded Examples.mock_parser 0%Z
              (mkEvent false "saves/game.gm1") Examples.mock_game_state
              MoreExamples.mock_json Examples.fresh_handler
              eq_refl eq_refl eq_refl) as (Hres & _ & _ & Htrace).
  split; [exact Hres|exact Htrace].
Defined.

(** X18 on an example: the parser fails, the next event comes 0.5 second
    later. *)
Lemma failed_parse_takes_the_window_witness :
  parse_calls
    (trace (env (snd (on_modified Examples.mock_parser 500000%Z
                        (mkEvent false "saves/game.gm1")
                        (snd (on_modified MoreExamples.failing_parser 0%Z
                                (mkEvent false "saves/game.gm1")
                                Examples.fresh_handler)))))) =
  parse_calls
    (trace (env (snd (on_modified MoreExamples.failing_parser 0%Z
                        (mkEvent false "saves/game.gm1")
                        Examples.fresh_handler)))).
Proof.
  apply (failed_parse_takes_the_window MoreExamples.failing_parser
           Examples.mock_parser 0%Z 500000%Z (mkEvent false "saves/game.gm1")
           Examples.fresh_handler); reflexivity.
Defined.

(** X19 on an example: two saves modified 0.1 second apart. *)
Lemma debounce_is_per_path_witness :
  parse_calls
    (trace (env (snd (on_modified Examples.mock_parser 100000%Z
                        (mkEvent false "saves/b.gm2")
                        (snd (on_modified Examples.mock_parser 0%Z
                                (mkEvent false "saves/a.gm1")
                                Examples.fresh_handler)))))) =
  ["saves/a.gm1"; "saves/b.gm2"].
Proof.
  apply (debounce_is_per_path Examples.mock_parser "saves/a.gm1" "saves/b.gm2"
           0%Z 100000%Z Examples.fresh_handler);
    [discriminate|reflexivity|reflexivity].
Defined.

(** X20 on an example: three events within a second of the recorded time,
    one of them before it. *)
Lemma burst_is_discarded_witness :
  exists w',
    WatcherRuns.on_modified_each Examples.mock_parser
      (map (fun t => (t, mkEvent false "saves/game.gm1"))
         [100000%Z; (-5)%Z; 999999%Z])
      MoreExamples.recorded_handler =
      (Ok tt, mkOW (self MoreExamples.recorded_handler) w') /\
    parse_calls (trace w') = [].
Proof.
  destruct (burst_is_discarded Examples.mock_parser "saves/game.gm1" 0%Z
              [100000%Z; (-5)%Z; 999999%Z] MoreExamples.recorded_handler)
    as (w' & Hrun & _ & Hp & _).
  - reflexivity.
  - repeat constructor.
  - exists w'. split; [exact Hrun|exact Hp].
Defined.

(** X21 on an example: the autosave is the latest of the matching files,
    the more recent [.gm2] save is passed over. *)
Lemma startup_scan_parses_the_latest_witness :
  parse_calls
    (trace (env (snd (SaveWatcher.process_existing_saves Examples.mock_parser
                        "saves"
                        [("a.gm1", 5%Z); ("autosave_1.gm1", 9%Z);
                         ("c.gm2", 20%Z)]
                        Examples.fresh_handler)))) =
    ["saves/autosave_1.gm1"] /\
  (parse_calls
     (trace (env (snd (SaveWatcher.process_existing_saves Examples.mock_parser
                         "saves"
                         [("a.gm1", 5%Z); ("autosave_1.gm1", 9%Z);
                          ("c.gm2", 20%Z)]
                         Examples.fresh_handler)))) =
   parse_calls (trace (env Examples.fresh_handler)) \/
   exists name mtime,
     In (name, mtime) [("a.gm1", 5%Z); ("autosave_1.gm1", 9%Z); ("c.gm2", 20%Z)] /\
     parse_calls
       (trace (env (snd (SaveWatcher.process_existing_saves
                           Examples.mock_parser "saves"
                           [("a.gm1", 5%Z); ("autosave_1.gm1", 9%Z);
                            ("c.gm2", 20%Z)]
                           Examples.fresh_handler)))) =
       (parse_calls (trace (env Examples.fresh_handler)) ++
        ["saves" +:+ "/" +:+ name])%list).
Proof.
  split; [reflexivity|].
  destruct (startup_scan_parses_the_latest Examples.mock_parser "saves"
              [("a.gm1", 5%Z); ("autosave_1.gm1", 9%Z); ("c.gm2", 20%Z)]
              Examples.fresh_handler) as [Hnone|(name & mtime & Hin & _ & _ & Hp)].
  - left. exact Hnone.
  - right. exists name, mtime. split; [exact Hin|exact Hp].
Defined.

(** X22 on an example: a directory with saves of the other suffixes. *)
Lemma startup_scan_without_gm1_witness :
  SaveWatcher.process_existing_saves Examples.mock_parser "saves"
    [("c.gm2", 20%Z); ("d.Gm1", 30%Z); ("notes.txt", 40%Z)]
    Examples.fresh_handler =
    (Ok tt,
     mkOW (self Examples.fresh_handler)
       (mkWorld (files (env Examples.fresh_handler))
          (io_plan (env Examples.fresh_handler))
          (trace (env Examples.fresh_handler) ++
           [Log INFO "No existing save files found"]))).
Proof.
  apply (startup_scan_without_gm1 Examples.mock_parser "saves"
           [("c.gm2", 20%Z); ("d.Gm1", 30%Z); ("notes.txt", 40%Z)]
           Examples.fresh_handler).
  repeat constructor.
Defined.

End WatcherExtras.

(** ** The snapshot model: reading a document back *)

Module ModelExtras.

Lemma init_tile (tile : Tile.t) :
  Dataclass.init FromDict.Tile_fields (Tile.to_dict tile) = Ok (Tile.asdict tile).
Proof. reflexivity. Qed.

Lemma init_hero (hero : Hero.t) :
  Dataclass.init FromDict.Hero_fields (Hero.to_dict hero) = Ok (Hero.asdict hero).
Proof.
  destruct hero as [n l a m p [?|] [?|] [?|] [?|] [?|] [?|]]; reflexivity.
Qed.

Lemma init_town (town : Town.t) :
  Dataclass.init FromDict.Town_fields (Town.to_dict town) = Ok (Town.asdict town).
Proof. destruct town as [n l o ty b g [?|]]; reflexivity. Qed.

Lemma init_each_map {A : Type} (fs : Dataclass.fields) (to_dict : A -> pyval)
    (asdict : A -> list (string * pyval)) (l : list A) :
  (forall a, Dataclass.init fs (to_dict a) = Ok (asdict a)) ->
  Dataclass.init_each fs (map to_dict l) = Ok (map asdict l).
Proof.
  intros Hinit. induction l as [|a l IH]; [reflexivity|].
  cbn [map Dataclass.init_each]. by rewrite Hinit, IH.
Qed.

(** X23. Reading back what [to_dict] writes: for every game state,
    [from_dict] of its document returns an object with the attributes of
    the game state (an empty resource mapping comes back as [None], the
    one difference), and the document of that object is the document it
    was read from. *)
Theorem from_dict_of_to_dict (g : GameState.t) :
  let back :=
    FromDict.mk (VInt (GameState.turn g)) (VInt (GameState.current_player g))
      (map Tile.asdict (GameState.visible_tiles g))
      (map Hero.asdict (GameState.heroes g))
      (map Town.asdict (GameState.towns g))
      match GameState.resources g with
      | Some (r :: rs) => int_dict (r :: rs)
      | _ => VNone
      end in
  FromDict.from_dict (GameState.to_dict g) = Ok back /\
  FromDict.to_dict back = GameState.to_dict g.
Proof.
  destruct g as [turn player tiles heroes towns resources].
  cbn [GameState.turn GameState.current_player GameState.visible_tiles
       GameState.heroes GameState.towns GameState.resources].
  assert (Htiles := init_each_map FromDict.Tile_fields Tile.to_dict Tile.asdict
                      tiles init_tile).
  assert (Hheroes := init_each_map FromDict.Hero_fields Hero.to_dict
                       Hero.asdict heroes init_hero).
  assert (Htowns := init_each_map FromDict.Town_fields Town.to_dict
                      Town.asdict towns init_town).
  split.
  - destruct resources as [[|r rs]|];
      unfold FromDict.from_dict, GameState.to_dict, Dataclass.init_all;
      cbn -[Dataclass.init_each FromDict.Tile_fields FromDict.Hero_fields
            FromDict.Town_fields Tile.to_dict Hero.to_dict Town.to_dict];
      by rewrite Htiles, Hheroes, Htowns.
  - unfold FromDict.to_dict, GameState.to_dict.
    cbn [FromDict.turn FromDict.current_player FromDict.visible_tiles
         FromDict.heroes FromDict.towns FromDict.resources].
    rewrite !map_map.
    destruct resources as [[|r rs]|]; reflexivity.
Qed.

Lemma init_each_error (fs : Dataclass.fields) (l : list pyval) (e : exn) :
  Dataclass.init_each fs l = Raise e -> e = TypeError.
Proof.
  induction l as [|x l IH]; [discriminate|]. cbn [Dataclass.init_each].
  destruct (Dataclass.init fs x) as [a|e0] eqn:Hx.
  - destruct (Dataclass.init_each fs l); [discriminate|].
    intros [= <-]. by apply IH.
  - intros [= <-]. unfold Dataclass.init in Hx.
    destruct x; try congruence.
    destruct (forallb _ d); [|congruence].
    clear -Hx. induction fs as [|f fs IHf]; [discriminate|].
    cbn [Dataclass.bind_fields] in Hx.
    destruct (Dataclass.bind_field d f) as [a|e1] eqn:Hf.
    + destruct (Dataclass.bind_fields d fs); [discriminate|].
      injection Hx as <-. by apply IHf.
    + injection Hx as <-. unfold Dataclass.bind_field in Hf.
      destruct (dict_get (fst f) d); [discriminate|].
      destruct (snd f); congruence.
Qed.

Lemma init_each_ok (fs : Dataclass.fields) (l : list pyval)
    (r : list (list (string * pyval))) (x : pyval) :
  Dataclass.init_each fs l = Ok r -> In x l ->
  exists a, Dataclass.init fs x = Ok a.
Proof.
  revert r. induction l as [|y l IH]; intros r Hok Hin; [done|].
  cbn [Dataclass.init_each] in Hok.
  destruct (Dataclass.init fs y) as [a|] eqn:Hy; [|discriminate].
  destruct (Dataclass.init_each fs l) as [r'|] eqn:Hl; [|discriminate].
  destruct Hin as [<-|Hin]; eauto.
Qed.

Lemma bind_fields_missing (kw : list (string * pyval)) (fs : Dataclass.fields)
    (k : string) :
  In (k, None) fs -> dict_get k kw = None ->
  Dataclass.bind_fields kw fs = Raise TypeError.
Proof.
  induction fs as [|f fs IH]; [done|]. intros [->|Hin] Hk.
  - cbn [Dataclass.bind_fields]. unfold Dataclass.bind_field. simpl.
    by rewrite Hk.
  - cbn [Dataclass.bind_fields].
    destruct (Dataclass.bind_field kw f) as [a|e] eqn:Hf.
    + by rewrite IH.
    + unfold Dataclass.bind_field in Hf.
      destruct (dict_get (fst f) kw); [discriminate|].
      destruct (snd f); congruence.
Qed.

Lemma init_bad_record (fs : Dataclass.fields) (kw : list (string * pyval))
    (k : string) :
  (is_Some (dict_get k kw) /\ existsb (String.eqb k) (map fst fs) = false) \/
  (In (k, None) fs /\ dict_get k kw = None) ->
  Dataclass.init fs (VDict kw) = Raise TypeError.
Proof.
  intros [[[v Hv] Hk]|[Hin Hk]]; unfold Dataclass.init.
  - assert (Hall : forallb
              (fun kv => existsb (String.eqb (fst kv)) (map fst fs)) kw = false).
    { clear -Hv Hk. induction kw as [|[k' v'] kw IH]; [discriminate|].
      simpl in *. destruct (String.eqb k k') eqn:Hkk.
      - apply String.eqb_eq in Hkk. subst k'. by rewrite Hk.
      - rewrite (IH Hv). apply andb_false_r. }
    by rewrite Hall.
  - destruct (forallb _ kw); [|reflexivity]. by apply bind_fields_missing with k.
Qed.

(** X24. A document with a record that the dataclass does not accept cannot
    be read back: when a tile, a hero or a town of the document has a key
    that is not a field of its class (as the [movementLeft] that the schema
    asks of a hero), or lacks a field without default, [from_dict] raises
    [TypeError]. *)
Theorem from_dict_rejects_bad_records (d : list (string * pyval))
    (key : string) (fs : Dataclass.fields) (records : list pyval)
    (kw : list (string * pyval)) (k : string) :
  In (key, fs)
    [("visibleTiles", FromDict.Tile_fields); ("heroes", FromDict.Hero_fields);
     ("towns", FromDict.Town_fields)] ->
  dict_get key d = Some (VList records) ->
  In (VDict kw) records ->
  (is_Some (dict_get k kw) /\ existsb (String.eqb k) (map fst fs) = false) \/
  (In (k, None) fs /\ dict_get k kw = None) ->
  FromDict.from_dict (VDict d) = Raise TypeError.
Proof.
  intros Hkey Hrecords Hin Hbad.
  pose proof (init_bad_record fs kw k Hbad) as Hinit.
  assert (Hfail : Dataclass.init_each fs records = Raise TypeError).
  { destruct (Dataclass.init_each fs records) as [r|e] eqn:Hr.
    - destruct (init_each_ok fs records r (VDict kw) Hr Hin). congruence.
    - by rewrite (init_each_error _ _ _ Hr). }
  assert (Hiter : forall v e, Dataclass.py_iter v = Raise e -> e = TypeError).
  { intros v e. destruct v; simpl; congruence. }
  unfold FromDict.from_dict, py_get, Dataclass.init_all.
  destruct Hkey as [[= <- <-]|[[= <- <-]|[[= <- <-]|[]]]];
    rewrite ?Hrecords; cbn [default id Dataclass.py_iter].
  - by rewrite Hfail.
  - destruct (Dataclass.py_iter (default _ (dict_get "visibleTiles" d)))
      as [l1|e1] eqn:H1; [|by rewrite (Hiter _ _ H1)].
    destruct (Dataclass.init_each FromDict.Tile_fields l1) as [r1|e1] eqn:Hr1;
      [|by rewrite (init_each_error _ _ _ Hr1)].
    by rewrite Hfail.
  - destruct (Dataclass.py_iter (default _ (dict_get "visibleTiles" d)))
      as [l1|e1] eqn:H1; [|by rewrite (Hiter _ _ H1)].
    destruct (Dataclass.init_each FromDict.Tile_fields l1) as [r1|e1] eqn:Hr1;
      [|by rewrite (init_each_error _ _ _ Hr1)].
    destruct (Dataclass.py_iter (default _ (dict_get "heroes" d)))
      as [l2|e2] eqn:H2; [|by rewrite (Hiter _ _ H2)].
    destruct (Dataclass.init_each FromDict.Hero_fields l2) as [r2|e2] eqn:Hr2;
      [|by rewrite (init_each_error _ _ _ Hr2)].
    by rewrite Hfail.
Qed.

(** X24 on an example: a hero written as the schema asks. *)
Lemma from_dict_rejects_bad_records_witness :
  FromDict.from_dict
    (VDict [("turn", VInt 3);
            ("heroes",
              VList [VDict [("name", VStr "Ivor");
                            ("location", VDict [("x", VInt 1); ("y", VInt 2)]);
                            ("army", VList []);
                            ("movementLeft", VInt 578);
                            ("primaryStats", VDict [])]])]) =
    Raise TypeError.
Proof.
  apply (from_dict_rejects_bad_records _ "heroes" FromDict.Hero_fields
           [VDict [("name", VStr "Ivor");
                   ("location", VDict [("x", VInt 1); ("y", VInt 2)]);
                   ("army", VList []);
                   ("movementLeft", VInt 578);
                   ("primaryStats", VDict [])]]
           [("name", VStr "Ivor");
            ("location", VDict [("x", VInt 1); ("y", VInt 2)]);
            ("army", VList []);
            ("movementLeft", VInt 578);
            ("primaryStats", VDict [])]
           "movementLeft").
  - right. left. reflexivity.
  - reflexivity.
  - left. reflexivity.
  - left. split; [by eexists|reflexivity].
Defined.

End ModelExtras.

(** ** The snapshot store with objects: what [update] keeps *)

Module HeapExtras.
Import Heap.

(** X25. [update] keeps a copy of its own: after [update(game_state)] with
    a dictionary (not empty), an assignment by the caller in that same
    dictionary succeeds and changes the caller's object only; the store
    holds another object, which has the items of the time of the update,
    and the [get_latest()] that follows returns a third object with those
    items. *)
Theorem update_keeps_its_own_copy (c : t) (h : heap) (l : nat)
    (d : list (string * hval)) (k : string) (v : hval) :
  h !! l = Some (HDict d) -> d <> [] ->
  exists (kept got : nat) (h' : heap),
    (update (HRef l) ;;; setitem (HRef l) k v ;;; get_latest) (c, h) =
      (Ok (HRef got), (mk (HRef kept), h')) /\
    kept <> l /\ got <> l /\ got <> kept /\
    h' !! l = Some (HDict (dict_set k v d)) /\
    h' !! kept = Some (HDict d) /\
    h' !! got = Some (HDict d) /\
    (forall a, a < length h -> a <> l -> h' !! a = h !! a).
Proof.
  intros Hl Hd.
  assert (Hlt : l < length h) by (eapply lookup_lt_Some; eauto).
  exists (length h), (S (length h)),
    (<[l := HDict (dict_set k v d)]> (h ++ [HDict d]) ++ [HDict d])%list.
  assert (Hl1 : (h ++ [HDict d])%list !! l = Some (HDict d)).
  { by rewrite lookup_app_l. }
  assert (Hkept : <[l := HDict (dict_set k v d)]> (h ++ [HDict d])%list
                    !! length h = Some (HDict d)).
  { rewrite list_lookup_insert_ne by lia.
    rewrite lookup_app_r by lia. by rewrite Nat.sub_diag. }
  assert (Hlen : length (<[l := HDict (dict_set k v d)]> (h ++ [HDict d])%list)
                 = S (length h)).
  { rewrite length_insert, length_app. simpl. lia. }
  split.
  { unfold update, setitem, get_latest, bind, copy, modify, get_state, alloc,
      truthy.
    cbn [fst snd]. rewrite Hl. cbn [fst snd _state]. rewrite Hl1.
    cbn [fst snd _state]. rewrite Hkept.
    destruct d as [|kv d]; [done|]. cbn [length Nat.eqb negb].
    cbn [fst snd]. rewrite Hkept. by rewrite Hlen. }
  split; [lia|]. split; [lia|]. split; [lia|].
  split.
  { rewrite lookup_app_l by (rewrite Hlen; lia).
    rewrite list_lookup_insert_eq; [done|]. rewrite length_app. simpl. lia. }
  split.
  { rewrite lookup_app_l by (rewrite Hlen; lia). exact Hkept. }
  split.
  { rewrite lookup_app_r by (rewrite Hlen; lia). rewrite Hlen.
    by rewrite Nat.sub_diag. }
  intros a Ha Hal. rewrite lookup_app_l by (rewrite Hlen; lia).
  rewrite list_lookup_insert_ne by lia. by rewrite lookup_app_l.
Qed.

(** X25 on an example: the snapshot at address 1 of the heap of the
    examples is given to the store, then its turn is set to 8. *)
Lemma update_keeps_its_own_copy_witness :
  exists (kept got : nat) (h' : heap),
    (update (HRef 1) ;;; setitem (HRef 1) "turn" (HInt 8) ;;; get_latest)
      (mk HNone, Examples.nested_heap) =
      (Ok (HRef got), (mk (HRef kept), h')) /\
    kept <> 1 /\ got <> 1 /\ got <> kept /\
    h' !! 1 =
      Some (HDict (dict_set "turn" (HInt 8)
                     [("turn", HInt 7); ("hero", HRef 0)])) /\
    h' !! kept = Some (HDict [("turn", HInt 7); ("hero", HRef 0)]) /\
    h' !! got = Some (HDict [("turn", HInt 7); ("hero", HRef 0)]) /\
    (forall a, a < length Examples.nested_heap -> a <> 1 ->
       h' !! a = Examples.nested_heap !! a).
Proof.
  apply (update_keeps_its_own_copy (mk HNone) Examples.nested_heap 1
           [("turn", HInt 7); ("hero", HRef 0)] "turn" (HInt 8));
    [reflexivity|discriminate].
Defined.

End HeapExtras.
